(** * GPS L1 C/A DLL + PLL tracking block: a functional model and its properties

    This development embeds
    [src/algorithms/tracking/gnuradio_blocks/gps_l1_ca_dll_pll_tracking_cc.cc]
    (class [Gps_L1_Ca_Dll_Pll_Tracking_cc]) as Rocq functions and states the
    properties of its specification as theorems about them.

    Conventions of the embedding.

    - The class is a record [State] holding the [d_...] members; every member
      function is a function on [State].  Members are updated with setters
      [set_d_...], one statement of the C++ per [let].
    - [float] and [double] values are _idealised_: a value is either an exact
      rational number or [Fnan].  Rounding error is not modelled, and every
      non-finite result (a NaN, and the infinity a division by zero gives)
      is [Fnan].  [std::isnan], comparisons with a NaN, [fmod] (truncated
      remainder, sign of the dividend) and [std::round] (halves away from
      zero; [boost::math::round] rounds the same way) follow C++.
    - [unsigned long] is 64 bits wide with its wrap-around written out;
      [int] is 32 bits wide.  The conversion of a floating value to [int] is
      undefined in C++ when the value is a NaN or does not fit: the model
      returns [None] there, as it does for a read or a write outside an
      array and for an integer division by zero.
    - Collaborators that live in other files (correlator, discriminators,
      loop filters, C/N0 estimator, lock detector, PRN generator, [cos],
      [sin]) are the fields of the class [Collaborators].
    - Writes to [std::cout], to the log and to the dump file are not
      modelled; they change none of the members below.
    - Where rounding could change what a statement says of the program,
      the statement takes as a hypothesis what makes the arithmetic of the
      program exact: whole numbers small enough for [float], code phases
      exactly one period apart, a bounded code phase step. *)

From Stdlib Require Import ZArith QArith Qround Qabs Lia Lqa.
From stdpp Require Import base option list.

Local Open Scope Z_scope.

(** ** Idealised floating-point values *)

Inductive float : Type :=
  | Fnum (q : Q)
  | Fnan.

(** [double] is idealised the same way as [float]. *)
Abbreviation double := float (only parsing).

Declare Scope float_scope.
Delimit Scope float_scope with F.
Bind Scope float_scope with float.

Definition float_of_Z (z : Z) : float := Fnum (inject_Z z).

Definition fzero : float := float_of_Z 0.
Definition fone : float := float_of_Z 1.

(** The results of the operations are kept in lowest terms ([Qred]), which
    changes no value and keeps the numbers of a long run small. *)
Definition fopp (a : float) : float :=
  match a with Fnum x => Fnum (Qred (- x)) | Fnan => Fnan end.

Definition fadd (a b : float) : float :=
  match a, b with Fnum x, Fnum y => Fnum (Qred (x + y)) | _, _ => Fnan end.

Definition fsub (a b : float) : float :=
  match a, b with Fnum x, Fnum y => Fnum (Qred (x - y)) | _, _ => Fnan end.

Definition fmul (a b : float) : float :=
  match a, b with Fnum x, Fnum y => Fnum (Qred (x * y)) | _, _ => Fnan end.

(** A division by zero gives a non-finite value. *)
Definition fdiv (a b : float) : float :=
  match a, b with
  | Fnum x, Fnum y => if Qeq_bool y 0 then Fnan else Fnum (Qred (x / y))
  | _, _ => Fnan
  end.

Definition Qlt_bool (x y : Q) : bool := negb (Qle_bool y x).

(** [a < b] and [a > b] of C++: false as soon as an operand is a NaN. *)
Definition fltb (a b : float) : bool :=
  match a, b with Fnum x, Fnum y => Qlt_bool x y | _, _ => false end.

Definition fgtb (a b : float) : bool := fltb b a.

Definition isnan (a : float) : bool :=
  match a with Fnum _ => false | Fnan => true end.

(** Integer part, towards zero. *)
Definition Qtrunc (q : Q) : Z :=
  if Qle_bool 0 q then Qfloor q else Qceiling q.

(** Nearest integer, halves away from zero ([std::round]). *)
Definition Qround_away (q : Q) : Z :=
  if Qle_bool 0 q then Qfloor (q + (1 # 2)) else Qceiling (q - (1 # 2)).

Definition Qfmod (x y : Q) : Q := x - inject_Z (Qtrunc (x / y)) * y.

(** [fmod(a, b)]: NaN when [b] is zero. *)
Definition fmod (a b : float) : float :=
  match a, b with
  | Fnum x, Fnum y => if Qeq_bool y 0 then Fnan else Fnum (Qred (Qfmod x y))
  | _, _ => Fnan
  end.

(** [std::round(a)], still a floating value. *)
Definition round (a : float) : float :=
  match a with Fnum x => float_of_Z (Qround_away x) | Fnan => Fnan end.

Infix "+" := fadd : float_scope.
Infix "-" := fsub : float_scope.
Infix "*" := fmul : float_scope.
Infix "/" := fdiv : float_scope.
Notation "- x" := (fopp x) : float_scope.
Infix "<?" := fltb : float_scope.
Infix ">?" := fgtb : float_scope.

(** Equality of idealised values: the same rational, or both NaN. *)
Definition feq (a b : float) : Prop :=
  match a, b with
  | Fnum x, Fnum y => x == y
  | Fnan, Fnan => True
  | _, _ => False
  end.

(** ** Machine integers *)

Definition INT_MIN : Z := - 2 ^ 31.
Definition INT_MAX : Z := 2 ^ 31 - 1.
Definition ULONG_MODULUS : Z := 2 ^ 64.

(** Conversion of a floating value to [int]: truncation; undefined (here
    [None]) for a NaN and for a value outside the range of [int]. *)
Definition float_to_int (a : float) : option Z :=
  match a with
  | Fnum x =>
      let z := Qtrunc x in
      if (INT_MIN <=? z) && (z <=? INT_MAX) then Some z else None
  | Fnan => None
  end.

(** Conversion to [unsigned long], and unsigned arithmetic modulo 2^64. *)
Definition to_ulong (z : Z) : Z := z mod ULONG_MODULUS.
Definition ulong_add (a b : Z) : Z := to_ulong (a + b).
Definition ulong_sub (a b : Z) : Z := to_ulong (a - b).

(** Conversion of an integer that does not fit to [int]: reduced modulo 2^32
    into the signed range (what GCC defines). *)
Definition to_int (z : Z) : Z := (z + 2 ^ 31) mod 2 ^ 32 - 2 ^ 31.

(** Unsigned division; [None] when the divisor is zero. *)
Definition ulong_div (a b : Z) : option Z :=
  if b =? 0 then None else Some (a / b).

(** ** Arrays *)

(** [a[i]] with an [int] index: [None] outside the array. *)
Definition array_get {A} (a : list A) (i : Z) : option A :=
  if i <? 0 then None else a !! Z.to_nat i.

(** [a[i] = v]: [None] outside the array. *)
Definition array_set {A} (a : list A) (i : Z) (v : A) : option (list A) :=
  if (0 <=? i) && (i <? Z.of_nat (length a))
  then Some (<[Z.to_nat i := v]> a) else None.

(** ** Complex samples and the record exchanged with the other blocks *)

Record gr_complex : Type := Complex { real : float; imag : float }.

Definition czero : gr_complex := Complex fzero fzero.

(** Modelled from the spec: the class [Gnss_Synchro] ([gnss_synchro.h] is not
    part of the sources at hand).  The fields are the ones this block reads
    and writes and the spec lists for the output record; a default-built
    record is the spec's "zeroed record". *)
Record Gnss_Synchro : Type := {
  System : Z;
  PRN : Z;
  Acq_delay_samples : double;
  Acq_doppler_hz : double;
  Acq_samplestamp_samples : Z;
  Prompt_I : double;
  Prompt_Q : double;
  Tracking_timestamp_secs : double;
  Carrier_phase_rads : double;
  Code_phase_secs : double;
  CN0_dB_hz : double;
  Flag_valid_tracking : bool
}.

Definition Gnss_Synchro_default : Gnss_Synchro :=
  {| System := 0; PRN := 0;
     Acq_delay_samples := fzero; Acq_doppler_hz := fzero;
     Acq_samplestamp_samples := 0;
     Prompt_I := fzero; Prompt_Q := fzero;
     Tracking_timestamp_secs := fzero;
     Carrier_phase_rads := fzero; Code_phase_secs := fzero;
     CN0_dB_hz := fzero; Flag_valid_tracking := false |}.

(** ** Constants *)

(** Modelled from the spec: the constants of [GPS_L1_CA.h] (not part of the
    sources at hand), with the exact values the spec gives. *)
Definition GPS_L1_FREQ_HZ : float := float_of_Z 1575420000.
Definition GPS_L1_CA_CODE_RATE_HZ : float := float_of_Z 1023000.
Definition GPS_L1_CA_CODE_LENGTH_CHIPS : float := float_of_Z 1023.

(** The [#define]s at the head of the file. *)
Definition CN0_ESTIMATION_SAMPLES : Z := 10.
Definition MINIMUM_VALID_CN0 : Z := 25.
Definition MAXIMUM_LOCK_FAIL_COUNTER : Z := 200.

(** ** Collaborators

    Everything this file calls and another file defines.  The loop filters
    are objects with a state of their own; the other collaborators are
    functions of their arguments. *)

Class Collaborators : Type := {
  (** [GPS_TWO_PI] of [GPS_L1_CA.h]. *)
  GPS_TWO_PI : double;
  cos : float -> float;
  sin : float -> float;
  (** [code_gen_conplex(dest, prn, chip_shift)] of
      [gps_sdr_signal_processing.h]: the chips it stores from [dest] on. *)
  code_gen_conplex : Z -> Z -> list gr_complex;
  (** The code loop filter ([Tracking_2nd_DLL_filter]). *)
  Tracking_2nd_DLL_filter : Type;
  DLL_filter_new : Tracking_2nd_DLL_filter;
  set_DLL_BW : float -> Tracking_2nd_DLL_filter -> Tracking_2nd_DLL_filter;
  DLL_initialize : float -> Tracking_2nd_DLL_filter -> Tracking_2nd_DLL_filter;
  get_code_nco :
    float -> Tracking_2nd_DLL_filter -> float * Tracking_2nd_DLL_filter;
  (** The carrier loop filter ([Tracking_2nd_PLL_filter]). *)
  Tracking_2nd_PLL_filter : Type;
  PLL_filter_new : Tracking_2nd_PLL_filter;
  set_PLL_BW : float -> Tracking_2nd_PLL_filter -> Tracking_2nd_PLL_filter;
  PLL_initialize : float -> Tracking_2nd_PLL_filter -> Tracking_2nd_PLL_filter;
  get_carrier_nco :
    float -> Tracking_2nd_PLL_filter -> float * Tracking_2nd_PLL_filter;
  (** [d_correlator.Carrier_wipeoff_and_EPL_volk(n, in, carr, E, P, L, ...)]:
      the Early, Prompt and Late correlator outputs. *)
  Carrier_wipeoff_and_EPL_volk :
    Z -> list gr_complex -> list gr_complex ->
    list gr_complex -> list gr_complex -> list gr_complex ->
    gr_complex * gr_complex * gr_complex;
  (** The discriminators of [tracking_discriminators.h]. *)
  pll_cloop_two_quadrant_atan : gr_complex -> float;
  dll_nc_e_minus_l_normalized : gr_complex -> gr_complex -> float;
  (** The estimators of [CN_estimators.h]. *)
  gps_l1_ca_CN0_SNV : list gr_complex -> Z -> Z -> float;
  carrier_lock_detector : list gr_complex -> Z -> float
}.

Section Tracking.

Context `{Collab : Collaborators}.

(** ** The members of [Gps_L1_Ca_Dll_Pll_Tracking_cc]

    [d_acquisition_gnss_synchro] is a pointer in the C++; the member here is
    the record it points to.  [d_channel_internal_queue] is the control
    sink: the messages pushed so far, oldest first. *)

Record State : Type := {
  d_dump : bool;
  d_if_freq : Z;
  d_fs_in : Z;
  d_vector_length : Z;
  d_code_loop_filter : Tracking_2nd_DLL_filter;
  d_carrier_loop_filter : Tracking_2nd_PLL_filter;
  d_early_late_spc_chips : float;
  d_ca_code : list gr_complex;
  d_carr_sign : list gr_complex;
  d_early_code : list gr_complex;
  d_late_code : list gr_complex;
  d_prompt_code : list gr_complex;
  d_Early : gr_complex;
  d_Prompt : gr_complex;
  d_Late : gr_complex;
  d_code_freq_hz : float;
  d_rem_code_phase_samples : float;
  d_rem_carr_phase_rad : float;
  d_sample_counter : Z;
  d_sample_counter_seconds : double;
  d_acq_sample_stamp : Z;
  d_enable_tracking : bool;
  d_pull_in : bool;
  d_last_seg : Z;
  d_current_prn_length_samples : Z;
  d_cn0_estimation_counter : Z;
  d_Prompt_buffer : list gr_complex;
  d_carrier_lock_test : float;
  d_CN0_SNV_dB_Hz : float;
  d_carrier_lock_fail_counter : Z;
  d_carrier_lock_threshold : float;
  d_acquisition_gnss_synchro : Gnss_Synchro;
  d_acq_code_phase_samples : float;
  d_acq_carrier_doppler_hz : float;
  d_next_prn_length_samples : Z;
  d_carrier_doppler_hz : float;
  d_next_rem_code_phase_samples : float;
  d_acc_carrier_phase_rad : float;
  d_code_phase_samples : float;
  d_channel : Z;
  d_code_phase_step_chips : float;
  d_channel_internal_queue : list Z
}.

Definition State_eta (s : State) : State :=
  Build_State
    (d_dump s) (d_if_freq s) (d_fs_in s) (d_vector_length s)
    (d_code_loop_filter s) (d_carrier_loop_filter s)
    (d_early_late_spc_chips s) (d_ca_code s) (d_carr_sign s) (d_early_code s)
    (d_late_code s) (d_prompt_code s) (d_Early s) (d_Prompt s) (d_Late s)
    (d_code_freq_hz s) (d_rem_code_phase_samples s) (d_rem_carr_phase_rad s)
    (d_sample_counter s) (d_sample_counter_seconds s) (d_acq_sample_stamp s)
    (d_enable_tracking s) (d_pull_in s) (d_last_seg s)
    (d_current_prn_length_samples s) (d_cn0_estimation_counter s)
    (d_Prompt_buffer s) (d_carrier_lock_test s) (d_CN0_SNV_dB_Hz s)
    (d_carrier_lock_fail_counter s) (d_carrier_lock_threshold s)
    (d_acquisition_gnss_synchro s) (d_acq_code_phase_samples s)
    (d_acq_carrier_doppler_hz s) (d_next_prn_length_samples s)
    (d_carrier_doppler_hz s) (d_next_rem_code_phase_samples s)
    (d_acc_carrier_phase_rad s) (d_code_phase_samples s) (d_channel s)
    (d_code_phase_step_chips s) (d_channel_internal_queue s).

(** [setter proj v s]: the state [s] with the member [proj] replaced by [v]. *)
Ltac setter proj v s :=
  let e := eval cbv [State_eta] in (State_eta s) in
  match eval pattern (proj s) in e with
  | ?f _ => exact (f v)
  end.

Definition set_d_dump (v : bool) (s : State) : State :=
  ltac:(setter d_dump v s).
Definition set_d_if_freq (v : Z) (s : State) : State :=
  ltac:(setter d_if_freq v s).
Definition set_d_fs_in (v : Z) (s : State) : State :=
  ltac:(setter d_fs_in v s).
Definition set_d_vector_length (v : Z) (s : State) : State :=
  ltac:(setter d_vector_length v s).
Definition set_d_code_loop_filter (v : Tracking_2nd_DLL_filter) (s : State) : State :=
  ltac:(setter d_code_loop_filter v s).
Definition set_d_carrier_loop_filter (v : Tracking_2nd_PLL_filter) (s : State) : State :=
  ltac:(setter d_carrier_loop_filter v s).
Definition set_d_early_late_spc_chips (v : float) (s : State) : State :=
  ltac:(setter d_early_late_spc_chips v s).
Definition set_d_ca_code (v : list gr_complex) (s : State) : State :=
  ltac:(setter d_ca_code v s).
Definition set_d_carr_sign (v : list gr_complex) (s : State) : State :=
  ltac:(setter d_carr_sign v s).
Definition set_d_early_code (v : list gr_complex) (s : State) : State :=
  ltac:(setter d_early_code v s).
Definition set_d_late_code (v : list gr_complex) (s : State) : State :=
  ltac:(setter d_late_code v s).
Definition set_d_prompt_code (v : list gr_complex) (s : State) : State :=
  ltac:(setter d_prompt_code v s).
Definition set_d_Early (v : gr_complex) (s : State) : State :=
  ltac:(setter d_Early v s).
Definition set_d_Prompt (v : gr_complex) (s : State) : State :=
  ltac:(setter d_Prompt v s).
Definition set_d_Late (v : gr_complex) (s : State) : State :=
  ltac:(setter d_Late v s).
Definition set_d_code_freq_hz (v : float) (s : State) : State :=
  ltac:(setter d_code_freq_hz v s).
Definition set_d_rem_code_phase_samples (v : float) (s : State) : State :=
  ltac:(setter d_rem_code_phase_samples v s).
Definition set_d_rem_carr_phase_rad (v : float) (s : State) : State :=
  ltac:(setter d_rem_carr_phase_rad v s).
Definition set_d_sample_counter (v : Z) (s : State) : State :=
  ltac:(setter d_sample_counter v s).
Definition set_d_sample_counter_seconds (v : double) (s : State) : State :=
  ltac:(setter d_sample_counter_seconds v s).
Definition set_d_acq_sample_stamp (v : Z) (s : State) : State :=
  ltac:(setter d_acq_sample_stamp v s).
Definition set_d_enable_tracking (v : bool) (s : State) : State :=
  ltac:(setter d_enable_tracking v s).
Definition set_d_pull_in (v : bool) (s : State) : State :=
  ltac:(setter d_pull_in v s).
Definition set_d_last_seg (v : Z) (s : State) : State :=
  ltac:(setter d_last_seg v s).
Definition set_d_current_prn_length_samples (v : Z) (s : State) : State :=
  ltac:(setter d_current_prn_length_samples v s).
Definition set_d_cn0_estimation_counter (v : Z) (s : State) : State :=
  ltac:(setter d_cn0_estimation_counter v s).
Definition set_d_Prompt_buffer (v : list gr_complex) (s : State) : State :=
  ltac:(setter d_Prompt_buffer v s).
Definition set_d_carrier_lock_test (v : float) (s : State) : State :=
  ltac:(setter d_carrier_lock_test v s).
Definition set_d_CN0_SNV_dB_Hz (v : float) (s : State) : State :=
  ltac:(setter d_CN0_SNV_dB_Hz v s).
Definition set_d_carrier_lock_fail_counter (v : Z) (s : State) : State :=
  ltac:(setter d_carrier_lock_fail_counter v s).
Definition set_d_carrier_lock_threshold (v : float) (s : State) : State :=
  ltac:(setter d_carrier_lock_threshold v s).
Definition set_d_acquisition_gnss_synchro (v : Gnss_Synchro) (s : State) : State :=
  ltac:(setter d_acquisition_gnss_synchro v s).
Definition set_d_acq_code_phase_samples (v : float) (s : State) : State :=
  ltac:(setter d_acq_code_phase_samples v s).
Definition set_d_acq_carrier_doppler_hz (v : float) (s : State) : State :=
  ltac:(setter d_acq_carrier_doppler_hz v s).
Definition set_d_next_prn_length_samples (v : Z) (s : State) : State :=
  ltac:(setter d_next_prn_length_samples v s).
Definition set_d_carrier_doppler_hz (v : float) (s : State) : State :=
  ltac:(setter d_carrier_doppler_hz v s).
Definition set_d_next_rem_code_phase_samples (v : float) (s : State) : State :=
  ltac:(setter d_next_rem_code_phase_samples v s).
Definition set_d_acc_carrier_phase_rad (v : float) (s : State) : State :=
  ltac:(setter d_acc_carrier_phase_rad v s).
Definition set_d_code_phase_samples (v : float) (s : State) : State :=
  ltac:(setter d_code_phase_samples v s).
Definition set_d_channel (v : Z) (s : State) : State :=
  ltac:(setter d_channel v s).
Definition set_d_code_phase_step_chips (v : float) (s : State) : State :=
  ltac:(setter d_code_phase_step_chips v s).
Definition set_d_channel_internal_queue (v : list Z) (s : State) : State :=
  ltac:(setter d_channel_internal_queue v s).

(** ** The calls of the runtime *)

(** What one call of [general_work] is given: [ninput_items[0]], the input
    samples, and the content of the output slot [*out[0]] before the call. *)
Record Work_input : Type := {
  ninput_items : Z;
  input_items : list gr_complex;
  output_items : Gnss_Synchro
}.

(** What one call of [general_work] leaves behind: the argument of
    [consume_each], the value returned (the number of output items the
    block says it produced) and the content of [*out[0]] after the call. *)
Record Work_output : Type := {
  consumed : Z;
  returned : Z;
  out0 : Gnss_Synchro
}.

(** [forecast]: the number of input samples required for a call. *)
Definition forecast (s : State) : Z := to_int (d_vector_length s) * 2.

(** ** Constructor

    [uninit] stands for the memory of the object before the constructor
    runs: a member the constructor does not assign keeps the value it has
    there.  [new gr_complex[n]] builds [n] zeros.  A buffer that
    [posix_memalign] returns is not written by the constructor: it holds
    what the memory held. *)

Definition code_length_chips : Z := 1023.

(** [posix_memalign]: space for [n] entries, with the content that the
    memory has there: the entries of [memory], and zeros where [memory]
    has none. *)
Definition posix_memalign (n : nat) (memory : list gr_complex)
    : list gr_complex :=
  resize n czero memory.

Definition Gps_L1_Ca_Dll_Pll_Tracking_cc
    (uninit : State) (if_freq fs_in vector_length : Z) (dump : bool)
    (pll_bw_hz dll_bw_hz early_late_space_chips : float) : State :=
  let s := uninit in
  let s := set_d_dump dump s in
  let s := set_d_if_freq if_freq s in
  let s := set_d_fs_in fs_in s in
  let s := set_d_vector_length vector_length s in
  let s := set_d_code_loop_filter (set_DLL_BW dll_bw_hz DLL_filter_new) s in
  let s := set_d_carrier_loop_filter (set_PLL_BW pll_bw_hz PLL_filter_new) s in
  let s := set_d_early_late_spc_chips early_late_space_chips s in
  let s := set_d_ca_code (replicate (Z.to_nat (code_length_chips + 2)) czero) s in
  let s := set_d_carr_sign
             (replicate (Z.to_nat (d_vector_length s * 2)) czero) s in
  let s := set_d_early_code
             (posix_memalign (Z.to_nat (d_vector_length s * 2))
                (d_early_code uninit)) s in
  let s := set_d_late_code
             (posix_memalign (Z.to_nat (d_vector_length s * 2))
                (d_late_code uninit)) s in
  let s := set_d_prompt_code
             (posix_memalign (Z.to_nat (d_vector_length s * 2))
                (d_prompt_code uninit)) s in
  let s := set_d_carr_sign
             (posix_memalign (Z.to_nat (d_vector_length s * 2))
                (d_carr_sign uninit)) s in
  let s := set_d_Early (d_Early uninit) s in
  let s := set_d_Prompt (d_Prompt uninit) s in
  let s := set_d_Late (d_Late uninit) s in
  let s := set_d_code_freq_hz GPS_L1_CA_CODE_RATE_HZ s in
  let s := set_d_rem_code_phase_samples fzero s in
  let s := set_d_rem_carr_phase_rad fzero s in
  let s := set_d_sample_counter 0 s in
  let s := set_d_sample_counter_seconds fzero s in
  let s := set_d_acq_sample_stamp 0 s in
  let s := set_d_enable_tracking false s in
  let s := set_d_pull_in false s in
  let s := set_d_last_seg 0 s in
  let s := set_d_current_prn_length_samples (to_int (d_vector_length s)) s in
  let s := set_d_cn0_estimation_counter 0 s in
  let s := set_d_Prompt_buffer
             (replicate (Z.to_nat CN0_ESTIMATION_SAMPLES) czero) s in
  let s := set_d_carrier_lock_test fone s in
  let s := set_d_CN0_SNV_dB_Hz fzero s in
  let s := set_d_carrier_lock_fail_counter 0 s in
  let s := set_d_carrier_lock_threshold (float_of_Z 5) s in
  s.

(** ** The setters of the public interface *)

Definition set_channel (channel : Z) (s : State) : State :=
  set_d_channel channel s.

Definition set_channel_queue (channel_internal_queue : list Z) (s : State)
    : State :=
  set_d_channel_internal_queue channel_internal_queue s.

Definition set_gnss_synchro (p_gnss_synchro : Gnss_Synchro) (s : State)
    : State :=
  set_d_acquisition_gnss_synchro p_gnss_synchro s.

(** ** [start_tracking] *)

(** The local [T_prn_true_samples] of [start_tracking] and of
    [general_work]: the length in samples of a PRN period at the nominal
    code rate. *)
Definition T_prn_true_samples (fs_in : Z) : float :=
  let T_prn_true_seconds :=
    (GPS_L1_CA_CODE_LENGTH_CHIPS / GPS_L1_CA_CODE_RATE_HZ)%F in
  (T_prn_true_seconds * float_of_Z fs_in)%F.

(** [code_gen_conplex(&a[i], ...)]: the chips are stored from [a[i]] on. *)
Fixpoint array_store_from {A} (a : list A) (i : Z) (vs : list A)
    : option (list A) :=
  match vs with
  | [] => Some a
  | v :: vs' => a' ← array_set a i v; array_store_from a' (i + 1) vs'
  end.

Definition start_tracking (s : State) : option State :=
  let s := set_d_acq_code_phase_samples
             (Acq_delay_samples (d_acquisition_gnss_synchro s)) s in
  let s := set_d_acq_carrier_doppler_hz
             (Acq_doppler_hz (d_acquisition_gnss_synchro s)) s in
  let s := set_d_acq_sample_stamp
             (Acq_samplestamp_samples (d_acquisition_gnss_synchro s)) s in
  let acq_trk_diff_samples :=
    ulong_sub (d_sample_counter s) (d_acq_sample_stamp s) in
  let acq_trk_diff_seconds :=
    (float_of_Z acq_trk_diff_samples / float_of_Z (d_fs_in s))%F in
  let radial_velocity :=
    ((GPS_L1_FREQ_HZ + d_acq_carrier_doppler_hz s) / GPS_L1_FREQ_HZ)%F in
  let s := set_d_code_freq_hz
             (radial_velocity * GPS_L1_CA_CODE_RATE_HZ)%F s in
  let T_chip_mod_seconds := (fone / d_code_freq_hz s)%F in
  let T_prn_mod_seconds :=
    (T_chip_mod_seconds * GPS_L1_CA_CODE_LENGTH_CHIPS)%F in
  let T_prn_mod_samples := (T_prn_mod_seconds * float_of_Z (d_fs_in s))%F in
  next_prn_length_samples ← float_to_int (round T_prn_mod_samples);
  let s := set_d_next_prn_length_samples next_prn_length_samples s in
  let T_prn_true_seconds :=
    (GPS_L1_CA_CODE_LENGTH_CHIPS / GPS_L1_CA_CODE_RATE_HZ)%F in
  let T_prn_diff_seconds := (T_prn_true_seconds - T_prn_mod_seconds)%F in
  let N_prn_diff := (acq_trk_diff_seconds / T_prn_true_seconds)%F in
  let corrected_acq_phase_samples :=
    fmod (d_acq_code_phase_samples s
          + T_prn_diff_seconds * N_prn_diff * float_of_Z (d_fs_in s))%F
         (T_prn_true_samples (d_fs_in s)) in
  let corrected_acq_phase_samples :=
    if (corrected_acq_phase_samples <? fzero)%F
    then (T_prn_mod_samples + corrected_acq_phase_samples)%F
    else corrected_acq_phase_samples in
  let s := set_d_acq_code_phase_samples corrected_acq_phase_samples s in
  let s := set_d_carrier_doppler_hz (d_acq_carrier_doppler_hz s) s in
  let s := set_d_carrier_loop_filter
             (PLL_initialize (d_carrier_doppler_hz s)
                (d_carrier_loop_filter s)) s in
  let s := set_d_code_loop_filter
             (DLL_initialize (d_acq_code_phase_samples s)
                (d_code_loop_filter s)) s in
  ca_code ← array_store_from (d_ca_code s) 1
              (code_gen_conplex (PRN (d_acquisition_gnss_synchro s)) 0);
  last_chip ← array_get ca_code code_length_chips;
  ca_code ← array_set ca_code 0 last_chip;
  first_chip ← array_get ca_code 1;
  ca_code ← array_set ca_code (code_length_chips + 1) first_chip;
  let s := set_d_ca_code ca_code s in
  let s := set_d_carrier_lock_fail_counter 0 s in
  let s := set_d_rem_code_phase_samples fzero s in
  let s := set_d_rem_carr_phase_rad fzero s in
  let s := set_d_rem_code_phase_samples fzero s in
  let s := set_d_next_rem_code_phase_samples fzero s in
  let s := set_d_acc_carrier_phase_rad fzero s in
  let s := set_d_code_phase_samples (d_acq_code_phase_samples s) s in
  let s := set_d_pull_in true s in
  let s := set_d_enable_tracking true s in
  Some s.

(** ** [update_local_code] *)

(** [1 + std::round(fmod(x, code_length_chips))], converted to [int]. *)
Definition associated_chip_index (x : float) : option Z :=
  float_to_int (fone + round (fmod x (float_of_Z code_length_chips)))%F.

(** The [for] loop of [update_local_code]: [n] iterations are left, the
    next one is iteration [i] and starts with the local [tcode_chips]. *)
Fixpoint update_local_code_loop (n : nat) (i : Z) (tcode_chips : float)
    (s : State) : option State :=
  match n with
  | O => Some s
  | S n' =>
      index ← associated_chip_index
                (tcode_chips - d_early_late_spc_chips s)%F;
      chip ← array_get (d_ca_code s) index;
      early_code ← array_set (d_early_code s) i chip;
      let s := set_d_early_code early_code s in
      index ← associated_chip_index tcode_chips;
      chip ← array_get (d_ca_code s) index;
      prompt_code ← array_set (d_prompt_code s) i chip;
      let s := set_d_prompt_code prompt_code s in
      index ← associated_chip_index
                (tcode_chips + d_early_late_spc_chips s)%F;
      chip ← array_get (d_ca_code s) index;
      late_code ← array_set (d_late_code s) i chip;
      let s := set_d_late_code late_code s in
      let tcode_chips := (tcode_chips + d_code_phase_step_chips s)%F in
      update_local_code_loop n' (i + 1) tcode_chips s
  end.

Definition update_local_code (s : State) : option State :=
  let rem_code_phase_chips :=
    (d_rem_code_phase_samples s
     * (d_code_freq_hz s / float_of_Z (d_fs_in s)))%F in
  let tcode_chips := (- rem_code_phase_chips)%F in
  update_local_code_loop (Z.to_nat (d_current_prn_length_samples s)) 0
    tcode_chips s.

(** The value of the local [tcode_chips] when iteration [k] of the loop
    starts, for a loop entered with the value [tcode_chips]. *)
Fixpoint tcode_chips_at (tcode_chips code_phase_step_chips : float) (k : nat)
    : float :=
  match k with
  | O => tcode_chips
  | S k' =>
      tcode_chips_at (tcode_chips + code_phase_step_chips)%F
        code_phase_step_chips k'
  end.

(** ** [update_local_carrier] *)

Fixpoint update_local_carrier_loop (n : nat) (i : Z)
    (phase_rad phase_step_rad : float) (s : State) : option (float * State) :=
  match n with
  | O => Some (phase_rad, s)
  | S n' =>
      carr_sign ← array_set (d_carr_sign s) i
                    (Complex (cos phase_rad) (sin phase_rad));
      let s := set_d_carr_sign carr_sign s in
      let phase_rad := (phase_rad + phase_step_rad)%F in
      update_local_carrier_loop n' (i + 1) phase_rad phase_step_rad s
  end.

Definition update_local_carrier (s : State) : option State :=
  let phase_step_rad :=
    (GPS_TWO_PI * d_carrier_doppler_hz s / float_of_Z (d_fs_in s))%F in
  let phase_rad := d_rem_carr_phase_rad s in
  '(phase_rad, s) ← update_local_carrier_loop
                      (Z.to_nat (d_current_prn_length_samples s)) 0
                      phase_rad phase_step_rad s;
  let s := set_d_rem_carr_phase_rad (fmod phase_rad GPS_TWO_PI) s in
  let s := set_d_acc_carrier_phase_rad
             (d_acc_carrier_phase_rad s + d_rem_carr_phase_rad s)%F s in
  Some s.

(** ** [general_work] *)

(** The update of the lock-fail counter in the lock detector: the
    [if ... else ...] that follows ["TRACKING UNLOCK NOTIFICATION"]. *)
Definition update_carrier_lock_fail_counter
    (carrier_lock_test carrier_lock_threshold : float)
    (carrier_lock_fail_counter : Z) : Z :=
  if (carrier_lock_test <? carrier_lock_threshold)%F
     || (carrier_lock_test >? float_of_Z MINIMUM_VALID_CN0)%F
  then carrier_lock_fail_counter + 1
  else if carrier_lock_fail_counter >? 0
       then carrier_lock_fail_counter - 1
       else carrier_lock_fail_counter.

(** The block ["CN0 ESTIMATION AND LOCK DETECTORS"]. *)
Definition CN0_estimation_and_lock_detectors (s : State) : option State :=
  if d_cn0_estimation_counter s <? CN0_ESTIMATION_SAMPLES
  then
    Prompt_buffer ← array_set (d_Prompt_buffer s)
                      (d_cn0_estimation_counter s) (d_Prompt s);
    let s := set_d_Prompt_buffer Prompt_buffer s in
    let s := set_d_cn0_estimation_counter (d_cn0_estimation_counter s + 1) s in
    Some s
  else
    let s := set_d_cn0_estimation_counter 0 s in
    let s := set_d_CN0_SNV_dB_Hz
               (gps_l1_ca_CN0_SNV (d_Prompt_buffer s)
                  CN0_ESTIMATION_SAMPLES (d_fs_in s)) s in
    let s := set_d_carrier_lock_test
               (carrier_lock_detector (d_Prompt_buffer s)
                  CN0_ESTIMATION_SAMPLES) s in
    let s := set_d_carrier_lock_fail_counter
               (update_carrier_lock_fail_counter (d_carrier_lock_test s)
                  (d_carrier_lock_threshold s)
                  (d_carrier_lock_fail_counter s)) s in
    if d_carrier_lock_fail_counter s >? MAXIMUM_LOCK_FAIL_COUNTER
    then
      let tracking_message := 3 in
      let s := set_d_channel_internal_queue
                 (d_channel_internal_queue s ++ [tracking_message]) s in
      let s := set_d_carrier_lock_fail_counter 0 s in
      let s := set_d_enable_tracking false s in
      Some s
    else Some s.

(** The debug output of the second counter: [d_last_seg] follows
    [floor(d_sample_counter / d_fs_in)], an unsigned division. *)
Definition update_last_seg (s : State) : option State :=
  seg ← ulong_div (d_sample_counter s) (to_ulong (d_fs_in s));
  if seg =? d_last_seg s then Some s else Some (set_d_last_seg seg s).

(** The last three statements of [general_work], which every path that
    does not return earlier runs. *)
Definition general_work_end (s : State) (out : Gnss_Synchro)
    : option (State * Work_output) :=
  let consume_each := d_current_prn_length_samples s in
  let s := set_d_sample_counter_seconds
             (d_sample_counter_seconds s
              + float_of_Z (d_current_prn_length_samples s)
                / float_of_Z (d_fs_in s))%F s in
  let s := set_d_sample_counter
             (ulong_add (d_sample_counter s)
                (d_current_prn_length_samples s)) s in
  Some (s, {| consumed := consume_each; returned := 1; out0 := out |}).

(** The branch [d_pull_in == true]: it returns before anything is stored
    in the output slot. *)
Definition general_work_pull_in (s : State) (w : Work_input)
    : option (State * Work_output) :=
  let acq_to_trk_delay_samples :=
    to_int (ulong_sub (d_sample_counter s) (d_acq_sample_stamp s)) in
  let acq_trk_shif_correction_samples :=
    (float_of_Z (d_next_prn_length_samples s)
     - fmod (float_of_Z acq_to_trk_delay_samples)
            (float_of_Z (d_next_prn_length_samples s)))%F in
  samples_offset ← float_to_int
                     (round (d_acq_code_phase_samples s
                             + acq_trk_shif_correction_samples)%F);
  let s := set_d_sample_counter_seconds
             (d_sample_counter_seconds s
              + float_of_Z samples_offset / float_of_Z (d_fs_in s))%F s in
  let s := set_d_sample_counter
             (ulong_add (d_sample_counter s) samples_offset) s in
  let s := set_d_pull_in false s in
  Some (s, {| consumed := samples_offset; returned := 1;
              out0 := output_items w |}).

(** The branch taken when the Prompt correlator output holds a NaN. *)
Definition general_work_nan (s : State) (w : Work_input)
    (current_synchro_data : Gnss_Synchro) : option (State * Work_output) :=
  let samples_available := ninput_items w in
  let s := set_d_sample_counter
             (ulong_add (d_sample_counter s) samples_available) s in
  let current_synchro_data :=
    {| System := System current_synchro_data;
       PRN := PRN current_synchro_data;
       Acq_delay_samples := Acq_delay_samples current_synchro_data;
       Acq_doppler_hz := Acq_doppler_hz current_synchro_data;
       Acq_samplestamp_samples :=
         Acq_samplestamp_samples current_synchro_data;
       Prompt_I := fzero;
       Prompt_Q := fzero;
       Tracking_timestamp_secs := d_sample_counter_seconds s;
       Carrier_phase_rads := fzero;
       Code_phase_secs := fzero;
       CN0_dB_hz := fzero;
       Flag_valid_tracking := false |} in
  Some (s, {| consumed := samples_available; returned := 1;
              out0 := current_synchro_data |}).

(** The loops: discriminators, loop filters, NCO commands and the length
    of the next block. *)
Definition general_work_loops (s : State) : option State :=
  let carr_error :=
    (pll_cloop_two_quadrant_atan (d_Prompt s) / GPS_TWO_PI)%F in
  let '(carr_nco, carrier_loop_filter) :=
    get_carrier_nco carr_error (d_carrier_loop_filter s) in
  let s := set_d_carrier_loop_filter carrier_loop_filter s in
  let s := set_d_carrier_doppler_hz
             (d_acq_carrier_doppler_hz s + carr_nco)%F s in
  let code_error := dll_nc_e_minus_l_normalized (d_Early s) (d_Late s) in
  let '(code_nco, code_loop_filter) :=
    get_code_nco code_error (d_code_loop_filter s) in
  let s := set_d_code_loop_filter code_loop_filter s in
  let s := set_d_code_freq_hz (GPS_L1_CA_CODE_RATE_HZ - code_nco)%F s in
  let s := set_d_code_phase_step_chips
             (d_code_freq_hz s / float_of_Z (d_fs_in s))%F s in
  let T_chip_seconds := (fone / d_code_freq_hz s)%F in
  let T_prn_seconds := (T_chip_seconds * GPS_L1_CA_CODE_LENGTH_CHIPS)%F in
  let T_prn_samples := (T_prn_seconds * float_of_Z (d_fs_in s))%F in
  let s := set_d_rem_code_phase_samples
             (d_next_rem_code_phase_samples s) s in
  let K_blk_samples := (T_prn_samples + d_rem_code_phase_samples s)%F in
  let s := set_d_code_phase_samples
             (d_code_phase_samples s + T_prn_samples
              - T_prn_true_samples (d_fs_in s))%F s in
  let s :=
    if (d_code_phase_samples s <? fzero)%F
    then set_d_code_phase_samples
           (T_prn_true_samples (d_fs_in s) + d_code_phase_samples s)%F s
    else s in
  let s := set_d_code_phase_samples
             (fmod (d_code_phase_samples s)
                (T_prn_true_samples (d_fs_in s))) s in
  next_prn_length_samples ← float_to_int (round K_blk_samples);
  let s := set_d_next_prn_length_samples next_prn_length_samples s in
  let s := set_d_next_rem_code_phase_samples
             (K_blk_samples - float_of_Z (d_next_prn_length_samples s))%F s in
  Some s.

(** The replicas and the correlation: from the assignment of
    [d_current_prn_length_samples] to the call of the correlator. *)
Definition general_work_correlate (s : State) (w : Work_input)
    : option State :=
  let s := set_d_current_prn_length_samples
             (d_next_prn_length_samples s) s in
  s ← update_local_code s;
  s ← update_local_carrier s;
  let '(Early, Prompt, Late) :=
    Carrier_wipeoff_and_EPL_volk (d_current_prn_length_samples s)
      (input_items w) (d_carr_sign s)
      (d_early_code s) (d_prompt_code s) (d_late_code s) in
  let s := set_d_Early Early s in
  let s := set_d_Prompt Prompt s in
  let s := set_d_Late Late s in
  Some s.

(** The record stored in the output slot by a step that tracks. *)
Definition tracking_output (s : State) (current_synchro_data : Gnss_Synchro)
    : Gnss_Synchro :=
  {| System := System current_synchro_data;
     PRN := PRN current_synchro_data;
     Acq_delay_samples := Acq_delay_samples current_synchro_data;
     Acq_doppler_hz := Acq_doppler_hz current_synchro_data;
     Acq_samplestamp_samples :=
       Acq_samplestamp_samples current_synchro_data;
     Prompt_I := real (d_Prompt s);
     Prompt_Q := imag (d_Prompt s);
     Tracking_timestamp_secs := d_sample_counter_seconds s;
     Carrier_phase_rads := d_acc_carrier_phase_rad s;
     Code_phase_secs :=
       (d_code_phase_samples s * (fone / float_of_Z (d_fs_in s)))%F;
     CN0_dB_hz := d_CN0_SNV_dB_Hz s;
     Flag_valid_tracking := Flag_valid_tracking current_synchro_data |}.

Definition general_work (s : State) (w : Work_input)
    : option (State * Work_output) :=
  if d_enable_tracking s
  then
    if d_pull_in s
    then general_work_pull_in s w
    else
      let current_synchro_data := d_acquisition_gnss_synchro s in
      s ← general_work_correlate s w;
      if isnan (real (d_Prompt s)) || isnan (imag (d_Prompt s))
      then general_work_nan s w current_synchro_data
      else
        s ← general_work_loops s;
        s ← CN0_estimation_and_lock_detectors s;
        let current_synchro_data := tracking_output s current_synchro_data in
        s ← update_last_seg s;
        general_work_end s current_synchro_data
  else
    let s := set_d_Early czero s in
    let s := set_d_Prompt czero s in
    let s := set_d_Late czero s in
    let current_synchro_data := Gnss_Synchro_default in
    general_work_end s current_synchro_data.

(** A run of the block: the calls of [general_work] for a list of inputs,
    one after the other, with the outputs in the order of the calls. *)
Fixpoint general_work_run (s : State) (ws : list Work_input)
    : option (State * list Work_output) :=
  match ws with
  | [] => Some (s, [])
  | w :: ws' =>
      '(s, o) ← general_work s w;
      '(s, os) ← general_work_run s ws';
      Some (s, o :: os)
  end.

(** The memory of a tracking object before its constructor runs: zeros,
    empty arrays, and [code_phase_step_chips] in the member
    [d_code_phase_step_chips], which neither the constructor nor
    [start_tracking] assigns. *)
Definition uninit_memory (code_phase_step_chips : float) : State :=
  {| d_dump := false; d_if_freq := 0; d_fs_in := 0; d_vector_length := 0;
     d_code_loop_filter := DLL_filter_new;
     d_carrier_loop_filter := PLL_filter_new;
     d_early_late_spc_chips := fzero;
     d_ca_code := []; d_carr_sign := []; d_early_code := [];
     d_late_code := []; d_prompt_code := [];
     d_Early := czero; d_Prompt := czero; d_Late := czero;
     d_code_freq_hz := fzero; d_rem_code_phase_samples := fzero;
     d_rem_carr_phase_rad := fzero;
     d_sample_counter := 0; d_sample_counter_seconds := fzero;
     d_acq_sample_stamp := 0;
     d_enable_tracking := false; d_pull_in := false; d_last_seg := 0;
     d_current_prn_length_samples := 0;
     d_cn0_estimation_counter := 0; d_Prompt_buffer := [];
     d_carrier_lock_test := fzero; d_CN0_SNV_dB_Hz := fzero;
     d_carrier_lock_fail_counter := 0; d_carrier_lock_threshold := fzero;
     d_acquisition_gnss_synchro := Gnss_Synchro_default;
     d_acq_code_phase_samples := fzero; d_acq_carrier_doppler_hz := fzero;
     d_next_prn_length_samples := 0; d_carrier_doppler_hz := fzero;
     d_next_rem_code_phase_samples := fzero;
     d_acc_carrier_phase_rad := fzero; d_code_phase_samples := fzero;
     d_channel := 0; d_code_phase_step_chips := code_phase_step_chips;
     d_channel_internal_queue := [] |}.

End Tracking.

(** ** A test bench

    Collaborators with fixed answers, the C/A codes of the GPS interface
    specification, and a receiver at 4 MHz with blocks of 4000 samples. *)

Module Bench.

(** One shift of a ten-stage register with the given feedback taps. *)
Definition lfsr_shift (taps : list nat) (r : list bool) : list bool :=
  foldr xorb false (map (fun t => nth (t - 1)%nat r false) taps)
  :: removelast r.

(** The first [n] outputs (the last stage) of the register. *)
Fixpoint lfsr_run (taps : list nat) (n : nat) (r : list bool) : list bool :=
  match n with
  | O => []
  | S n' => List.last r false :: lfsr_run taps n' (lfsr_shift taps r)
  end.

Definition G1 : list bool :=
  Eval vm_compute in lfsr_run [3; 10]%nat 1023 (replicate 10 true).
Definition G2 : list bool :=
  Eval vm_compute in lfsr_run [2; 3; 6; 8; 9; 10]%nat 1023 (replicate 10 true).

(** The delay of G2, in chips, for the PRNs 1 to 32. *)
Definition delays : list Z :=
  [5; 6; 7; 8; 17; 18; 139; 140; 141; 251; 252; 254; 255; 256; 257; 258;
   469; 470; 471; 472; 473; 474; 509; 512; 513; 514; 515; 516; 859; 860;
   861; 862].

(** Modelled from the spec: the C/A code generator, "an external pure
    function" that produces the 1023-chip sequence of a PRN.  The chips are
    those of the Gold code (G1 xor the delayed G2) as complex numbers, +1
    for a one and -1 for a zero; the chip shift is 0 in every call of the
    tracking block. *)
Definition code_gen (prn chip_shift : Z) : list gr_complex :=
  let delay := nth (Z.to_nat (prn - 1)) delays 0 in
  map (fun i : nat =>
         let chip :=
           xorb (nth i G1 false)
                (nth (Z.to_nat ((Z.of_nat i - delay) mod 1023)) G2 false) in
         Complex (if chip then fone else (- fone)%F) fzero)
      (seq 0 1023).

(** The answers of the collaborators of the bench: the correlator outputs
    (Early, Prompt, Late), the NCO commands of the two loop filters, the
    C/N0 estimate and the lock test. *)
Record Answers : Type := {
  correlation : gr_complex * gr_complex * gr_complex;
  carr_nco : float;
  code_nco : float;
  CN0_SNV : float;
  lock_test : float
}.

(** Collaborators that give these answers whatever they are asked; the
    filters have no state, the discriminators see no error and the carrier
    replica is the constant 1. *)
Definition collaborators (a : Answers) : Collaborators :=
  {| GPS_TWO_PI := Fnum (62831853071796 # 10000000000000);
     cos := fun _ => fone;
     sin := fun _ => fzero;
     code_gen_conplex := code_gen;
     Tracking_2nd_DLL_filter := unit;
     DLL_filter_new := tt;
     set_DLL_BW := fun _ f => f;
     DLL_initialize := fun _ f => f;
     get_code_nco := fun _ f => (code_nco a, f);
     Tracking_2nd_PLL_filter := unit;
     PLL_filter_new := tt;
     set_PLL_BW := fun _ f => f;
     PLL_initialize := fun _ f => f;
     get_carrier_nco := fun _ f => (carr_nco a, f);
     Carrier_wipeoff_and_EPL_volk := fun _ _ _ _ _ _ => correlation a;
     pll_cloop_two_quadrant_atan := fun _ => fzero;
     dll_nc_e_minus_l_normalized := fun _ _ => fzero;
     gps_l1_ca_CN0_SNV := fun _ _ _ => CN0_SNV a;
     carrier_lock_detector := fun _ _ => lock_test a |}.

(** An acquisition of PRN 1. *)
Definition acquisition (delay_samples doppler_hz : double)
    (samplestamp_samples : Z) : Gnss_Synchro :=
  {| System := 71; PRN := 1;
     Acq_delay_samples := delay_samples; Acq_doppler_hz := doppler_hz;
     Acq_samplestamp_samples := samplestamp_samples;
     Prompt_I := fzero; Prompt_Q := fzero;
     Tracking_timestamp_secs := fzero;
     Carrier_phase_rads := fzero; Code_phase_secs := fzero;
     CN0_dB_hz := fzero; Flag_valid_tracking := false |}.

(** What the output slot holds before a call: the record of some earlier
    call, here the one a block that does not track stores. *)
Definition stale : Gnss_Synchro := Gnss_Synchro_default.

(** An input of 8000 samples, all zero. *)
Definition samples : Work_input :=
  {| ninput_items := 8000;
     input_items := replicate (Z.to_nat 8000) czero;
     output_items := stale |}.

Section Scenario.

(** The answers of the collaborators, and the content of the member
    [d_code_phase_step_chips] before the constructor runs. *)
Variable a : Answers.
Variable code_phase_step_chips : float.

#[local] Instance bench : Collaborators := collaborators a.

(** A tracking block at 4 MHz, blocks of 4000 samples, early-late spacing
    of half a chip. *)
Definition tracker : State :=
  Gps_L1_Ca_Dll_Pll_Tracking_cc (uninit_memory code_phase_step_chips)
    0 4000000 4000 false (float_of_Z 50) (float_of_Z 2) (Fnum (1 # 2)).

(** The block bound to channel 0, to an empty control sink and to an
    acquisition at code phase 12 with no Doppler, seen at sample 0. *)
Definition fresh : State :=
  set_gnss_synchro (acquisition (float_of_Z 12) fzero 0)
    (set_channel_queue [] (set_channel 0 tracker)).

(** The block after [start_tracking]. *)
Definition armed : State :=
  Eval vm_compute in default fresh (start_tracking fresh).

(** The block after the first call of [general_work], the pull-in. *)
Definition aligned : State :=
  Eval vm_compute in
    default armed (fst <$> general_work armed samples).

(** The block after one call of [general_work], not armed yet, bound to an
    acquisition made at sample 2000: code phase 0, Doppler -5000 Hz. *)
Definition late : State :=
  Eval vm_compute in
    set_gnss_synchro
      (acquisition fzero (float_of_Z (-5000)) 2000)
      (default fresh (fst <$> general_work fresh samples)).

End Scenario.

(** A strong signal in lock. *)
Definition locked : Answers :=
  {| correlation :=
       (Complex fone fzero, Complex fone fzero, Complex fone fzero);
     carr_nco := fzero; code_nco := fzero;
     CN0_SNV := float_of_Z 40; lock_test := fone |}.

(** A sample that is not a number reached the correlator: the real part of
    the Prompt output is a NaN. *)
Definition nan_sample : Answers :=
  {| correlation :=
       (Complex fone fzero, Complex Fnan fzero, Complex fone fzero);
     carr_nco := fzero; code_nco := fzero;
     CN0_SNV := float_of_Z 40; lock_test := fone |}.


End Bench.

(** ** Notions used in the statements *)

Section Notions.

Context `{Collab : Collaborators}.

(** The state [s] with the three local replicas replaced. *)
Definition with_replicas (early prompt late : list gr_complex) (s : State)
    : State :=
  set_d_late_code late (set_d_prompt_code prompt (set_d_early_code early s)).

(** The three reads of [d_ca_code] in an iteration of [update_local_code]
    that starts with [tcode_chips] fall inside the array. *)
Definition reads_in_bounds (s : State) (tcode_chips : float) : Prop :=
  forall x : float,
    x = (tcode_chips - d_early_late_spc_chips s)%F \/ x = tcode_chips
    \/ x = (tcode_chips + d_early_late_spc_chips s)%F ->
    exists index, associated_chip_index x = Some index
                  /\ 0 <= index < Z.of_nat (length (d_ca_code s)).

(** The state [s] with the members that [general_work_correlate] assigns
    taken from [c]. *)
Definition with_correlation (c s : State) : State :=
  set_d_Late (d_Late c)
    (set_d_Prompt (d_Prompt c)
       (set_d_Early (d_Early c)
          (set_d_acc_carrier_phase_rad (d_acc_carrier_phase_rad c)
             (set_d_rem_carr_phase_rad (d_rem_carr_phase_rad c)
                (set_d_carr_sign (d_carr_sign c)
                   (with_replicas (d_early_code c) (d_prompt_code c)
                      (d_late_code c)
                      (set_d_current_prn_length_samples
                         (d_next_prn_length_samples s) s))))))).

(** The state [s] with the members that [general_work_loops] assigns taken
    from [l]. *)
Definition with_loops (l s : State) : State :=
  set_d_next_rem_code_phase_samples (d_next_rem_code_phase_samples l)
    (set_d_next_prn_length_samples (d_next_prn_length_samples l)
       (set_d_code_phase_samples (d_code_phase_samples l)
          (set_d_rem_code_phase_samples (d_rem_code_phase_samples l)
             (set_d_code_phase_step_chips (d_code_phase_step_chips l)
                (set_d_code_freq_hz (d_code_freq_hz l)
                   (set_d_code_loop_filter (d_code_loop_filter l)
                      (set_d_carrier_doppler_hz (d_carrier_doppler_hz l)
                         (set_d_carrier_loop_filter
                            (d_carrier_loop_filter l) s)))))))).


(** The states of a block that has been armed: the ones [start_tracking]
    leaves, and the ones the calls of the runtime lead to from there. *)
Inductive armed_run : State -> Prop :=
  | armed_run_start s s' :
      start_tracking s = Some s' -> armed_run s'
  | armed_run_work s w s' o :
      armed_run s -> general_work s w = Some (s', o) -> armed_run s'
  | armed_run_gnss_synchro s p :
      armed_run s -> armed_run (set_gnss_synchro p s)
  | armed_run_channel s channel :
      armed_run s -> armed_run (set_channel channel s)
  | armed_run_channel_queue s q :
      armed_run s -> armed_run (set_channel_queue q s).



(** What [start_tracking] leaves for the loops: carrier Doppler, code
    frequency and corrected code phase. *)
Definition handover (s : State) : float * float * float :=
  (d_carrier_doppler_hz s, d_code_freq_hz s, d_acq_code_phase_samples s).

(** The first entry of the Early replica. *)
Definition first_early (s : State) : option gr_complex :=
  d_early_code s !! 0%nat.





End Notions.

(** ** Further notions *)

Section Views.

Context `{Collab : Collaborators}.

(** The state [s] with the members that the block of the lock detectors
    assigns taken from [d]. *)
Definition with_detectors (d s : State) : State :=
  set_d_enable_tracking (d_enable_tracking d)
    (set_d_channel_internal_queue (d_channel_internal_queue d)
       (set_d_carrier_lock_fail_counter (d_carrier_lock_fail_counter d)
          (set_d_carrier_lock_test (d_carrier_lock_test d)
             (set_d_CN0_SNV_dB_Hz (d_CN0_SNV_dB_Hz d)
                (set_d_cn0_estimation_counter (d_cn0_estimation_counter d)
                   (set_d_Prompt_buffer (d_Prompt_buffer d) s)))))).

(** The members that only the constructor, the setters of the public
    interface and [start_tracking] assign. *)
Definition configuration (s : State) :=
  (d_dump s, d_if_freq s, d_fs_in s, d_vector_length s,
   d_early_late_spc_chips s, d_carrier_lock_threshold s, d_channel s,
   d_acquisition_gnss_synchro s, d_acq_sample_stamp s,
   d_acq_code_phase_samples s, d_acq_carrier_doppler_hz s, d_ca_code s).

(** The lengths of the arrays the constructor allocates. *)
Definition allocation (s : State) : list nat :=
  [length (d_ca_code s); length (d_carr_sign s); length (d_early_code s);
   length (d_late_code s); length (d_prompt_code s);
   length (d_Prompt_buffer s)].

(** The samples a run consumes. *)
Definition total_consumed (os : list Work_output) : Z :=
  foldr (fun o n => consumed o + n) 0 os.

(** [d_ca_code[1 + std::round(fmod(x, code_length_chips))]]: the chip that
    [update_local_code] reads for the code phase [x]. *)
Definition chip_at (s : State) (x : float) : option gr_complex :=
  index ← associated_chip_index x; array_get (d_ca_code s) index.

(** The value of the local [phase_rad] when iteration [k] of the loop of
    [update_local_carrier] starts, for a loop entered with [phase_rad]. *)
Fixpoint phase_rad_at (phase_rad phase_step_rad : float) (k : nat) : float :=
  match k with
  | O => phase_rad
  | S k' => phase_rad_at (phase_rad + phase_step_rad)%F phase_step_rad k'
  end.

(** The local [T_prn_mod_samples] of [start_tracking]: the length in
    samples of a PRN period at the code frequency the acquisition Doppler
    gives. *)
Definition T_prn_mod_samples (s : State) : float :=
  let radial_velocity :=
    ((GPS_L1_FREQ_HZ + Acq_doppler_hz (d_acquisition_gnss_synchro s))
     / GPS_L1_FREQ_HZ)%F in
  let code_freq_hz := (radial_velocity * GPS_L1_CA_CODE_RATE_HZ)%F in
  (fone / code_freq_hz * GPS_L1_CA_CODE_LENGTH_CHIPS
   * float_of_Z (d_fs_in s))%F.

(** The local [corrected_acq_phase_samples] of [start_tracking] before the
    test of its sign: the result of the [fmod]. *)
Definition acq_phase_remainder (s : State) : float :=
  let acq := d_acquisition_gnss_synchro s in
  let acq_trk_diff_samples :=
    ulong_sub (d_sample_counter s) (Acq_samplestamp_samples acq) in
  let acq_trk_diff_seconds :=
    (float_of_Z acq_trk_diff_samples / float_of_Z (d_fs_in s))%F in
  let radial_velocity :=
    ((GPS_L1_FREQ_HZ + Acq_doppler_hz acq) / GPS_L1_FREQ_HZ)%F in
  let code_freq_hz := (radial_velocity * GPS_L1_CA_CODE_RATE_HZ)%F in
  let T_prn_mod_seconds :=
    (fone / code_freq_hz * GPS_L1_CA_CODE_LENGTH_CHIPS)%F in
  let T_prn_true_seconds :=
    (GPS_L1_CA_CODE_LENGTH_CHIPS / GPS_L1_CA_CODE_RATE_HZ)%F in
  let T_prn_diff_seconds := (T_prn_true_seconds - T_prn_mod_seconds)%F in
  let N_prn_diff := (acq_trk_diff_seconds / T_prn_true_seconds)%F in
  fmod (Acq_delay_samples acq
        + T_prn_diff_seconds * N_prn_diff * float_of_Z (d_fs_in s))%F
       (T_prn_true_samples (d_fs_in s)).

(** The state [s] with the members that the constructor and the setters
    leave unassigned set to zero. *)
Definition without_leftovers (s : State) : State :=
  set_d_code_phase_step_chips fzero
    (set_d_code_phase_samples fzero
       (set_d_acc_carrier_phase_rad fzero
          (set_d_next_rem_code_phase_samples fzero
             (set_d_carrier_doppler_hz fzero
                (set_d_next_prn_length_samples 0
                   (set_d_acq_carrier_doppler_hz fzero
                      (set_d_acq_code_phase_samples fzero s))))))).

(** The state [s] with the memory that the initialisation does not write
    cleared: the content of the four buffers that [posix_memalign] gave
    and the three correlator outputs set to zero, and
    [d_code_phase_step_chips] set to [x]. *)
Definition with_memory_cleared (x : float) (s : State) : State :=
  set_d_code_phase_step_chips x
    (set_d_Late czero
       (set_d_Prompt czero
          (set_d_Early czero
             (set_d_carr_sign (replicate (length (d_carr_sign s)) czero)
                (set_d_prompt_code
                   (replicate (length (d_prompt_code s)) czero)
                   (set_d_late_code
                      (replicate (length (d_late_code s)) czero)
                      (set_d_early_code
                         (replicate (length (d_early_code s)) czero)
                         s))))))).

(** A block ready for a call of [general_work]: past the pull-in, with
    the preconditions of [update_local_code] (carried code phase of half a
    sample at most, spacing of half a chip at most, code frequency between
    0 and the sampling frequency, code phase step that is not negative, table
    of 1025 chips), a sampling frequency between 1.024 MHz and 2^31 Hz,
    replica buffers that hold the next block and the longest block the code
    loop can ask for (a PRN period at 1.022 MHz, plus one sample), and the
    Prompt buffer of the lock detector with its counter inside it. *)
Definition ready (s : State) : Prop :=
  d_pull_in s = false
  /\ (exists r, d_rem_code_phase_samples s = Fnum r /\ (Qabs r <= 1 # 2)%Q)
  /\ (exists q, d_next_rem_code_phase_samples s = Fnum q
                /\ (Qabs q <= 1 # 2)%Q)
  /\ (exists c, d_code_freq_hz s = Fnum c
                /\ (0 < c)%Q /\ (c <= inject_Z (d_fs_in s))%Q)
  /\ (exists e, d_early_late_spc_chips s = Fnum e
                /\ (0 < e)%Q /\ (e <= 1 # 2)%Q)
  /\ (exists d, d_code_phase_step_chips s = Fnum d /\ (0 <= d)%Q)
  /\ 1024000 <= d_fs_in s < 2 ^ 31
  /\ Forall (fun n : nat =>
               d_next_prn_length_samples s <= Z.of_nat n
               /\ (1023 * inject_Z (d_fs_in s) / 1022000 + 1
                   <= inject_Z (Z.of_nat n))%Q)
            [length (d_carr_sign s); length (d_early_code s);
             length (d_late_code s); length (d_prompt_code s)]
  /\ length (d_ca_code s) = Z.to_nat 1025
  /\ length (d_Prompt_buffer s) = Z.to_nat CN0_ESTIMATION_SAMPLES
  /\ 0 <= d_cn0_estimation_counter s <= CN0_ESTIMATION_SAMPLES.

(** The members that [ready] reads. *)
Definition ready_members (s : State) :=
  (d_pull_in s, d_rem_code_phase_samples s, d_next_rem_code_phase_samples s,
   d_code_freq_hz s, d_early_late_spc_chips s, d_code_phase_step_chips s,
   d_fs_in s, d_next_prn_length_samples s, allocation s).

(** A block that is [ready] and whose code phase step is one chip per
    sample at most, as a code frequency below the sampling frequency
    gives: the local code phase, which [update_local_code] advances by the
    step at every sample of the block, stays small. *)
Definition steady (s : State) : Prop :=
  ready s
  /\ exists d, d_code_phase_step_chips s = Fnum d /\ (d <= 1)%Q.

End Views.

(** ** Further scenarios of the bench *)

(** A lock detector that gives no number. *)
Definition no_lock_test : Bench.Answers :=
  {| Bench.correlation :=
       (Complex fone fzero, Complex fone fzero, Complex fone fzero);
     Bench.carr_nco := fzero; Bench.code_nco := fzero;
     Bench.CN0_SNV := float_of_Z 40; Bench.lock_test := Fnan |}.

(** A second bench, for a vector length shorter than a PRN period. *)
Module Cramped.

Section Scenario.

#[local] Instance bench : Collaborators := Bench.collaborators Bench.locked.

(** A tracking block at 4 MHz whose constructor is given a vector length
    of 1000 samples, a quarter of a PRN period: its buffers have 2000
    entries. *)
Definition tracker : State :=
  Gps_L1_Ca_Dll_Pll_Tracking_cc (uninit_memory fzero)
    0 4000000 1000 false (float_of_Z 50) (float_of_Z 2) (Fnum (1 # 2)).

(** The block bound to channel 0, to an empty control sink and to the
    acquisition of the bench: code phase 12, no Doppler, seen at sample
    0. *)
Definition fresh : State :=
  set_gnss_synchro (Bench.acquisition (float_of_Z 12) fzero 0)
    (set_channel_queue [] (set_channel 0 tracker)).

(** The block after [start_tracking]. *)
Definition armed : State :=
  Eval vm_compute in default fresh (start_tracking fresh).

(** The block after the first call of [general_work], the pull-in. *)
Definition aligned : State :=
  Eval vm_compute in
    default armed (fst <$> general_work armed Bench.samples).

End Scenario.

End Cramped.

(** * Properties *)

(** Reduction of the projections of a state built by setters. *)
Ltac members :=
  cbn [
       d_dump d_if_freq d_fs_in d_vector_length d_code_loop_filter
       d_carrier_loop_filter d_early_late_spc_chips d_ca_code
       d_carr_sign d_early_code d_late_code d_prompt_code d_Early
       d_Prompt d_Late d_code_freq_hz d_rem_code_phase_samples
       d_rem_carr_phase_rad d_sample_counter d_sample_counter_seconds
       d_acq_sample_stamp d_enable_tracking d_pull_in d_last_seg
       d_current_prn_length_samples d_cn0_estimation_counter
       d_Prompt_buffer d_carrier_lock_test d_CN0_SNV_dB_Hz
       d_carrier_lock_fail_counter d_carrier_lock_threshold
       d_acquisition_gnss_synchro d_acq_code_phase_samples
       d_acq_carrier_doppler_hz d_next_prn_length_samples
       d_carrier_doppler_hz d_next_rem_code_phase_samples
       d_acc_carrier_phase_rad d_code_phase_samples d_channel
       d_code_phase_step_chips d_channel_internal_queue set_d_dump
       set_d_if_freq set_d_fs_in set_d_vector_length
       set_d_code_loop_filter set_d_carrier_loop_filter
       set_d_early_late_spc_chips set_d_ca_code set_d_carr_sign
       set_d_early_code set_d_late_code set_d_prompt_code set_d_Early
       set_d_Prompt set_d_Late set_d_code_freq_hz
       set_d_rem_code_phase_samples set_d_rem_carr_phase_rad
       set_d_sample_counter set_d_sample_counter_seconds
       set_d_acq_sample_stamp set_d_enable_tracking set_d_pull_in
       set_d_last_seg set_d_current_prn_length_samples
       set_d_cn0_estimation_counter set_d_Prompt_buffer
       set_d_carrier_lock_test set_d_CN0_SNV_dB_Hz
       set_d_carrier_lock_fail_counter set_d_carrier_lock_threshold
       set_d_acquisition_gnss_synchro set_d_acq_code_phase_samples
       set_d_acq_carrier_doppler_hz set_d_next_prn_length_samples
       set_d_carrier_doppler_hz set_d_next_rem_code_phase_samples
       set_d_acc_carrier_phase_rad set_d_code_phase_samples
       set_d_channel set_d_code_phase_step_chips
       set_d_channel_internal_queue].


Ltac members_cbv :=
  cbv [
       d_dump d_if_freq d_fs_in d_vector_length d_code_loop_filter
       d_carrier_loop_filter d_early_late_spc_chips d_ca_code
       d_carr_sign d_early_code d_late_code d_prompt_code d_Early
       d_Prompt d_Late d_code_freq_hz d_rem_code_phase_samples
       d_rem_carr_phase_rad d_sample_counter d_sample_counter_seconds
       d_acq_sample_stamp d_enable_tracking d_pull_in d_last_seg
       d_current_prn_length_samples d_cn0_estimation_counter
       d_Prompt_buffer d_carrier_lock_test d_CN0_SNV_dB_Hz
       d_carrier_lock_fail_counter d_carrier_lock_threshold
       d_acquisition_gnss_synchro d_acq_code_phase_samples
       d_acq_carrier_doppler_hz d_next_prn_length_samples
       d_carrier_doppler_hz d_next_rem_code_phase_samples
       d_acc_carrier_phase_rad d_code_phase_samples d_channel
       d_code_phase_step_chips d_channel_internal_queue set_d_dump
       set_d_if_freq set_d_fs_in set_d_vector_length
       set_d_code_loop_filter set_d_carrier_loop_filter
       set_d_early_late_spc_chips set_d_ca_code set_d_carr_sign
       set_d_early_code set_d_late_code set_d_prompt_code set_d_Early
       set_d_Prompt set_d_Late set_d_code_freq_hz
       set_d_rem_code_phase_samples set_d_rem_carr_phase_rad
       set_d_sample_counter set_d_sample_counter_seconds
       set_d_acq_sample_stamp set_d_enable_tracking set_d_pull_in
       set_d_last_seg set_d_current_prn_length_samples
       set_d_cn0_estimation_counter set_d_Prompt_buffer
       set_d_carrier_lock_test set_d_CN0_SNV_dB_Hz
       set_d_carrier_lock_fail_counter set_d_carrier_lock_threshold
       set_d_acquisition_gnss_synchro set_d_acq_code_phase_samples
       set_d_acq_carrier_doppler_hz set_d_next_prn_length_samples
       set_d_carrier_doppler_hz set_d_next_rem_code_phase_samples
       set_d_acc_carrier_phase_rad set_d_code_phase_samples
       set_d_channel set_d_code_phase_step_chips
       set_d_channel_internal_queue].

(** ** Facts about the idealised arithmetic *)

Section Arithmetic.
Local Open Scope Q_scope.

Lemma Qle_bool_true x y : Qle_bool x y = true <-> x <= y.
Proof. apply Qle_bool_iff. Qed.

Lemma Qle_bool_false x y : Qle_bool x y = false <-> y < x.
Proof.
  split; intros Hf.
  - apply Qnot_le_lt. intros Hle. apply Qle_bool_iff in Hle. congruence.
  - destruct (Qle_bool x y) eqn:E; [|reflexivity].
    apply Qle_bool_iff in E. lra.
Qed.

Lemma Qlt_bool_true x y : Qlt_bool x y = true <-> x < y.
Proof.
  unfold Qlt_bool. rewrite negb_true_iff. apply Qle_bool_false.
Qed.

Lemma Qlt_bool_false x y : Qlt_bool x y = false <-> y <= x.
Proof.
  unfold Qlt_bool. rewrite negb_false_iff. apply Qle_bool_true.
Qed.

Lemma Qlt_floor' x : x < inject_Z (Qfloor x) + 1.
Proof.
  pose proof (Qlt_floor x) as H. rewrite inject_Z_plus in H. exact H.
Qed.

Lemma Qceiling_lt' x : inject_Z (Qceiling x) - 1 < x.
Proof.
  pose proof (Qceiling_lt x) as H. unfold Z.sub in H.
  rewrite inject_Z_plus, inject_Z_opp in H. exact H.
Qed.

Lemma inject_Z_lt_1 a b : inject_Z a < inject_Z b + 1 -> (a <= b)%Z.
Proof.
  intros H. change 1 with (inject_Z 1) in H.
  rewrite <- inject_Z_plus, <- Zlt_Qlt in H. lia.
Qed.

Lemma Qround_away_error q :
  - (1 # 2) <= q - inject_Z (Qround_away q) <= 1 # 2.
Proof.
  unfold Qround_away. destruct (Qle_bool 0 q) eqn:E.
  - pose proof (Qfloor_le (q + (1 # 2))) as H1.
    pose proof (Qlt_floor' (q + (1 # 2))) as H2.
    split; lra.
  - pose proof (Qle_ceiling (q - (1 # 2))) as H1.
    pose proof (Qceiling_lt' (q - (1 # 2))) as H2.
    split; lra.
Qed.

Lemma Qround_away_error_nonneg q :
  0 <= q -> q - inject_Z (Qround_away q) < 1 # 2.
Proof.
  intros Hq. unfold Qround_away.
  apply Qle_bool_true in Hq. rewrite Hq.
  pose proof (Qlt_floor' (q + (1 # 2))) as H2. lra.
Qed.

Lemma Qround_away_comp x y : x == y -> Qround_away x = Qround_away y.
Proof.
  intros E. unfold Qround_away.
  assert (Qle_bool 0 x = Qle_bool 0 y) as -> by (rewrite E; reflexivity).
  rewrite (Qfloor_comp (x + (1 # 2)) (y + (1 # 2))) by (rewrite E; reflexivity).
  rewrite (Qceiling_comp (x - (1 # 2)) (y - (1 # 2))) by (rewrite E; reflexivity).
  reflexivity.
Qed.

Lemma Qtrunc_comp x y : x == y -> Qtrunc x = Qtrunc y.
Proof.
  intros E. unfold Qtrunc.
  assert (Qle_bool 0 x = Qle_bool 0 y) as -> by (rewrite E; reflexivity).
  rewrite (Qfloor_comp x y E), (Qceiling_comp x y E). reflexivity.
Qed.

Lemma Qtrunc_inject_Z z : Qtrunc (inject_Z z) = z.
Proof.
  unfold Qtrunc. destruct (Qle_bool 0 (inject_Z z));
    [apply Qfloor_Z | apply Qceiling_Z].
Qed.

Lemma Qround_away_inject_Z z : Qround_away (inject_Z z) = z.
Proof.
  pose proof (Qround_away_error (inject_Z z)) as [H1 H2].
  set (r := Qround_away (inject_Z z)) in *.
  assert (z <= r)%Z by (apply inject_Z_lt_1; lra).
  assert (r <= z)%Z by (apply inject_Z_lt_1; lra).
  lia.
Qed.

(** Bounds of the truncated remainder by a positive modulus. *)
Lemma Qfmod_nonneg x y : 0 <= x -> 0 < y -> 0 <= Qfmod x y /\ Qfmod x y < y.
Proof.
  intros Hx Hy. unfold Qfmod, Qtrunc.
  assert (0 <= x / y) as Hz by (apply Qle_shift_div_l; lra).
  assert (x == (x / y) * y) as Ex by (field; lra).
  apply Qle_bool_true in Hz as Hb. rewrite Hb.
  pose proof (Qfloor_le (x / y)) as H1.
  pose proof (Qlt_floor' (x / y)) as H2.
  set (t := inject_Z (Qfloor (x / y))) in *.
  set (z := x / y) in *.
  split; nra.
Qed.

Lemma Qfmod_neg x y : x < 0 -> 0 < y -> x <= Qfmod x y /\ Qfmod x y <= 0.
Proof.
  intros Hx Hy. unfold Qfmod, Qtrunc.
  assert (x / y < 0) as Hz.
  { apply Qlt_shift_div_r; lra. }
  assert (x == (x / y) * y) as Ex by (field; lra).
  assert (Qle_bool 0 (x / y) = false) as Hb by (apply Qle_bool_false; exact Hz).
  rewrite Hb.
  pose proof (Qle_ceiling (x / y)) as H1.
  pose proof (Qceiling_lt' (x / y)) as H2.
  assert (Qceiling (x / y) <= 0)%Z as H3.
  { apply inject_Z_lt_1. change (inject_Z 0) with 0. lra. }
  rewrite Zle_Qle in H3. change (inject_Z 0) with 0 in H3.
  set (t := inject_Z (Qceiling (x / y))) in *.
  set (z := x / y) in *.
  split; nra.
Qed.

Lemma Qfloor_plus_1 z : Qfloor (z + 1) = (Qfloor z + 1)%Z.
Proof.
  pose proof (Qfloor_le (z + 1)) as A1.
  pose proof (Qlt_floor' (z + 1)) as A2.
  pose proof (Qfloor_le z) as B1.
  pose proof (Qlt_floor' z) as B2.
  assert (Qfloor (z + 1) <= Qfloor z + 1)%Z as C1.
  { apply inject_Z_lt_1. rewrite inject_Z_plus. change (inject_Z 1) with 1. lra. }
  assert (Qfloor z + 1 <= Qfloor (z + 1))%Z as C2.
  { apply inject_Z_lt_1. rewrite inject_Z_plus. change (inject_Z 1) with 1. lra. }
  lia.
Qed.

Lemma Qfmod_period x y : 0 <= x -> 0 < y -> Qfmod (x + y) y == Qfmod x y.
Proof.
  intros Hx Hy. unfold Qfmod.
  assert (0 <= x / y) as Hz by (apply Qle_shift_div_l; lra).
  assert (Qtrunc ((x + y) / y) = (Qtrunc (x / y) + 1)%Z) as ->.
  { rewrite (Qtrunc_comp ((x + y) / y) (x / y + 1)) by (field; lra).
    unfold Qtrunc.
    assert (0 <= x / y + 1) as Hz1 by lra.
    apply Qle_bool_true in Hz. apply Qle_bool_true in Hz1.
    rewrite Hz, Hz1. apply Qfloor_plus_1. }
  rewrite inject_Z_plus. change (inject_Z 1) with 1. ring.
Qed.



End Arithmetic.

(** ** Conversions and the chip index *)

Lemma Qfmod_abs_lt x y : (0 < y)%Q -> (- y < Qfmod x y)%Q /\ (Qfmod x y < y)%Q.
Proof.
  intros Hy. destruct (Qlt_le_dec x 0) as [Hx|Hx].
  - destruct (Qfmod_neg x y Hx Hy) as [H1 H2].
    split; [|lra].
    (* x - t*y with t = ceiling(x/y) *)
    unfold Qfmod, Qtrunc in *.
    assert (x / y < 0)%Q as Hz by (apply Qlt_shift_div_r; lra).
    assert (Qle_bool 0 (x / y) = false) as Hb by (apply Qle_bool_false; exact Hz).
    rewrite Hb in *.
    pose proof (Qceiling_lt' (x / y)) as H3.
    assert (x == (x / y) * y)%Q as Ex by (field; lra).
    set (t := inject_Z (Qceiling (x / y))) in *.
    set (z := (x / y)%Q) in *. nra.
  - destruct (Qfmod_nonneg x y Hx Hy) as [H1 H2]. split; lra.
Qed.

Lemma Qround_away_lower q z : (inject_Z z - (1 # 2) < q)%Q -> z <= Qround_away q.
Proof.
  intros H. pose proof (Qround_away_error q) as [_ H2].
  apply inject_Z_lt_1. lra.
Qed.

Lemma Qround_away_upper q z : (q < inject_Z z + (1 # 2))%Q -> Qround_away q <= z.
Proof.
  intros H. pose proof (Qround_away_error q) as [H1 _].
  apply inject_Z_lt_1. lra.
Qed.

Lemma Qfmod_small x y : (- y < x)%Q -> (x < y)%Q -> (Qfmod x y == x)%Q.
Proof.
  intros H1 H2. unfold Qfmod.
  assert (0 < y)%Q as Hy by lra.
  assert (Qtrunc (x / y) = 0) as ->; [|ring].
  assert (-1 < x / y)%Q as L.
  { apply Qlt_shift_div_l; lra. }
  assert (x / y < 1)%Q as U.
  { apply Qlt_shift_div_r; lra. }
  unfold Qtrunc. destruct (Qle_bool 0 (x / y)) eqn:E.
  - apply Qle_bool_true in E.
    pose proof (Qfloor_le (x / y)). pose proof (Qlt_floor' (x / y)).
    assert (Qfloor (x / y) <= 0)
      by (apply inject_Z_lt_1; change (inject_Z 0) with 0%Q; lra).
    assert (0 <= Qfloor (x / y))
      by (apply inject_Z_lt_1; change (inject_Z 0) with 0%Q; lra).
    lia.
  - apply Qle_bool_false in E.
    pose proof (Qle_ceiling (x / y)). pose proof (Qceiling_lt' (x / y)).
    assert (Qceiling (x / y) <= 0)
      by (apply inject_Z_lt_1; change (inject_Z 0) with 0%Q; lra).
    assert (0 <= Qceiling (x / y))
      by (apply inject_Z_lt_1; change (inject_Z 0) with 0%Q; lra).
    lia.
Qed.


Lemma float_to_int_integer q z :
  (q == inject_Z z)%Q -> INT_MIN <= z <= INT_MAX ->
  float_to_int (Fnum q) = Some z.
Proof.
  intros E [H1 H2]. unfold float_to_int. cbv zeta.
  rewrite (Qtrunc_comp _ _ E), Qtrunc_inject_Z.
  apply Z.leb_le in H1. apply Z.leb_le in H2. rewrite H1, H2. reflexivity.
Qed.

Lemma float_to_int_round q :
  INT_MIN <= Qround_away q <= INT_MAX ->
  float_to_int (round (Fnum q)) = Some (Qround_away q).
Proof. intros H. apply float_to_int_integer; [reflexivity | exact H]. Qed.

Lemma associated_chip_index_Fnum q :
  associated_chip_index (Fnum q) = Some (1 + Qround_away (Qfmod q 1023)).
Proof.
  unfold associated_chip_index, code_length_chips.
  change (float_of_Z 1023) with (Fnum 1023).
  unfold fmod. change (Qeq_bool 1023 0) with false. cbv iota.
  unfold round, fone, float_of_Z, fadd.
  apply float_to_int_integer.
  - rewrite Qred_correct, inject_Z_plus.
    rewrite (Qround_away_comp _ _ (Qred_correct _)). reflexivity.
  - destruct (Qfmod_abs_lt q 1023) as [H1 H2]; [reflexivity|].
    assert (-1023 <= Qround_away (Qfmod q 1023)).
    { apply Qround_away_lower. change (inject_Z (-1023)) with (-1023)%Q. lra. }
    assert (Qround_away (Qfmod q 1023) <= 1023).
    { apply Qround_away_upper. change (inject_Z 1023) with 1023%Q. lra. }
    unfold INT_MIN, INT_MAX. lia.
Qed.

(** From -1 on, the index is one of the 1025 entries of [d_ca_code]. *)
Lemma associated_chip_index_bounds q :
  (-1 <= q)%Q ->
  0 <= 1 + Qround_away (Qfmod q 1023) <= 1024.
Proof.
  intros Hq.
  assert (-1 <= Qfmod q 1023 /\ Qfmod q 1023 < 1023)%Q as [H1 H2].
  { destruct (Qlt_le_dec q 0) as [Hn|Hp].
    - destruct (Qfmod_neg q 1023 Hn) as [A B]; [reflexivity|]. split; lra.
    - destruct (Qfmod_nonneg q 1023 Hp) as [A B]; [reflexivity|]. split; lra. }
  assert (-1 <= Qround_away (Qfmod q 1023)).
  { apply Qround_away_lower. change (inject_Z (-1)) with (-1)%Q. lra. }
  assert (Qround_away (Qfmod q 1023) <= 1023).
  { apply Qround_away_upper. change (inject_Z 1023) with 1023%Q. lra. }
  lia.
Qed.

(** ** Arrays and the loops of the replicas *)

Section Loops.

Context `{Collab : Collaborators}.

Lemma array_get_Some {A} (a : list A) (i : Z) :
  0 <= i < Z.of_nat (length a) -> is_Some (array_get a i).
Proof.
  intros [H1 H2]. unfold array_get.
  destruct (i <? 0) eqn:E; [lia|].
  apply lookup_lt_is_Some. lia.
Qed.

Lemma array_set_Some {A} (a : list A) (i : Z) (v : A) :
  0 <= i < Z.of_nat (length a) ->
  array_set a i v = Some (<[Z.to_nat i := v]> a).
Proof.
  intros [H1 H2]. unfold array_set.
  apply Z.leb_le in H1. apply Z.ltb_lt in H2. rewrite H1, H2. reflexivity.
Qed.

Lemma array_set_length {A} (a a' : list A) (i : Z) (v : A) :
  array_set a i v = Some a' -> length a' = length a.
Proof.
  unfold array_set. destruct (_ && _); [|discriminate].
  intros [= <-]. apply length_insert.
Qed.

Lemma with_replicas_twice e p l e' p' l' s :
  with_replicas e' p' l' (with_replicas e p l s) = with_replicas e' p' l' s.
Proof. destruct s. reflexivity. Qed.

(** The loop of [update_local_code] assigns the three replicas and nothing
    else, and keeps their lengths. *)
Lemma update_local_code_loop_frame n :
  forall i t s s',
    update_local_code_loop n i t s = Some s' ->
    s' = with_replicas (d_early_code s') (d_prompt_code s') (d_late_code s') s
    /\ length (d_early_code s') = length (d_early_code s)
    /\ length (d_prompt_code s') = length (d_prompt_code s)
    /\ length (d_late_code s') = length (d_late_code s).
Proof.
  induction n as [|n IH]; intros i t s s' H; simpl in H.
  - injection H as <-. destruct s; repeat split; reflexivity.
  - apply bind_Some in H as (i1 & _ & H).
    apply bind_Some in H as (c1 & _ & H).
    apply bind_Some in H as (e & He & H).
    apply bind_Some in H as (i2 & _ & H).
    apply bind_Some in H as (c2 & _ & H).
    apply bind_Some in H as (p & Hp & H).
    apply bind_Some in H as (i3 & _ & H).
    apply bind_Some in H as (c3 & _ & H).
    apply bind_Some in H as (l & Hl & H).
    apply IH in H as (E & L1 & L2 & L3).
    cbn in L1, L2, L3, Hp, Hl.
    apply array_set_length in He, Hp, Hl.
    repeat split; [|congruence..].
    rewrite E at 1.
    change (set_d_late_code l (set_d_prompt_code p (set_d_early_code e s)))
      with (with_replicas e p l s).
    apply with_replicas_twice.
Qed.

(** The loop runs to its end when the replicas are long enough and every
    read of [d_ca_code] falls inside the array. *)
Lemma update_local_code_loop_Some n :
  forall i t s,
    0 <= i ->
    i + Z.of_nat n <= Z.of_nat (length (d_early_code s)) ->
    i + Z.of_nat n <= Z.of_nat (length (d_prompt_code s)) ->
    i + Z.of_nat n <= Z.of_nat (length (d_late_code s)) ->
    (forall k, (k < n)%nat ->
       reads_in_bounds s (tcode_chips_at t (d_code_phase_step_chips s) k)) ->
    is_Some (update_local_code_loop n i t s).
Proof.
  induction n as [|n IH]; intros i t s Hi He Hp Hl Hk; simpl.
  - eauto.
  - pose proof (Hk 0%nat ltac:(lia)) as H0. simpl in H0.
    destruct (H0 _ (or_introl eq_refl)) as (i1 & -> & B1).
    destruct (H0 _ (or_intror (or_introl eq_refl))) as (i2 & -> & B2).
    destruct (H0 _ (or_intror (or_intror eq_refl))) as (i3 & -> & B3).
    cbn.
    destruct (array_get_Some _ _ B1) as [c1 ->].
    destruct (array_get_Some _ _ B2) as [c2 ->].
    destruct (array_get_Some _ _ B3) as [c3 ->].
    cbn.
    rewrite array_set_Some by lia. cbn.
    rewrite array_set_Some by lia. cbn.
    rewrite array_set_Some by lia. cbn.
    apply IH; cbn; rewrite ?length_insert; try lia.
    intros k Hlt. specialize (Hk (S k) ltac:(lia)). simpl in Hk.
    intros x Hx. destruct (Hk x Hx) as (ix & E & B). eauto.
Qed.

Lemma update_local_carrier_loop_frame n :
  forall i ph st s ph' s',
    update_local_carrier_loop n i ph st s = Some (ph', s') ->
    s' = set_d_carr_sign (d_carr_sign s') s
    /\ length (d_carr_sign s') = length (d_carr_sign s).
Proof.
  induction n as [|n IH]; intros i ph st s ph' s' H; simpl in H.
  - injection H as <- <-. destruct s; split; reflexivity.
  - apply bind_Some in H as (c & Hc & H).
    apply IH in H as (E & L). cbn in L.
    apply array_set_length in Hc.
    split; [|congruence].
    rewrite E at 1. destruct s. reflexivity.
Qed.

Lemma update_local_carrier_loop_Some n :
  forall i ph st s,
    0 <= i -> i + Z.of_nat n <= Z.of_nat (length (d_carr_sign s)) ->
    is_Some (update_local_carrier_loop n i ph st s).
Proof.
  induction n as [|n IH]; intros i ph st s Hi Hl; simpl.
  - eauto.
  - rewrite array_set_Some by lia. cbn.
    apply IH; cbn; rewrite ?length_insert; lia.
Qed.

Lemma with_correlation_twice c s :
  with_correlation c (with_correlation c s) = with_correlation c s.
Proof. destruct s. vm_compute. reflexivity. Qed.

(** [general_work_correlate] assigns the block length, the replicas, the
    carrier phases and the correlator outputs, and nothing else. *)
Lemma general_work_correlate_frame s w c :
  general_work_correlate s w = Some c -> c = with_correlation c s.
Proof.
  unfold general_work_correlate, update_local_code, update_local_carrier.
  intros H.
  apply bind_Some in H as (s1 & H1 & H).
  apply bind_Some in H as (s2 & H2 & H).
  apply bind_Some in H2 as ([ph s2'] & H2 & H3).
  apply update_local_code_loop_frame in H1 as (E1 & _).
  apply update_local_carrier_loop_frame in H2 as (E2 & _).
  destruct (Carrier_wipeoff_and_EPL_volk _ _ _ _ _ _) as [[E P] L].
  injection H as <-. injection H3 as <-.
  rewrite E2, E1. destruct s. vm_compute. reflexivity.
Qed.

(** The correlator outputs of the state are the answer of the correlator. *)
Lemma general_work_correlate_outputs s w c :
  general_work_correlate s w = Some c ->
  exists n carr_sign early prompt late,
    (d_Early c, d_Prompt c, d_Late c) =
      Carrier_wipeoff_and_EPL_volk n (input_items w)
        carr_sign early prompt late.
Proof.
  unfold general_work_correlate.
  intros H.
  apply bind_Some in H as (s1 & H1 & H).
  apply bind_Some in H as (s2 & H2 & H).
  destruct (Carrier_wipeoff_and_EPL_volk _ _ _ _ _ _) as [[E P] L] eqn:EC.
  injection H as <-. cbn. rewrite <- EC. eauto 10.
Qed.

Lemma general_work_correlate_Some s w :
  d_next_prn_length_samples s <= Z.of_nat (length (d_early_code s)) ->
  d_next_prn_length_samples s <= Z.of_nat (length (d_prompt_code s)) ->
  d_next_prn_length_samples s <= Z.of_nat (length (d_late_code s)) ->
  d_next_prn_length_samples s <= Z.of_nat (length (d_carr_sign s)) ->
  (forall k, (k < Z.to_nat (d_next_prn_length_samples s))%nat ->
     reads_in_bounds s
       (tcode_chips_at
          (- (d_rem_code_phase_samples s
              * (d_code_freq_hz s / float_of_Z (d_fs_in s))))%F
          (d_code_phase_step_chips s) k)) ->
  is_Some (general_work_correlate s w).
Proof.
  intros He Hp Hl Hc Hk.
  unfold general_work_correlate, update_local_code, update_local_carrier.
  cbn.
  destruct (update_local_code_loop_Some
              (Z.to_nat (d_next_prn_length_samples s)) 0
              (- (d_rem_code_phase_samples s
                  * (d_code_freq_hz s / float_of_Z (d_fs_in s))))%F
              (set_d_current_prn_length_samples
                 (d_next_prn_length_samples s) s))
    as [s1 H1]; cbn; try lia; [exact Hk|].
  rewrite H1. cbn.
  apply update_local_code_loop_frame in H1 as (E1 & _).
  assert (d_current_prn_length_samples s1 = d_next_prn_length_samples s) as Hn
    by (rewrite E1; reflexivity).
  assert (d_carr_sign s1 = d_carr_sign s) as Hcs
    by (rewrite E1; reflexivity).
  rewrite Hn.
  destruct (update_local_carrier_loop_Some
              (Z.to_nat (d_next_prn_length_samples s)) 0
              (d_rem_carr_phase_rad s1)
              (GPS_TWO_PI * d_carrier_doppler_hz s1
               / float_of_Z (d_fs_in s1))%F s1)
    as [[ph s2] H2]; [lia | rewrite Hcs; lia |].
  rewrite H2. cbn.
  destruct (Carrier_wipeoff_and_EPL_volk _ _ _ _ _ _) as [[E P] L].
  eauto.
Qed.

End Loops.

(** ** The local code replica *)

Section Replica.

Context `{Collab : Collaborators}.

Lemma Qfmod_comp x x' y : (x == x')%Q -> (Qfmod x y == Qfmod x' y)%Q.
Proof.
  intros E. unfold Qfmod.
  rewrite (Qtrunc_comp (x / y) (x' / y)) by (rewrite E; reflexivity).
  rewrite E. reflexivity.
Qed.

(** The chip index depends on the value only, and is the same one code
    period later when the value is not negative. *)
Lemma associated_chip_index_comp q q' :
  (q == q')%Q ->
  associated_chip_index (Fnum q) = associated_chip_index (Fnum q').
Proof.
  intros E. rewrite !associated_chip_index_Fnum. do 2 f_equal.
  apply Qround_away_comp, Qfmod_comp, E.
Qed.

Lemma associated_chip_index_period q q' :
  (0 <= q)%Q -> (q' == q + 1023)%Q ->
  associated_chip_index (Fnum q') = associated_chip_index (Fnum q).
Proof.
  intros Hq E. rewrite !associated_chip_index_Fnum. do 2 f_equal.
  apply Qround_away_comp.
  rewrite (Qfmod_comp _ _ _ E). apply Qfmod_period; [exact Hq | reflexivity].
Qed.


Lemma tcode_chips_at_lower k :
  forall q d m,
    (0 <= d)%Q -> (m <= q)%Q ->
    exists q', tcode_chips_at (Fnum q) (Fnum d) k = Fnum q' /\ (m <= q')%Q.
Proof.
  induction k as [|k IH]; intros q d m Hd Hq; simpl.
  - eauto.
  - apply IH; [exact Hd|]. rewrite Qred_correct. lra.
Qed.

(** [start_tracking] leaves the two extra entries of [d_ca_code] as the
    loop needs them. *)
Lemma start_tracking_sentinels s s' :
  start_tracking s = Some s' ->
  array_get (d_ca_code s') 0 = array_get (d_ca_code s') 1023
  /\ array_get (d_ca_code s') 1024 = array_get (d_ca_code s') 1.
Proof.
  unfold start_tracking. intros H.
  apply bind_Some in H as (n & Hn & H).
  apply bind_Some in H as (ca1 & _ & H).
  apply bind_Some in H as (c1 & H1 & H).
  apply bind_Some in H as (ca2 & H2 & H).
  apply bind_Some in H as (c2 & H3 & H).
  apply bind_Some in H as (ca3 & H4 & H).
  injection H as <-. cbn.
  unfold array_set in H2, H4. unfold code_length_chips in *.
  destruct (_ && _) eqn:B2 in H2; [|discriminate]. injection H2 as <-.
  destruct (_ && _) eqn:B4 in H4; [|discriminate]. injection H4 as <-.
  apply andb_true_iff in B2 as [_ B2]. apply Z.ltb_lt in B2.
  apply andb_true_iff in B4 as [_ B4]. apply Z.ltb_lt in B4.
  rewrite length_insert in B4.
  unfold array_get in *. cbn in H1, H3 |- *.
  change (Z.to_nat (1023 + 1)) with 1024%nat.
  change (Z.to_nat 1023) with 1023%nat in *.
  change (Z.to_nat 1) with 1%nat in *.
  change (Z.to_nat 0) with 0%nat in *.
  rewrite list_lookup_insert_ne in H3 by lia.
  split.
  - rewrite list_lookup_insert_ne by lia.
    rewrite list_lookup_insert_eq by lia.
    rewrite !list_lookup_insert_ne by lia. congruence.
  - rewrite list_lookup_insert_eq by (rewrite length_insert; lia).
    rewrite !list_lookup_insert_ne by lia. congruence.
Qed.

Lemma Qabs_half_scaled r u :
  (Qabs r <= 1 # 2)%Q -> (0 < u)%Q -> (u <= 1)%Q ->
  (- (1 # 2) <= - (r * u))%Q.
Proof.
  intros Hr Hu0 Hu1. apply Qabs_Qle_condition in Hr as [H1 H2]. nra.
Qed.

(** The code phase at the start of [update_local_code] is half a chip
    before the start of the code at most. *)
Lemma update_local_code_start s r c :
  d_rem_code_phase_samples s = Fnum r ->
  d_code_freq_hz s = Fnum c ->
  (Qabs r <= 1 # 2)%Q ->
  (0 < c)%Q -> (c <= inject_Z (d_fs_in s))%Q ->
  exists q,
    (- (d_rem_code_phase_samples s
        * (d_code_freq_hz s / float_of_Z (d_fs_in s))))%F = Fnum q
    /\ (- (1 # 2) <= q)%Q.
Proof.
  intros Hr Hc Hr2 Hc0 Hcf. rewrite Hr, Hc.
  unfold float_of_Z, fdiv, fmul, fopp.
  assert (0 < inject_Z (d_fs_in s))%Q as Hfs by lra.
  destruct (Qeq_bool (inject_Z (d_fs_in s)) 0) eqn:E.
  { apply Qeq_bool_iff in E. lra. }
  eexists. split; [reflexivity|].
  rewrite !Qred_correct.
  apply Qabs_half_scaled; [exact Hr2 | |].
  - apply Qlt_shift_div_l; lra.
  - apply Qle_shift_div_r; lra.
Qed.

(** Under the preconditions, whatever the iteration, the three indices
    exist and lie within [0, 1024]. *)
Lemma update_local_code_indices (s : State) (r c e d : Q) (k : nat) :
  d_rem_code_phase_samples s = Fnum r ->
  d_code_freq_hz s = Fnum c ->
  d_early_late_spc_chips s = Fnum e ->
  d_code_phase_step_chips s = Fnum d ->
  (Qabs r <= 1 # 2)%Q ->
  (0 < e)%Q -> (e <= 1 # 2)%Q ->
  (0 < c)%Q -> (c <= inject_Z (d_fs_in s))%Q ->
  (0 <= d)%Q ->
  exists early prompt late,
    associated_chip_index
      (tcode_chips_at
         (- (d_rem_code_phase_samples s
             * (d_code_freq_hz s / float_of_Z (d_fs_in s))))%F
         (d_code_phase_step_chips s) k
       - d_early_late_spc_chips s)%F = Some early
    /\ associated_chip_index
         (tcode_chips_at
            (- (d_rem_code_phase_samples s
                * (d_code_freq_hz s / float_of_Z (d_fs_in s))))%F
            (d_code_phase_step_chips s) k) = Some prompt
    /\ associated_chip_index
         (tcode_chips_at
            (- (d_rem_code_phase_samples s
                * (d_code_freq_hz s / float_of_Z (d_fs_in s))))%F
            (d_code_phase_step_chips s) k
          + d_early_late_spc_chips s)%F = Some late
    /\ 0 <= early <= 1024 /\ 0 <= prompt <= 1024 /\ 0 <= late <= 1024.
Proof.
  intros Hr Hc He Hd Hr2 He0 He2 Hc0 Hcf Hd0.
  destruct (update_local_code_start s r c Hr Hc Hr2 Hc0 Hcf) as (q0 & E0 & Hq0).
  rewrite E0, Hd.
  destruct (tcode_chips_at_lower k q0 d (- (1 # 2)) Hd0 Hq0) as (q & -> & Hq).
  rewrite He. unfold fsub, fadd. rewrite !associated_chip_index_Fnum.
  eexists _, _, _. repeat split; try reflexivity;
    apply associated_chip_index_bounds; rewrite ?Qred_correct; lra.
Qed.

Lemma update_local_code_reads_in_bounds (s : State) (r c e d : Q) (k : nat) :
  d_rem_code_phase_samples s = Fnum r ->
  d_code_freq_hz s = Fnum c ->
  d_early_late_spc_chips s = Fnum e ->
  d_code_phase_step_chips s = Fnum d ->
  (Qabs r <= 1 # 2)%Q ->
  (0 < e)%Q -> (e <= 1 # 2)%Q ->
  (0 < c)%Q -> (c <= inject_Z (d_fs_in s))%Q ->
  (0 <= d)%Q ->
  length (d_ca_code s) = Z.to_nat 1025 ->
  reads_in_bounds s
    (tcode_chips_at
       (- (d_rem_code_phase_samples s
           * (d_code_freq_hz s / float_of_Z (d_fs_in s))))%F
       (d_code_phase_step_chips s) k).
Proof.
  intros Hr Hc He Hd Hr2 He0 He2 Hc0 Hcf Hd0 Hca x Hx.
  destruct (update_local_code_indices s r c e d k Hr Hc He Hd Hr2 He0 He2
              Hc0 Hcf Hd0) as (ie & ip & il & E1 & E2 & E3 & B).
  rewrite Hca.
  destruct Hx as [-> | [-> | ->]]; eexists; (split; [eassumption|]); lia.
Qed.

End Replica.

(** ** The paths of [general_work] *)

Section Paths.

Context `{Collab : Collaborators}.

Lemma general_work_disabled s w :
  d_enable_tracking s = false ->
  general_work s w =
    general_work_end
      (set_d_Late czero (set_d_Prompt czero (set_d_Early czero s)))
      Gnss_Synchro_default.
Proof. intros H. unfold general_work. rewrite H. reflexivity. Qed.

Lemma general_work_pull_in_path s w :
  d_enable_tracking s = true -> d_pull_in s = true ->
  general_work s w = general_work_pull_in s w.
Proof. intros H1 H2. unfold general_work. rewrite H1, H2. reflexivity. Qed.

Lemma general_work_nan_path s w c :
  d_enable_tracking s = true -> d_pull_in s = false ->
  general_work_correlate s w = Some c ->
  isnan (real (d_Prompt c)) || isnan (imag (d_Prompt c)) = true ->
  general_work s w = general_work_nan c w (d_acquisition_gnss_synchro s).
Proof.
  intros H1 H2 Hc Hn. unfold general_work. rewrite H1, H2, Hc. cbn.
  rewrite Hn. reflexivity.
Qed.

Lemma general_work_tracking_path s w c :
  d_enable_tracking s = true -> d_pull_in s = false ->
  general_work_correlate s w = Some c ->
  isnan (real (d_Prompt c)) || isnan (imag (d_Prompt c)) = false ->
  general_work s w =
    (l ← general_work_loops c;
     d ← CN0_estimation_and_lock_detectors l;
     e ← update_last_seg d;
     general_work_end e (tracking_output d (d_acquisition_gnss_synchro s))).
Proof.
  intros H1 H2 Hc Hn. unfold general_work. rewrite H1, H2, Hc. cbn.
  rewrite Hn. reflexivity.
Qed.

(** The pull-in branch, whatever the state: the offset is consumed and
    counted, [d_pull_in] is cleared, 1 is returned and the output slot is
    left as it was. *)
Lemma general_work_pull_in_effect s w s' o :
  d_enable_tracking s = true -> d_pull_in s = true ->
  general_work s w = Some (s', o) ->
  float_to_int
    (round (d_acq_code_phase_samples s
            + (float_of_Z (d_next_prn_length_samples s)
               - fmod (float_of_Z
                         (to_int (ulong_sub (d_sample_counter s)
                                    (d_acq_sample_stamp s))))
                      (float_of_Z (d_next_prn_length_samples s))))%F)
  = Some (consumed o)
  /\ d_sample_counter s' = ulong_add (d_sample_counter s) (consumed o)
  /\ d_sample_counter_seconds s'
     = (d_sample_counter_seconds s
        + float_of_Z (consumed o) / float_of_Z (d_fs_in s))%F
  /\ d_pull_in s' = false
  /\ returned o = 1
  /\ out0 o = output_items w.
Proof.
  intros H1 H2 H. rewrite (general_work_pull_in_path s w H1 H2) in H.
  unfold general_work_pull_in in H.
  apply bind_Some in H as (n & Hn & H). injection H as <- <-.
  repeat split; try reflexivity. exact Hn.
Qed.

(** C2, as amended.  A call of [general_work] made while [enable_tracking]
    is false stores one default-built (zeroed) record in the output slot
    and returns 1; it consumes [current_prn_length_samples] input samples
    and advances [sample_counter] by that number (modulo 2^64) and
    [sample_counter_seconds] by that number divided by [fs];
    [enable_tracking] stays false. *)
Theorem disabled_step_effect (s : State) (w : Work_input) :
  d_enable_tracking s = false ->
  exists s' o,
    general_work s w = Some (s', o)
    /\ returned o = 1
    /\ out0 o = Gnss_Synchro_default
    /\ consumed o = d_current_prn_length_samples s
    /\ d_sample_counter s' =
         ulong_add (d_sample_counter s) (d_current_prn_length_samples s)
    /\ d_sample_counter_seconds s' =
         (d_sample_counter_seconds s
          + float_of_Z (d_current_prn_length_samples s)
            / float_of_Z (d_fs_in s))%F
    /\ d_enable_tracking s' = false.
Proof.
  intros H. rewrite (general_work_disabled s w H).
  unfold general_work_end. eexists _, _. split; [reflexivity|].
  cbn. rewrite H. repeat split; reflexivity.
Qed.

(** A block that does not track keeps not tracking and pushes nothing on
    the control sink, whatever the number of calls. *)
Lemma disabled_run ws :
  forall s,
    d_enable_tracking s = false ->
    exists s' os,
      general_work_run s ws = Some (s', os)
      /\ d_enable_tracking s' = false
      /\ d_channel_internal_queue s' = d_channel_internal_queue s.
Proof.
  induction ws as [|w ws IH]; intros s H; simpl.
  - eauto.
  - rewrite (general_work_disabled s w H). unfold general_work_end. cbn.
    destruct (IH (set_d_sample_counter
                    (ulong_add (d_sample_counter s)
                       (d_current_prn_length_samples s))
                    (set_d_sample_counter_seconds
                       (d_sample_counter_seconds s
                        + float_of_Z (d_current_prn_length_samples s)
                          / float_of_Z (d_fs_in s))%F
                       (set_d_Late czero
                          (set_d_Prompt czero (set_d_Early czero s))))))
      as (s' & os & E & H1 & H2); [exact H|].
    cbn in E. rewrite E. cbn. eauto.
Qed.

(** C6.  On a call made while the block is armed and past the pull-in, if
    the Prompt correlator output holds a NaN then the call stores one record
    with [Flag_valid_tracking = false] and [Prompt_I], [Prompt_Q],
    [Carrier_phase_rads], [Code_phase_secs] and [CN0_dB_hz] all zero,
    returns 1 and consumes all the input samples available; tracking stays
    enabled and past the pull-in, with the loop members as they were, so
    the next call tracks again. *)
Theorem nan_prompt_step (s : State) (w : Work_input) (c : State) :
  d_enable_tracking s = true ->
  d_pull_in s = false ->
  general_work_correlate s w = Some c ->
  isnan (real (d_Prompt c)) || isnan (imag (d_Prompt c)) = true ->
  exists s' o,
    general_work s w = Some (s', o)
    /\ returned o = 1
    /\ consumed o = ninput_items w
    /\ Flag_valid_tracking (out0 o) = false
    /\ Prompt_I (out0 o) = fzero
    /\ Prompt_Q (out0 o) = fzero
    /\ Carrier_phase_rads (out0 o) = fzero
    /\ Code_phase_secs (out0 o) = fzero
    /\ CN0_dB_hz (out0 o) = fzero
    /\ d_enable_tracking s' = true
    /\ d_pull_in s' = false
    /\ d_next_prn_length_samples s' = d_next_prn_length_samples s
    /\ d_code_freq_hz s' = d_code_freq_hz s
    /\ d_carrier_doppler_hz s' = d_carrier_doppler_hz s.
Proof.
  intros H1 H2 Hc Hn.
  rewrite (general_work_nan_path s w c H1 H2 Hc Hn).
  apply general_work_correlate_frame in Hc.
  unfold general_work_nan. eexists _, _. split; [reflexivity|].
  cbn. rewrite Hc. cbn. rewrite H1, H2. repeat split; reflexivity.
Qed.

End Paths.

(** ** Loss of lock *)

Section Lock.

Context `{Collab : Collaborators}.

(** [general_work_loops] assigns the members of the two loops and nothing
    else. *)
Lemma general_work_loops_frame c l :
  general_work_loops c = Some l -> l = with_loops l c.
Proof.
  unfold general_work_loops. intros H.
  destruct (get_carrier_nco _ _) as [carr_nco pll].
  destruct (get_code_nco _ _) as [code_nco dll].
  apply bind_Some in H as (n & _ & H). injection H as <-.
  destruct (_ <? _)%F; destruct c; vm_compute; reflexivity.
Qed.

(** The lock-fail counter goes up exactly when the lock test is below the
    threshold or above [MINIMUM_VALID_CN0], whatever the C/N0 estimate. *)
Lemma update_carrier_lock_fail_counter_up lock thr n :
  update_carrier_lock_fail_counter lock thr n = n + 1
  <-> (lock <? thr)%F || (lock >? float_of_Z MINIMUM_VALID_CN0)%F = true.
Proof.
  unfold update_carrier_lock_fail_counter.
  destruct (_ || _); split; try reflexivity; try discriminate.
  destruct (n >? 0); lia.
Qed.

(** The lock detector when it evaluates and the fail counter exceeds the
    maximum: one message 3 is pushed and tracking is disabled. *)
Lemma lock_detector_loss s s' :
  CN0_ESTIMATION_SAMPLES <= d_cn0_estimation_counter s ->
  MAXIMUM_LOCK_FAIL_COUNTER <
    update_carrier_lock_fail_counter
      (carrier_lock_detector (d_Prompt_buffer s) CN0_ESTIMATION_SAMPLES)
      (d_carrier_lock_threshold s) (d_carrier_lock_fail_counter s) ->
  CN0_estimation_and_lock_detectors s = Some s' ->
  d_channel_internal_queue s' = d_channel_internal_queue s ++ [3]
  /\ d_enable_tracking s' = false.
Proof.
  intros Hn Hf. unfold CN0_estimation_and_lock_detectors.
  apply Z.ltb_ge in Hn. rewrite Hn. cbn.
  apply Z.gtb_lt in Hf. rewrite Hf.
  intros [= <-]. split; reflexivity.
Qed.

Lemma update_last_seg_frame s s' :
  update_last_seg s = Some s' -> s' = set_d_last_seg (d_last_seg s') s.
Proof.
  unfold update_last_seg. intros H.
  apply bind_Some in H as (seg & _ & H).
  destruct (seg =? d_last_seg s); injection H as <-;
    destruct s; reflexivity.
Qed.

(** C7.  On a call in which the lock detector evaluates (the Prompt buffer
    is full) and [carrier_lock_fail_counter] exceeds
    [MAXIMUM_LOCK_FAIL_COUNTER], exactly one message 3 is pushed onto the
    control sink and [enable_tracking] becomes false; on every later call
    of [general_work], as long as [start_tracking] is not invoked,
    [enable_tracking] stays false and no other message is pushed. *)
Theorem loss_of_lock_disables_tracking (s : State) (w : Work_input)
    (c s' : State) (o : Work_output) :
  d_enable_tracking s = true ->
  d_pull_in s = false ->
  general_work_correlate s w = Some c ->
  isnan (real (d_Prompt c)) || isnan (imag (d_Prompt c)) = false ->
  CN0_ESTIMATION_SAMPLES <= d_cn0_estimation_counter s ->
  MAXIMUM_LOCK_FAIL_COUNTER <
    update_carrier_lock_fail_counter
      (carrier_lock_detector (d_Prompt_buffer s) CN0_ESTIMATION_SAMPLES)
      (d_carrier_lock_threshold s) (d_carrier_lock_fail_counter s) ->
  general_work s w = Some (s', o) ->
  d_channel_internal_queue s' = d_channel_internal_queue s ++ [3]
  /\ d_enable_tracking s' = false
  /\ forall ws : list Work_input,
       exists s'' os,
         general_work_run s' ws = Some (s'', os)
         /\ d_enable_tracking s'' = false
         /\ d_channel_internal_queue s'' = d_channel_internal_queue s ++ [3].
Proof.
  intros H1 H2 Hc Hn Hcount Hfail H.
  rewrite (general_work_tracking_path s w c H1 H2 Hc Hn) in H.
  apply bind_Some in H as (l & Hl & H).
  apply bind_Some in H as (d & Hd & H).
  apply bind_Some in H as (e & He & H).
  apply general_work_correlate_frame in Hc.
  apply general_work_loops_frame in Hl.
  apply update_last_seg_frame in He.
  assert (d_channel_internal_queue d = d_channel_internal_queue s ++ [3]
          /\ d_enable_tracking d = false) as [Q1 Q2].
  { assert (d_cn0_estimation_counter l = d_cn0_estimation_counter s) as E1
      by (rewrite Hl; cbn; rewrite Hc; reflexivity).
    assert (d_Prompt_buffer l = d_Prompt_buffer s) as E2
      by (rewrite Hl; cbn; rewrite Hc; reflexivity).
    assert (d_carrier_lock_threshold l = d_carrier_lock_threshold s) as E3
      by (rewrite Hl; cbn; rewrite Hc; reflexivity).
    assert (d_carrier_lock_fail_counter l = d_carrier_lock_fail_counter s)
      as E4 by (rewrite Hl; cbn; rewrite Hc; reflexivity).
    assert (d_channel_internal_queue l = d_channel_internal_queue s) as E5
      by (rewrite Hl; cbn; rewrite Hc; reflexivity).
    rewrite <- E5.
    apply (lock_detector_loss l d); [rewrite E1 | rewrite E2, E3, E4 |];
      assumption. }
  unfold general_work_end in H. injection H as <- <-.
  assert (d_channel_internal_queue e = d_channel_internal_queue s ++ [3])
    as Q1' by (rewrite He; exact Q1).
  assert (d_enable_tracking e = false) as Q2' by (rewrite He; exact Q2).
  cbn. split; [exact Q1'|]. split; [exact Q2'|].
  intros ws.
  destruct (disabled_run ws
              (set_d_sample_counter
                 (ulong_add (d_sample_counter e)
                    (d_current_prn_length_samples e))
                 (set_d_sample_counter_seconds
                    (d_sample_counter_seconds e
                     + float_of_Z (d_current_prn_length_samples e)
                       / float_of_Z (d_fs_in e))%F e)))
    as (s'' & os & E & F1 & F2); [exact Q2'|].
  exists s'', os. split; [exact E|]. split; [exact F1|].
  rewrite F2. exact Q1'.
Qed.


End Lock.

(** ** The length of the blocks *)

Section Blocks.

Context `{Collab : Collaborators}.

Lemma feq_refl a : feq a a.
Proof. destruct a; simpl; [reflexivity | exact I]. Qed.


Lemma float_to_int_round_inv x n :
  float_to_int (round x) = Some n -> round x = float_of_Z n.
Proof.
  destruct x as [q|]; simpl; [|discriminate].
  rewrite Qtrunc_inject_Z. destruct (_ && _); [|discriminate].
  intros [= <-]. reflexivity.
Qed.











End Blocks.

(** ** The sample counters *)

Section Counters.

Context `{Collab : Collaborators}.

Lemma CN0_estimation_and_lock_detectors_sample_counter l d :
  CN0_estimation_and_lock_detectors l = Some d ->
  d_sample_counter d = d_sample_counter l
  /\ d_current_prn_length_samples d = d_current_prn_length_samples l.
Proof.
  unfold CN0_estimation_and_lock_detectors. intros H.
  destruct (_ <? _).
  - apply bind_Some in H as (b & _ & H). injection H as <-.
    split; reflexivity.
  - cbn in H. destruct (_ >? _); injection H as <-; split; reflexivity.
Qed.

(** On every path, [sample_counter] advances by the number of samples the
    call consumes (modulo 2^64): it does not decrease unless it wraps. *)
Lemma general_work_sample_counter s w s' o :
  general_work s w = Some (s', o) ->
  d_sample_counter s' = ulong_add (d_sample_counter s) (consumed o).
Proof.
  intros H.
  destruct (d_enable_tracking s) eqn:H1.
  - destruct (d_pull_in s) eqn:H2.
    + rewrite (general_work_pull_in_path s w H1 H2) in H.
      unfold general_work_pull_in in H.
      apply bind_Some in H as (n & _ & H). injection H as <- <-.
      reflexivity.
    + destruct (general_work_correlate s w) as [c|] eqn:Hc;
        [| unfold general_work in H; rewrite H1, H2, Hc in H; discriminate].
      pose proof (general_work_correlate_frame s w c Hc) as Fc.
      destruct (isnan (real (d_Prompt c)) || isnan (imag (d_Prompt c)))
        eqn:Hn.
      * rewrite (general_work_nan_path s w c H1 H2 Hc Hn) in H.
        unfold general_work_nan in H. injection H as <- <-.
        cbn. rewrite Fc. reflexivity.
      * rewrite (general_work_tracking_path s w c H1 H2 Hc Hn) in H.
        apply bind_Some in H as (l & Hl & H).
        apply bind_Some in H as (d & Hd & H).
        apply bind_Some in H as (e & He & H).
        apply general_work_loops_frame in Hl.
        apply CN0_estimation_and_lock_detectors_sample_counter in Hd
          as [D1 D2].
        apply update_last_seg_frame in He.
        unfold general_work_end in H. injection H as <- <-.
        cbn. rewrite He. cbn. rewrite D1, D2, Hl. cbn. rewrite Fc.
        reflexivity.
  - rewrite (general_work_disabled s w H1) in H.
    unfold general_work_end in H. injection H as <- <-. reflexivity.
Qed.

End Counters.

(** ** The test bench *)

Section BenchFacts.

Variable a : Bench.Answers.
Variable step : float.

Lemma bench_armed :
  start_tracking (Bench.fresh a step) = Some (Bench.armed a step).
Proof. reflexivity. Qed.

Lemma bench_aligned :
  general_work (Bench.armed a step) Bench.samples
  = Some (Bench.aligned a step,
          {| consumed := 4012; returned := 1; out0 := Bench.stale |}).
Proof. reflexivity. Qed.

Lemma bench_armed_run : armed_run (Bench.aligned a step).
Proof.
  eapply armed_run_work; [|exact bench_aligned].
  eapply armed_run_start. exact bench_armed.
Qed.

End BenchFacts.

Section Ready.

Context `{Collab : Collaborators}.

(** A state from which the replicas can be built: the preconditions of
    [update_local_code], a table of 1025 chips and buffers as long as the
    next block. *)
Lemma general_work_correlate_ready (s : State) (w : Work_input)
    (r c e d : Q) :
  d_rem_code_phase_samples s = Fnum r ->
  d_code_freq_hz s = Fnum c ->
  d_early_late_spc_chips s = Fnum e ->
  d_code_phase_step_chips s = Fnum d ->
  (Qabs r <= 1 # 2)%Q ->
  (0 < e)%Q -> (e <= 1 # 2)%Q ->
  (0 < c)%Q -> (c <= inject_Z (d_fs_in s))%Q ->
  (0 <= d)%Q ->
  length (d_ca_code s) = Z.to_nat 1025 ->
  d_next_prn_length_samples s <= Z.of_nat (length (d_early_code s)) ->
  d_next_prn_length_samples s <= Z.of_nat (length (d_prompt_code s)) ->
  d_next_prn_length_samples s <= Z.of_nat (length (d_late_code s)) ->
  d_next_prn_length_samples s <= Z.of_nat (length (d_carr_sign s)) ->
  exists t, general_work_correlate s w = Some t.
Proof.
  intros Hr Hc He Hd Hr2 He0 He2 Hc0 Hcf Hd0 Hca Le Lp Ll Lc.
  apply general_work_correlate_Some; try assumption.
  intros k _.
  exact (update_local_code_reads_in_bounds s r c e d k Hr Hc He Hd Hr2
           He0 He2 Hc0 Hcf Hd0 Hca).
Qed.

End Ready.

Section BenchSteps.

Variable a : Bench.Answers.

(** On the bench, after the pull-in, the replicas are built and the
    correlator gives its answer. *)
Lemma bench_correlate :
  exists c,
    general_work_correlate (Bench.aligned a fzero) Bench.samples = Some c
    /\ c = with_correlation c (Bench.aligned a fzero)
    /\ (d_Early c, d_Prompt c, d_Late c) = Bench.correlation a.
Proof.
  destruct (general_work_correlate_ready (Bench.aligned a fzero)
              Bench.samples 0 1023000 (1 # 2) 0)
    as [c Hc].
  - reflexivity.
  - reflexivity.
  - reflexivity.
  - reflexivity.
  - vm_compute; discriminate.
  - reflexivity.
  - vm_compute; discriminate.
  - reflexivity.
  - vm_compute; discriminate.
  - vm_compute; discriminate.
  - reflexivity.
  - vm_compute; discriminate.
  - vm_compute; discriminate.
  - vm_compute; discriminate.
  - vm_compute; discriminate.
  - exists c. split; [exact Hc|]. split.
    + exact (general_work_correlate_frame _ _ _ Hc).
    + destruct (general_work_correlate_outputs _ _ _ Hc)
        as (n & cs & e & p & l & E).
      rewrite E. reflexivity.
Qed.

End BenchSteps.


(** ** The claims on the bench *)


(** C2, witness: the block of the bench before it is armed. *)
Lemma disabled_step_effect_witness :
  exists s' o,
    general_work (Bench.fresh Bench.locked fzero) Bench.samples = Some (s', o)
    /\ returned o = 1
    /\ out0 o = Gnss_Synchro_default
    /\ consumed o = 4000
    /\ d_sample_counter s' = 4000
    /\ d_sample_counter_seconds s' = Fnum (1 # 1000)
    /\ d_enable_tracking s' = false.
Proof.
  exact (disabled_step_effect (Bench.fresh Bench.locked fzero) Bench.samples
           eq_refl).
Defined.

(** C2, counterexample: the block of the bench, not armed, consumes 4000
    samples in a call and its sample counters advance. *)
Lemma disabled_step_consumes_a_block :
  let s := Bench.fresh Bench.locked fzero in
  d_enable_tracking s = false
  /\ d_sample_counter s = 0
  /\ d_sample_counter_seconds s = fzero
  /\ exists s' o,
       general_work s Bench.samples = Some (s', o)
       /\ consumed o = 4000
       /\ d_sample_counter s' = 4000
       /\ d_sample_counter_seconds s' = Fnum (1 # 1000).
Proof.
  cbv zeta. split; [reflexivity|]. split; [reflexivity|].
  split; [reflexivity|].
  rewrite (general_work_disabled (Bench.fresh Bench.locked fzero)
             Bench.samples eq_refl).
  unfold general_work_end. eexists _, _. split; [reflexivity|].
  repeat split; reflexivity.
Qed.

(** C3: the code at an input where it departs from the claim.  The first
    call of [general_work] after [start_tracking] consumes the 4012 samples
    of the offset, advances the counter by them, clears [pull_in] and
    returns 1, but the output slot holds what it held before the call (a
    record of PRN 0), not a copy of the acquisition record (PRN 1). *)
Theorem pull_in_returns_before_writing_output :
  let s := Bench.armed Bench.locked fzero in
  let s' := Bench.aligned Bench.locked fzero in
  let o := {| consumed := 4012; returned := 1; out0 := Bench.stale |} in
  start_tracking (Bench.fresh Bench.locked fzero) = Some s
  /\ d_enable_tracking s = true /\ d_pull_in s = true
  /\ general_work s Bench.samples = Some (s', o)
  /\ d_sample_counter s = 0 /\ d_sample_counter s' = 4012
  /\ d_pull_in s' = false
  /\ out0 o = output_items Bench.samples
  /\ PRN (out0 o) = 0
  /\ PRN (d_acquisition_gnss_synchro s) = 1.
Proof.
  cbv zeta. split; [apply bench_armed|].
  split; [reflexivity|]. split; [reflexivity|].
  split; [apply bench_aligned|].
  repeat split; reflexivity.
Qed.

(** C4: the code at an input where it departs from the claim.  Half a PRN
    period (2000 samples) after an acquisition at code phase 0 and Doppler
    -5000 Hz, [start_tracking] sets the carrier Doppler to -5000 Hz and the
    code frequency to (1 - 5000/1575420000) * 1023000 Hz, and leaves a
    corrected code phase of 1260334000/315083 samples, about 4000.0063,
    which is not below [T_prn_true_samples] = 4000. *)
Theorem corrected_code_phase_beyond_the_period :
  let s := Bench.late Bench.locked fzero in
  d_enable_tracking s = false
  /\ d_sample_counter s = 4000
  /\ d_acquisition_gnss_synchro s
     = Bench.acquisition fzero (float_of_Z (-5000)) 2000
  /\ T_prn_true_samples (d_fs_in s) = float_of_Z 4000
  /\ handover <$> start_tracking s
     = Some (float_of_Z (-5000), Fnum (78770750 # 77),
             Fnum (1260334000 # 315083))
  /\ (Fnum (1260334000 # 315083) <? float_of_Z 4000)%F = false.
Proof.
  cbv zeta. repeat split; vm_compute; reflexivity.
Qed.

(** C8: the code at an input where it departs from the claim.  After the
    pull-in the two counters agree: 4012 samples, 4012/4000000 s.  A call
    whose Prompt output holds a NaN, with 8000 samples available, advances
    [sample_counter] to 12012 and leaves [sample_counter_seconds] as it
    was, 0.001003 s, where 12012 samples are 0.003003 s. *)
Theorem nan_step_leaves_seconds_behind :
  let s := Bench.aligned Bench.nan_sample fzero in
  d_sample_counter s = 4012
  /\ d_sample_counter_seconds s = Fnum (1003 # 1000000)
  /\ (float_of_Z (d_sample_counter s) / float_of_Z (d_fs_in s))%F
     = d_sample_counter_seconds s
  /\ exists s' o,
       general_work s Bench.samples = Some (s', o)
       /\ consumed o = 8000
       /\ d_sample_counter s' = 12012
       /\ d_sample_counter_seconds s' = Fnum (1003 # 1000000)
       /\ (float_of_Z (d_sample_counter s') / float_of_Z (d_fs_in s'))%F
          = Fnum (3003 # 1000000).
Proof.
  cbv zeta. split; [reflexivity|]. split; [reflexivity|].
  split; [vm_compute; reflexivity|].
  destruct (bench_correlate Bench.nan_sample) as (c & Hc & Fc & Ho).
  assert (isnan (real (d_Prompt c)) || isnan (imag (d_Prompt c)) = true)
    as Hn by (injection Ho as _ -> _; reflexivity).
  rewrite (general_work_nan_path (Bench.aligned Bench.nan_sample fzero)
             Bench.samples c eq_refl eq_refl Hc Hn).
  unfold general_work_nan. eexists _, _. split; [reflexivity|].
  cbn [consumed fst snd d_sample_counter d_sample_counter_seconds d_fs_in
       set_d_sample_counter].
  rewrite Fc. repeat split; vm_compute; reflexivity.
Qed.



(** C6, witness: on the bench, a call whose Prompt output holds a NaN. *)
Lemma nan_prompt_step_witness :
  exists s' o,
    general_work (Bench.aligned Bench.nan_sample fzero) Bench.samples
    = Some (s', o)
    /\ returned o = 1
    /\ consumed o = 8000
    /\ Flag_valid_tracking (out0 o) = false
    /\ Prompt_I (out0 o) = fzero
    /\ Prompt_Q (out0 o) = fzero
    /\ Carrier_phase_rads (out0 o) = fzero
    /\ Code_phase_secs (out0 o) = fzero
    /\ CN0_dB_hz (out0 o) = fzero
    /\ d_enable_tracking s' = true
    /\ d_pull_in s' = false
    /\ d_next_prn_length_samples s' = 4000
    /\ d_code_freq_hz s' = float_of_Z 1023000
    /\ d_carrier_doppler_hz s' = fzero.
Proof.
  destruct (bench_correlate Bench.nan_sample) as (c & Hc & Fc & Ho).
  assert (isnan (real (d_Prompt c)) || isnan (imag (d_Prompt c)) = true)
    as Hn by (injection Ho as _ -> _; reflexivity).
  exact (nan_prompt_step (Bench.aligned Bench.nan_sample fzero)
           Bench.samples c eq_refl eq_refl Hc Hn).
Defined.

(** C7, witness: on the bench, the block past the pull-in with a full
    Prompt buffer and 200 failures counted; the lock test, 1, is below the
    threshold, 5. *)
Lemma loss_of_lock_disables_tracking_witness :
  let s := set_d_cn0_estimation_counter 10
             (set_d_carrier_lock_fail_counter 200
                (Bench.aligned Bench.locked fzero)) in
  exists s' o,
    general_work s Bench.samples = Some (s', o)
    /\ d_channel_internal_queue s' = [] ++ [3]
    /\ d_enable_tracking s' = false
    /\ forall ws : list Work_input,
         exists s'' os,
           general_work_run s' ws = Some (s'', os)
           /\ d_enable_tracking s'' = false
           /\ d_channel_internal_queue s'' = [] ++ [3].
Proof.
  cbv zeta.
  set (s := set_d_cn0_estimation_counter 10
              (set_d_carrier_lock_fail_counter 200
                 (Bench.aligned Bench.locked fzero))).
  destruct (general_work_correlate_ready s Bench.samples 0 1023000 (1 # 2) 0)
    as [c Hc].
  - reflexivity.
  - reflexivity.
  - reflexivity.
  - reflexivity.
  - vm_compute; discriminate.
  - reflexivity.
  - vm_compute; discriminate.
  - reflexivity.
  - vm_compute; discriminate.
  - vm_compute; discriminate.
  - reflexivity.
  - vm_compute; discriminate.
  - vm_compute; discriminate.
  - vm_compute; discriminate.
  - vm_compute; discriminate.
  - pose proof (general_work_correlate_frame s Bench.samples c Hc) as Fc.
    assert (isnan (real (d_Prompt c)) || isnan (imag (d_Prompt c)) = false)
      as Hn.
    { destruct (general_work_correlate_outputs s Bench.samples c Hc)
        as (n & cs & e & p & l & E).
      injection E as _ -> _. reflexivity. }
    assert ((fun _ => tt) <$> general_work s Bench.samples = Some tt) as H.
    { rewrite (general_work_tracking_path s Bench.samples c eq_refl eq_refl
                 Hc Hn), Fc.
      vm_compute. reflexivity. }
    apply fmap_Some in H as ([s' o] & H & _).
    exists s', o. split; [exact H|].
    exact (loss_of_lock_disables_tracking s Bench.samples c s' o
             eq_refl eq_refl Hc Hn ltac:(vm_compute; discriminate)
             eq_refl H).
Defined.


(** C10: the code at an input where it departs from the claim.  The block
    of the bench is built over a memory that holds -1 in
    [d_code_phase_step_chips], a member that neither the constructor nor
    [start_tracking] assigns and that [general_work] assigns only after
    [update_local_code] has run.  When [general_work] calls
    [update_local_code] for the first time the preconditions of the claim
    hold (remainder 0, spacing 0.5, code frequency 1023000 Hz at 4 MHz),
    and the Early index of the second iteration is -1: the read is outside
    [d_ca_code], and neither [update_local_code] nor the call of
    [general_work] runs to its end. *)
Theorem stale_code_phase_step_reads_outside :
  let s := set_d_current_prn_length_samples 4000
             (Bench.aligned Bench.locked (Fnum (- 1))) in
  d_rem_code_phase_samples s = fzero
  /\ d_early_late_spc_chips s = Fnum (1 # 2)
  /\ d_code_freq_hz s = float_of_Z 1023000
  /\ d_fs_in s = 4000000
  /\ d_code_phase_step_chips s = Fnum (- 1)
  /\ associated_chip_index
       (tcode_chips_at
          (- (d_rem_code_phase_samples s
              * (d_code_freq_hz s / float_of_Z (d_fs_in s))))%F
          (d_code_phase_step_chips s) 1
        - d_early_late_spc_chips s)%F = Some (-1)
  /\ update_local_code s = None
  /\ general_work (Bench.aligned Bench.locked (Fnum (- 1))) Bench.samples
     = None.
Proof.
  cbv zeta. repeat split; reflexivity.
Qed.

(** * Further properties of the code *)


(** ** The paths of a call, case by case *)

Section Cases.
Context `{Collab : Collaborators}.

(** The four ways through [general_work]: not armed, the pull-in, a Prompt
    output that is not a number, and a step that tracks. *)
Lemma general_work_cases s w s' o :
  general_work s w = Some (s', o) ->
  (d_enable_tracking s = false
   /\ general_work_end
        (set_d_Late czero (set_d_Prompt czero (set_d_Early czero s)))
        Gnss_Synchro_default = Some (s', o))
  \/ (d_enable_tracking s = true /\ d_pull_in s = true
      /\ general_work_pull_in s w = Some (s', o))
  \/ (d_enable_tracking s = true /\ d_pull_in s = false
      /\ exists c,
           general_work_correlate s w = Some c
           /\ isnan (real (d_Prompt c)) || isnan (imag (d_Prompt c)) = true
           /\ general_work_nan c w (d_acquisition_gnss_synchro s)
              = Some (s', o))
  \/ (d_enable_tracking s = true /\ d_pull_in s = false
      /\ exists c l d e,
           general_work_correlate s w = Some c
           /\ isnan (real (d_Prompt c)) || isnan (imag (d_Prompt c)) = false
           /\ general_work_loops c = Some l
           /\ CN0_estimation_and_lock_detectors l = Some d
           /\ update_last_seg d = Some e
           /\ general_work_end e
                (tracking_output d (d_acquisition_gnss_synchro s))
              = Some (s', o)).
Proof.
  intros H.
  destruct (d_enable_tracking s) eqn:H1.
  - destruct (d_pull_in s) eqn:H2.
    + rewrite (general_work_pull_in_path s w H1 H2) in H. auto.
    + destruct (general_work_correlate s w) as [c|] eqn:Hc;
        [| unfold general_work in H; rewrite H1, H2, Hc in H; discriminate].
      destruct (isnan (real (d_Prompt c)) || isnan (imag (d_Prompt c)))
        eqn:Hn.
      * rewrite (general_work_nan_path s w c H1 H2 Hc Hn) in H.
        right. right. left. eauto 10.
      * rewrite (general_work_tracking_path s w c H1 H2 Hc Hn) in H.
        apply bind_Some in H as (l & Hl & H).
        apply bind_Some in H as (d & Hd & H).
        apply bind_Some in H as (e & He & H).
        right. right. right. eauto 15.
  - rewrite (general_work_disabled s w H1) in H. auto.
Qed.

Lemma CN0_estimation_and_lock_detectors_frame l d :
  CN0_estimation_and_lock_detectors l = Some d -> d = with_detectors d l.
Proof.
  unfold CN0_estimation_and_lock_detectors. intros H.
  destruct (_ <? _).
  - apply bind_Some in H as (b & _ & H). injection H as <-.
    destruct l. reflexivity.
  - cbn in H. destruct (_ >? _); injection H as <-; destruct l; reflexivity.
Qed.

End Cases.

(** ** The content of the replicas *)

Section Content.
Context `{Collab : Collaborators}.

Lemma array_set_inv {A} (a a' : list A) (i : Z) (v : A) :
  array_set a i v = Some a' ->
  0 <= i < Z.of_nat (length a) /\ a' = <[Z.to_nat i := v]> a.
Proof.
  unfold array_set. destruct (_ && _) eqn:E; [|discriminate].
  intros [= <-]. apply andb_true_iff in E as [E1 E2].
  apply Z.leb_le in E1. apply Z.ltb_lt in E2. auto.
Qed.

Lemma update_local_code_loop_content n :
  forall i t s s',
    0 <= i ->
    update_local_code_loop n i t s = Some s' ->
    (forall k, (k < n)%nat ->
       let x := tcode_chips_at t (d_code_phase_step_chips s) k in
       is_Some (chip_at s (x - d_early_late_spc_chips s)%F)
       /\ is_Some (chip_at s x)
       /\ is_Some (chip_at s (x + d_early_late_spc_chips s)%F)
       /\ d_early_code s' !! (Z.to_nat i + k)%nat
          = chip_at s (x - d_early_late_spc_chips s)%F
       /\ d_prompt_code s' !! (Z.to_nat i + k)%nat = chip_at s x
       /\ d_late_code s' !! (Z.to_nat i + k)%nat
          = chip_at s (x + d_early_late_spc_chips s)%F)
    /\ (forall j, (j < Z.to_nat i)%nat \/ (Z.to_nat i + n <= j)%nat ->
          d_early_code s' !! j = d_early_code s !! j
          /\ d_prompt_code s' !! j = d_prompt_code s !! j
          /\ d_late_code s' !! j = d_late_code s !! j).
Proof.
  induction n as [|n IH]; intros i t s s' Hi H; simpl in H.
  - injection H as <-. split; [intros k Hk; lia | auto].
  - apply bind_Some in H as (ie & Hie & H).
    apply bind_Some in H as (ce & Hce & H).
    apply bind_Some in H as (early & He & H). cbn in H.
    apply bind_Some in H as (ip & Hip & H).
    apply bind_Some in H as (cp & Hcp & H).
    apply bind_Some in H as (prompt & Hp & H). cbn in H.
    apply bind_Some in H as (il & Hil & H).
    apply bind_Some in H as (cl & Hcl & H).
    apply bind_Some in H as (late & Hl & H). cbn in H.
    apply array_set_inv in He as [Be ->].
    apply array_set_inv in Hp as [Bp ->].
    apply array_set_inv in Hl as [Bl ->].
    destruct (IH (i + 1) _ _ _ ltac:(lia) H) as [IH1 IH2]. clear IH H.
    cbn in IH1, IH2.
    replace (Z.to_nat (i + 1)) with (S (Z.to_nat i)) in IH1, IH2 by lia.
    assert (chip_at s (t - d_early_late_spc_chips s)%F = Some ce) as Ce
      by (unfold chip_at; rewrite Hie; exact Hce).
    assert (chip_at s t = Some cp) as Cp
      by (unfold chip_at; rewrite Hip; exact Hcp).
    assert (chip_at s (t + d_early_late_spc_chips s)%F = Some cl) as Cl
      by (unfold chip_at; rewrite Hil; exact Hcl).
    split.
    + intros [|k] Hk.
      * cbn. rewrite Ce, Cp, Cl. rewrite Nat.add_0_r.
        destruct (IH2 (Z.to_nat i)) as (E1 & E2 & E3); [left; lia|].
        rewrite E1, E2, E3.
        rewrite !list_lookup_insert_eq by lia. repeat split; eauto.
      * specialize (IH1 k ltac:(lia)). cbn in IH1. cbn.
        replace (Z.to_nat i + S k)%nat with (S (Z.to_nat i) + k)%nat by lia.
        exact IH1.
    + intros j Hj.
      destruct (IH2 j) as (E1 & E2 & E3); [lia|].
      rewrite E1, E2, E3.
      rewrite !list_lookup_insert_ne by lia. auto.
Qed.

(** X7: what [update_local_code] leaves in the replicas.  When it returns,
    position [k] of the Early, Prompt and Late replicas holds, for every [k]
    below the block length, the chip of [d_ca_code] read at the code phase
    of iteration [k] minus the spacing, at that phase, and at that phase
    plus the spacing; the positions from the block length on are as they
    were, and no other member changes. *)
Theorem update_local_code_replicas (s s' : State) :
  update_local_code s = Some s' ->
  let t := (- (d_rem_code_phase_samples s
               * (d_code_freq_hz s / float_of_Z (d_fs_in s))))%F in
  let n := Z.to_nat (d_current_prn_length_samples s) in
  (forall k, (k < n)%nat ->
     let x := tcode_chips_at t (d_code_phase_step_chips s) k in
     is_Some (chip_at s (x - d_early_late_spc_chips s)%F)
     /\ is_Some (chip_at s x)
     /\ is_Some (chip_at s (x + d_early_late_spc_chips s)%F)
     /\ d_early_code s' !! k = chip_at s (x - d_early_late_spc_chips s)%F
     /\ d_prompt_code s' !! k = chip_at s x
     /\ d_late_code s' !! k = chip_at s (x + d_early_late_spc_chips s)%F)
  /\ (forall j, (n <= j)%nat ->
        d_early_code s' !! j = d_early_code s !! j
        /\ d_prompt_code s' !! j = d_prompt_code s !! j
        /\ d_late_code s' !! j = d_late_code s !! j)
  /\ s' = with_replicas (d_early_code s') (d_prompt_code s')
            (d_late_code s') s.
Proof.
  unfold update_local_code. intros H. cbv zeta.
  destruct (update_local_code_loop_content _ 0 _ _ _ ltac:(lia) H)
    as [C1 C2].
  split; [|split].
  - intros k Hk. exact (C1 k Hk).
  - intros j Hj. apply C2. right. cbn. exact Hj.
  - apply update_local_code_loop_frame in H as [H _]. exact H.
Qed.



Lemma update_local_code_loop_fits n :
  forall i t s s',
    0 <= i -> (0 < n)%nat ->
    update_local_code_loop n i t s = Some s' ->
    i + Z.of_nat n <= Z.of_nat (length (d_early_code s))
    /\ i + Z.of_nat n <= Z.of_nat (length (d_prompt_code s))
    /\ i + Z.of_nat n <= Z.of_nat (length (d_late_code s)).
Proof.
  induction n as [|n IH]; intros i t s s' Hi Hn H; [lia|]. simpl in H.
  apply bind_Some in H as (ie & Hie & H).
  apply bind_Some in H as (ce & Hce & H).
  apply bind_Some in H as (early & He & H). cbn in H.
  apply bind_Some in H as (ip & Hip & H).
  apply bind_Some in H as (cp & Hcp & H).
  apply bind_Some in H as (prompt & Hp & H). cbn in H.
  apply bind_Some in H as (il & Hil & H).
  apply bind_Some in H as (cl & Hcl & H).
  apply bind_Some in H as (late & Hl & H). cbn in H.
  apply array_set_inv in He as [Be ->].
  apply array_set_inv in Hp as [Bp ->].
  apply array_set_inv in Hl as [Bl ->].
  destruct n as [|n]; [lia|].
  destruct (IH (i + 1) _ _ _ ltac:(lia) ltac:(lia) H) as (F1 & F2 & F3).
  cbn in F1, F2, F3. rewrite length_insert in F1, F2, F3. lia.
Qed.

Lemma update_local_carrier_loop_fits n :
  forall i ph st s r,
    0 <= i -> (0 < n)%nat ->
    update_local_carrier_loop n i ph st s = Some r ->
    i + Z.of_nat n <= Z.of_nat (length (d_carr_sign s)).
Proof.
  induction n as [|n IH]; intros i ph st s r Hi Hn H; [lia|]. simpl in H.
  apply bind_Some in H as (cs & Hcs & H). cbn in H.
  apply array_set_inv in Hcs as [B ->].
  destruct n as [|n]; [lia|].
  pose proof (IH (i + 1) _ _ _ _ ltac:(lia) ltac:(lia) H) as F.
  cbn in F. rewrite length_insert in F. lia.
Qed.

(** X8: the block has to fit the buffers.  A call that tracks (armed, past
    the pull-in) with a block length [d_next_prn_length_samples] larger than
    the length of the Early, Prompt or Late replica or of the carrier
    replica writes outside that buffer: the model has no result for it. *)
Theorem block_longer_than_a_buffer (s : State) (w : Work_input) :
  d_enable_tracking s = true -> d_pull_in s = false ->
  Z.of_nat (length (d_early_code s)) < d_next_prn_length_samples s
  \/ Z.of_nat (length (d_prompt_code s)) < d_next_prn_length_samples s
  \/ Z.of_nat (length (d_late_code s)) < d_next_prn_length_samples s
  \/ Z.of_nat (length (d_carr_sign s)) < d_next_prn_length_samples s ->
  general_work s w = None.
Proof.
  intros H1 H2 B.
  destruct (general_work s w) as [[s' o]|] eqn:H; [exfalso|reflexivity].
  assert (exists c, general_work_correlate s w = Some c) as [c Hc].
  { apply general_work_cases in H
      as [(E & _)|[(_ & E & _)|[(_ & _ & c & Hc & _)
         |(_ & _ & c & l & d & e & Hc & _)]]];
      [congruence | congruence | eauto | eauto]. }
  clear H. unfold general_work_correlate in Hc.
  apply bind_Some in Hc as (s1 & Hs1 & Hc).
  apply bind_Some in Hc as (s2 & Hs2 & _).
  assert (0 < Z.to_nat (d_next_prn_length_samples s))%nat as Hn by lia.
  unfold update_local_code in Hs1. cbn in Hs1.
  pose proof (update_local_code_loop_fits _ 0 _ _ _ ltac:(lia) Hn Hs1)
    as (F1 & F2 & F3). cbn in F1, F2, F3.
  apply update_local_code_loop_frame in Hs1 as (Fr & _).
  unfold update_local_carrier in Hs2.
  apply bind_Some in Hs2 as ([ph s3] & Hs3 & _).
  rewrite Fr in Hs3. cbn in Hs3.
  pose proof (update_local_carrier_loop_fits _ 0 _ _ _ _ ltac:(lia) Hn Hs3)
    as F4. cbn in F4.
  lia.
Qed.

Lemma update_local_carrier_loop_content n :
  forall i ph st s ph' s',
    0 <= i ->
    update_local_carrier_loop n i ph st s = Some (ph', s') ->
    ph' = phase_rad_at ph st n
    /\ (forall k, (k < n)%nat ->
          d_carr_sign s' !! (Z.to_nat i + k)%nat
          = Some (Complex (cos (phase_rad_at ph st k))
                    (sin (phase_rad_at ph st k))))
    /\ (forall j, (j < Z.to_nat i)%nat \/ (Z.to_nat i + n <= j)%nat ->
          d_carr_sign s' !! j = d_carr_sign s !! j).
Proof.
  induction n as [|n IH]; intros i ph st s ph' s' Hi H; simpl in H.
  - injection H as <- <-. split; [reflexivity|].
    split; [intros k Hk; lia | auto].
  - apply bind_Some in H as (cs & Hcs & H). cbn in H.
    apply array_set_inv in Hcs as [B ->].
    destruct (IH (i + 1) _ _ _ _ _ ltac:(lia) H) as (IH0 & IH1 & IH2).
    clear IH H. cbn in IH1, IH2.
    replace (Z.to_nat (i + 1)) with (S (Z.to_nat i)) in IH1, IH2 by lia.
    split; [exact IH0|]. split.
    + intros [|k] Hk.
      * cbn. rewrite Nat.add_0_r, IH2 by (left; lia).
        rewrite list_lookup_insert_eq by lia. reflexivity.
      * cbn.
        replace (Z.to_nat i + S k)%nat with (S (Z.to_nat i) + k)%nat by lia.
        apply IH1. lia.
    + intros j Hj. rewrite IH2 by lia.
      rewrite list_lookup_insert_ne by lia. reflexivity.
Qed.

(** The carrier phase that [update_local_carrier] carries to the next
    block. *)
Lemma update_local_carrier_rem_carr_phase (s s' : State) :
  update_local_carrier s = Some s' ->
  d_rem_carr_phase_rad s'
  = fmod (phase_rad_at (d_rem_carr_phase_rad s)
            (GPS_TWO_PI * d_carrier_doppler_hz s / float_of_Z (d_fs_in s))%F
            (Z.to_nat (d_current_prn_length_samples s)))
         GPS_TWO_PI.
Proof.
  unfold update_local_carrier. intros H.
  apply bind_Some in H as ([ph s1] & H1 & H). cbn in H.
  injection H as <-.
  destruct (update_local_carrier_loop_content _ 0 _ _ _ _ _ ltac:(lia) H1)
    as (-> & _).
  reflexivity.
Qed.

(** X9: what [update_local_carrier] leaves.  When it returns, position [k]
    of the carrier replica holds (cos, sin) of the phase of iteration [k],
    for every [k] below the block length, and the positions from the block
    length on are as they were; the phase left after the last iteration,
    reduced by [fmod] to less than a turn, is the new
    [d_rem_carr_phase_rad]; and it is that remainder, not the phase the
    block went through, that is added to [d_acc_carrier_phase_rad]. *)
Theorem update_local_carrier_replica (s s' : State) :
  update_local_carrier s = Some s' ->
  let step :=
    (GPS_TWO_PI * d_carrier_doppler_hz s / float_of_Z (d_fs_in s))%F in
  let n := Z.to_nat (d_current_prn_length_samples s) in
  (forall k, (k < n)%nat ->
     d_carr_sign s' !! k
     = Some (Complex (cos (phase_rad_at (d_rem_carr_phase_rad s) step k))
               (sin (phase_rad_at (d_rem_carr_phase_rad s) step k))))
  /\ (forall j, (n <= j)%nat -> d_carr_sign s' !! j = d_carr_sign s !! j)
  /\ d_rem_carr_phase_rad s'
     = fmod (phase_rad_at (d_rem_carr_phase_rad s) step n) GPS_TWO_PI
  /\ d_acc_carrier_phase_rad s'
     = (d_acc_carrier_phase_rad s + d_rem_carr_phase_rad s')%F.
Proof.
  unfold update_local_carrier. intros H. cbv zeta.
  apply bind_Some in H as ([ph s1] & H1 & H). cbn in H.
  injection H as <-.
  pose proof (update_local_carrier_loop_frame _ _ _ _ _ _ _ H1) as [Fr _].
  destruct (update_local_carrier_loop_content _ 0 _ _ _ _ _ ltac:(lia) H1)
    as (-> & C1 & C2).
  cbn. split; [|split; [|split]].
  - intros k Hk. exact (C1 k Hk).
  - intros j Hj. apply C2. right. cbn. exact Hj.
  - reflexivity.
  - rewrite Fr. reflexivity.
Qed.

(** X10: the carrier phase carried from a block to the next is less than a
    turn: with a positive [GPS_TWO_PI], the value [update_local_carrier]
    leaves in [d_rem_carr_phase_rad], when it is a number, is strictly
    between minus a turn and a turn. *)
Theorem update_local_carrier_remainder (s s' : State) (p r : Q) :
  GPS_TWO_PI = Fnum p -> (0 < p)%Q ->
  update_local_carrier s = Some s' ->
  d_rem_carr_phase_rad s' = Fnum r ->
  (- p < r)%Q /\ (r < p)%Q.
Proof.
  intros Hp Pp H Hr.
  apply update_local_carrier_rem_carr_phase in H.
  rewrite Hr, Hp in H.
  destruct (phase_rad_at _ _ _) as [x|]; [|discriminate].
  cbn in H. destruct (Qeq_bool p 0); [discriminate|].
  injection H as ->. rewrite Qred_correct.
  apply Qfmod_abs_lt. exact Pp.
Qed.

End Content.

(** ** What [start_tracking] assigns *)

Section Start.
Context `{Collab : Collaborators}.

(** What [start_tracking] leaves, member by member. *)
Lemma start_tracking_effect s s' :
  start_tracking s = Some s' ->
  let acq := d_acquisition_gnss_synchro s in
  (d_enable_tracking s' = true /\ d_pull_in s' = true
   /\ d_carrier_lock_fail_counter s' = 0
   /\ d_rem_code_phase_samples s' = fzero
   /\ d_rem_carr_phase_rad s' = fzero
   /\ d_next_rem_code_phase_samples s' = fzero
   /\ d_acc_carrier_phase_rad s' = fzero
   /\ d_acq_sample_stamp s' = Acq_samplestamp_samples acq
   /\ d_acq_carrier_doppler_hz s' = Acq_doppler_hz acq
   /\ d_carrier_doppler_hz s' = Acq_doppler_hz acq
   /\ d_code_freq_hz s'
      = ((GPS_L1_FREQ_HZ + Acq_doppler_hz acq) / GPS_L1_FREQ_HZ
         * GPS_L1_CA_CODE_RATE_HZ)%F
   /\ float_to_int (round (T_prn_mod_samples s))
      = Some (d_next_prn_length_samples s')
   /\ d_acq_code_phase_samples s'
      = (if (acq_phase_remainder s <? fzero)%F
         then (T_prn_mod_samples s + acq_phase_remainder s)%F
         else acq_phase_remainder s)
   /\ d_code_phase_samples s' = d_acq_code_phase_samples s'
   /\ d_carrier_loop_filter s'
      = PLL_initialize (Acq_doppler_hz acq) (d_carrier_loop_filter s)
   /\ d_code_loop_filter s'
      = DLL_initialize (d_acq_code_phase_samples s') (d_code_loop_filter s))
  /\ (exists ca last_chip first_chip,
        array_store_from (d_ca_code s) 1 (code_gen_conplex (PRN acq) 0)
        = Some ca
        /\ array_get ca code_length_chips = Some last_chip
        /\ array_get (<[0%nat := last_chip]> ca) 1 = Some first_chip
        /\ (code_length_chips + 1 < Z.of_nat (length ca))
        /\ d_ca_code s'
           = <[Z.to_nat (code_length_chips + 1) := first_chip]>
               (<[0%nat := last_chip]> ca))
  /\ (d_dump s', d_if_freq s', d_fs_in s', d_vector_length s',
      d_early_late_spc_chips s', d_carr_sign s', d_early_code s',
      d_late_code s', d_prompt_code s', d_Early s', d_Prompt s', d_Late s',
      d_sample_counter s', d_sample_counter_seconds s', d_last_seg s',
      d_current_prn_length_samples s', d_cn0_estimation_counter s',
      d_Prompt_buffer s', d_carrier_lock_test s', d_CN0_SNV_dB_Hz s',
      d_carrier_lock_threshold s', d_acquisition_gnss_synchro s',
      d_channel s', d_code_phase_step_chips s', d_channel_internal_queue s')
     = (d_dump s, d_if_freq s, d_fs_in s, d_vector_length s,
        d_early_late_spc_chips s, d_carr_sign s, d_early_code s,
        d_late_code s, d_prompt_code s, d_Early s, d_Prompt s, d_Late s,
        d_sample_counter s, d_sample_counter_seconds s, d_last_seg s,
        d_current_prn_length_samples s, d_cn0_estimation_counter s,
        d_Prompt_buffer s, d_carrier_lock_test s, d_CN0_SNV_dB_Hz s,
        d_carrier_lock_threshold s, d_acquisition_gnss_synchro s,
        d_channel s, d_code_phase_step_chips s, d_channel_internal_queue s).
Proof.
  unfold start_tracking. intros H.
  apply bind_Some in H as (n & Hn & H).
  apply bind_Some in H as (ca1 & H0 & H).
  apply bind_Some in H as (c1 & H1 & H).
  apply bind_Some in H as (ca2 & H2 & H).
  apply bind_Some in H as (c2 & H3 & H).
  apply bind_Some in H as (ca3 & H4 & H).
  apply array_set_inv in H2 as [B2 ->].
  apply array_set_inv in H4 as [B4 ->].
  rewrite length_insert in B4.
  injection H as <-. cbv zeta.
  split; [|split].
  - do 15 (split; [first [reflexivity | exact Hn]|]).
    reflexivity.
  - exists ca1, c1, c2.
    split; [exact H0|]. split; [exact H1|]. split; [exact H3|].
    split; [lia|]. reflexivity.
  - reflexivity.
Qed.

End Start.

(** ** Outputs, counters and the lock detectors *)

Section Accounting.
Context `{Collab : Collaborators}.

Lemma general_work_returned s w s' o :
  general_work s w = Some (s', o) -> returned o = 1.
Proof.
  intros H. apply general_work_cases in H
    as [(_ & H)|[(_ & _ & H)|[(_ & _ & c & _ & _ & H)
       |(_ & _ & c & l & d & e & _ & _ & _ & _ & _ & H)]]].
  - unfold general_work_end in H. injection H as _ <-. reflexivity.
  - unfold general_work_pull_in in H.
    apply bind_Some in H as (n & _ & H). injection H as _ <-. reflexivity.
  - unfold general_work_nan in H. injection H as _ <-. reflexivity.
  - unfold general_work_end in H. injection H as _ <-. reflexivity.
Qed.

(** X1: a run of calls gives one output item per call, and moves
    [d_sample_counter] by the number of samples the calls consumed, modulo
    2^64: the counter is the position of the block in its input stream. *)
Theorem general_work_run_accounting (ws : list Work_input) :
  forall (s s' : State) (os : list Work_output),
    general_work_run s ws = Some (s', os) ->
    length os = length ws
    /\ Forall (fun o => returned o = 1) os
    /\ to_ulong (d_sample_counter s')
       = to_ulong (d_sample_counter s + total_consumed os).
Proof.
  induction ws as [|w ws IH]; intros s s' os H; simpl in H.
  - injection H as <- <-. repeat split; [constructor|].
    unfold total_consumed. cbn [foldr]. rewrite Z.add_0_r. reflexivity.
  - apply bind_Some in H as ([s1 o] & H1 & H). cbn in H.
    apply bind_Some in H as ([s2 os'] & H2 & H). cbn in H.
    injection H as <- <-.
    destruct (IH _ _ _ H2) as (L & R & C).
    split; [cbn; congruence|]. split.
    + constructor; [exact (general_work_returned _ _ _ _ H1) | exact R].
    + rewrite C, (general_work_sample_counter _ _ _ _ H1).
      unfold total_consumed. cbn [foldr]. fold (total_consumed os').
      unfold ulong_add, to_ulong.
      rewrite Z.add_mod_idemp_l by (unfold ULONG_MODULUS; lia).
      f_equal. lia.
Qed.


End Accounting.

Section Detector.
Context `{Collab : Collaborators}.

Lemma CN0_estimation_and_lock_detectors_switch l d :
  CN0_estimation_and_lock_detectors l = Some d ->
  (d_enable_tracking d = d_enable_tracking l
   /\ d_channel_internal_queue d = d_channel_internal_queue l)
  \/ (d_enable_tracking d = false
      /\ d_channel_internal_queue d = d_channel_internal_queue l ++ [3]
      /\ d_carrier_lock_fail_counter d = 0).
Proof.
  unfold CN0_estimation_and_lock_detectors. intros H.
  destruct (_ <? _).
  - apply bind_Some in H as (b & _ & H). injection H as <-. left. split; reflexivity.
  - cbn in H. destruct (_ >? _); injection H as <-.
    + right. repeat split.
    + left. split; reflexivity.
Qed.

(** X3: a call of [general_work] never arms the block and never takes a
    message off the control sink.  Tracking is switched off in one way only:
    by a call that pushes exactly one message 3 (loss of lock) and resets
    the fail counter; every other call leaves both the flag and the sink as
    they are. *)
Theorem general_work_switch_off (s : State) (w : Work_input)
    (s' : State) (o : Work_output) :
  general_work s w = Some (s', o) ->
  (d_enable_tracking s' = d_enable_tracking s
   /\ d_channel_internal_queue s' = d_channel_internal_queue s)
  \/ (d_enable_tracking s = true /\ d_enable_tracking s' = false
      /\ d_channel_internal_queue s' = d_channel_internal_queue s ++ [3]
      /\ d_carrier_lock_fail_counter s' = 0).
Proof.
  intros H. apply general_work_cases in H
    as [(_ & C)|[(_ & _ & C)|[(_ & _ & c & Fc & _ & C)
       |(H1 & _ & c & l & d & e & Fc & _ & Fl & Fd & Fe & C)]]].
  - unfold general_work_end in C. injection C as <- _. left. split; reflexivity.
  - unfold general_work_pull_in in C.
    apply bind_Some in C as (n & _ & C). injection C as <- _.
    left. split; reflexivity.
  - apply general_work_correlate_frame in Fc.
    unfold general_work_nan in C. injection C as <- _.
    left. cbn. rewrite Fc. split; reflexivity.
  - apply general_work_correlate_frame in Fc.
    apply general_work_loops_frame in Fl.
    apply update_last_seg_frame in Fe.
    unfold general_work_end in C. injection C as <- _. cbn.
    assert (d_enable_tracking l = d_enable_tracking s) as E1
      by (rewrite Fl; cbn; rewrite Fc; reflexivity).
    assert (d_channel_internal_queue l = d_channel_internal_queue s) as E2
      by (rewrite Fl; cbn; rewrite Fc; reflexivity).
    rewrite Fe. cbn.
    destruct (CN0_estimation_and_lock_detectors_switch l d Fd)
      as [(D1 & D2)|(D1 & D2 & D3)].
    + left. rewrite D1, D2, E1, E2. split; reflexivity.
    + right. rewrite D1, D2, D3, E2. repeat split. exact H1.
Qed.

Lemma update_carrier_lock_fail_counter_range lock thr n :
  0 <= n -> 0 <= update_carrier_lock_fail_counter lock thr n <= n + 1.
Proof.
  intros Hn. unfold update_carrier_lock_fail_counter.
  destruct (_ || _); [lia|]. destruct (n >? 0) eqn:E; lia.
Qed.

Lemma CN0_estimation_and_lock_detectors_fail_counter l d :
  0 <= d_carrier_lock_fail_counter l <= MAXIMUM_LOCK_FAIL_COUNTER ->
  CN0_estimation_and_lock_detectors l = Some d ->
  0 <= d_carrier_lock_fail_counter d <= MAXIMUM_LOCK_FAIL_COUNTER.
Proof.
  unfold CN0_estimation_and_lock_detectors. intros R H.
  destruct (_ <? _).
  - apply bind_Some in H as (b & _ & H). injection H as <-. exact R.
  - cbn in H.
    pose proof (update_carrier_lock_fail_counter_range
                  (carrier_lock_detector (d_Prompt_buffer l)
                     CN0_ESTIMATION_SAMPLES)
                  (d_carrier_lock_threshold l)
                  (d_carrier_lock_fail_counter l) (proj1 R)) as U.
    destruct (_ >? _) eqn:E; injection H as <-; cbn.
    + unfold MAXIMUM_LOCK_FAIL_COUNTER. lia.
    + rewrite Z.gtb_ltb in E. apply Z.ltb_ge in E. lia.
Qed.

Lemma general_work_fail_counter s w s' o :
  0 <= d_carrier_lock_fail_counter s <= MAXIMUM_LOCK_FAIL_COUNTER ->
  general_work s w = Some (s', o) ->
  0 <= d_carrier_lock_fail_counter s' <= MAXIMUM_LOCK_FAIL_COUNTER.
Proof.
  intros R H. apply general_work_cases in H
    as [(_ & C)|[(_ & _ & C)|[(_ & _ & c & Fc & _ & C)
       |(H1 & _ & c & l & d & e & Fc & _ & Fl & Fd & Fe & C)]]].
  - unfold general_work_end in C. injection C as <- _. exact R.
  - unfold general_work_pull_in in C.
    apply bind_Some in C as (n & _ & C). injection C as <- _. exact R.
  - apply general_work_correlate_frame in Fc.
    unfold general_work_nan in C. injection C as <- _.
    cbn. rewrite Fc. exact R.
  - apply general_work_correlate_frame in Fc.
    apply general_work_loops_frame in Fl.
    apply update_last_seg_frame in Fe.
    unfold general_work_end in C. injection C as <- _. cbn.
    rewrite Fe. cbn.
    apply (CN0_estimation_and_lock_detectors_fail_counter l d); [|exact Fd].
    rewrite Fl. cbn. rewrite Fc. exact R.
Qed.

(** X4: in every state an armed block can reach, the lock fail counter is
    between 0 and [MAXIMUM_LOCK_FAIL_COUNTER], whatever the estimators
    return: it is never negative, and the step that would take it past 200
    resets it to 0. *)
Theorem armed_run_lock_fail_counter (s : State) :
  armed_run s ->
  0 <= d_carrier_lock_fail_counter s <= MAXIMUM_LOCK_FAIL_COUNTER.
Proof.
  induction 1 as [s s' H|s w s' o _ IH H|s p _ IH|s ch _ IH|s q _ IH].
  - apply start_tracking_effect in H as ((_ & _ & -> & _) & _).
    unfold MAXIMUM_LOCK_FAIL_COUNTER. lia.
  - exact (general_work_fail_counter s w s' o IH H).
  - exact IH.
  - exact IH.
  - exact IH.
Qed.

(** X5: the block of the lock detectors works in a cycle of eleven calls.
    With the counter between 0 and 10 and a Prompt buffer of ten entries it
    never writes outside the buffer.  A call with the counter below 10
    stores the Prompt output at the counter's place, counts it, and leaves
    everything else as it is: estimates, fail counter, control sink.  The
    call with the counter at 10 stores nothing (its Prompt output is
    dropped), evaluates the two estimators on the buffer and starts the
    count again. *)
Theorem CN0_estimation_and_lock_detectors_cycle (s : State) :
  0 <= d_cn0_estimation_counter s <= CN0_ESTIMATION_SAMPLES ->
  length (d_Prompt_buffer s) = Z.to_nat CN0_ESTIMATION_SAMPLES ->
  exists d,
    CN0_estimation_and_lock_detectors s = Some d
    /\ (d_cn0_estimation_counter s < CN0_ESTIMATION_SAMPLES ->
        d = set_d_cn0_estimation_counter (d_cn0_estimation_counter s + 1)
              (set_d_Prompt_buffer
                 (<[Z.to_nat (d_cn0_estimation_counter s) := d_Prompt s]>
                    (d_Prompt_buffer s)) s))
    /\ (d_cn0_estimation_counter s = CN0_ESTIMATION_SAMPLES ->
        d_cn0_estimation_counter d = 0
        /\ d_Prompt_buffer d = d_Prompt_buffer s
        /\ d_CN0_SNV_dB_Hz d
           = gps_l1_ca_CN0_SNV (d_Prompt_buffer s) CN0_ESTIMATION_SAMPLES
               (d_fs_in s)
        /\ d_carrier_lock_test d
           = carrier_lock_detector (d_Prompt_buffer s)
               CN0_ESTIMATION_SAMPLES).
Proof.
  intros R L. unfold CN0_estimation_and_lock_detectors.
  unfold CN0_ESTIMATION_SAMPLES in *.
  destruct (d_cn0_estimation_counter s <? 10) eqn:E.
  - apply Z.ltb_lt in E.
    rewrite array_set_Some by (rewrite L; lia). cbn [mbind option_bind].
    eexists. split; [reflexivity|]. split; [reflexivity|]. lia.
  - apply Z.ltb_ge in E.
    destruct (_ >? _); eexists; (split; [reflexivity|]);
      (split; [lia|]); intros _; repeat split.
Qed.

(** X6: a lock test that is not a number counts as a lock.  When the
    detectors are evaluated and [carrier_lock_detector] returns a NaN, both
    comparisons of the test are false: the fail counter is decremented (or
    stays at 0), no message is pushed and the block stays as armed as it
    was. *)
Theorem nan_lock_test_counts_as_lock (s : State) :
  CN0_ESTIMATION_SAMPLES <= d_cn0_estimation_counter s ->
  carrier_lock_detector (d_Prompt_buffer s) CN0_ESTIMATION_SAMPLES = Fnan ->
  d_carrier_lock_fail_counter s <= MAXIMUM_LOCK_FAIL_COUNTER + 1 ->
  exists d,
    CN0_estimation_and_lock_detectors s = Some d
    /\ d_carrier_lock_fail_counter d
       = (if d_carrier_lock_fail_counter s >? 0
          then d_carrier_lock_fail_counter s - 1
          else d_carrier_lock_fail_counter s)
    /\ d_enable_tracking d = d_enable_tracking s
    /\ d_channel_internal_queue d = d_channel_internal_queue s.
Proof.
  intros R N F. unfold CN0_estimation_and_lock_detectors.
  destruct (_ <? _) eqn:E; [apply Z.ltb_lt in E; lia|]. cbn.
  rewrite N. unfold update_carrier_lock_fail_counter. cbn.
  unfold MAXIMUM_LOCK_FAIL_COUNTER in *.
  destruct (d_carrier_lock_fail_counter s >? 0) eqn:G.
  - destruct (_ >? 200) eqn:G';
      [rewrite Z.gtb_ltb in G'; apply Z.ltb_lt in G'; lia|].
    eexists. split; [reflexivity|]. cbn. auto.
  - destruct (_ >? 200) eqn:G';
      [rewrite Z.gtb_ltb in G'; apply Z.ltb_lt in G'; lia|].
    eexists. split; [reflexivity|]. cbn. auto.
Qed.

End Detector.

(** ** The values [start_tracking] computes *)

Section FloatFacts.

Lemma Qeq_bool_false x y : ~ (x == y)%Q -> Qeq_bool x y = false.
Proof.
  intros N. destruct (Qeq_bool x y) eqn:E; [|reflexivity].
  apply Qeq_bool_iff in E. contradiction.
Qed.

Lemma fdiv_Fnum x y :
  ~ (y == 0)%Q -> (Fnum x / Fnum y)%F = Fnum (Qred (x / y)).
Proof. intros N. cbn. rewrite (Qeq_bool_false _ _ N). reflexivity. Qed.

Lemma fdiv_zero x y : (y == 0)%Q -> (Fnum x / Fnum y)%F = Fnan.
Proof.
  intros N. cbn. apply Qeq_bool_iff in N. rewrite N. reflexivity.
Qed.

Lemma fmod_Fnum x y :
  ~ (y == 0)%Q -> fmod (Fnum x) (Fnum y) = Fnum (Qred (Qfmod x y)).
Proof. intros N. cbn. rewrite (Qeq_bool_false _ _ N). reflexivity. Qed.

End FloatFacts.

Section StartValues.
Context `{Collab : Collaborators}.

(** The code frequency that [start_tracking] derives from a Doppler of [d]
    Hz, and the PRN period in samples at that frequency. *)
Lemma start_tracking_code_freq (d : Q) :
  exists c,
    ((GPS_L1_FREQ_HZ + Fnum d) / GPS_L1_FREQ_HZ * GPS_L1_CA_CODE_RATE_HZ)%F
    = Fnum c
    /\ (c == (1575420000 + d) / 1575420000 * 1023000)%Q.
Proof.
  unfold GPS_L1_FREQ_HZ, GPS_L1_CA_CODE_RATE_HZ, float_of_Z.
  change (inject_Z 1575420000) with 1575420000%Q.
  change (inject_Z 1023000) with 1023000%Q.
  unfold fadd at 1. rewrite fdiv_Fnum by (intros E; vm_compute in E; lia).
  unfold fmul. eexists. split; [reflexivity|].
  rewrite !Qred_correct. reflexivity.
Qed.

Lemma T_prn_mod_samples_value (s : State) (d : Q) :
  Acq_doppler_hz (d_acquisition_gnss_synchro s) = Fnum d ->
  ~ (d == - 1575420000)%Q ->
  exists t,
    T_prn_mod_samples s = Fnum t
    /\ (t == inject_Z (d_fs_in s) * 1575420 / (1575420000 + d))%Q.
Proof.
  intros Hd Nd. unfold T_prn_mod_samples. cbv zeta. rewrite Hd.
  destruct (start_tracking_code_freq d) as (c & -> & Ec).
  assert (~ (c == 0)%Q) as Nc.
  { rewrite Ec. intros E. apply Nd.
    assert (1575420000 + d == 0)%Q as E'; [|lra].
    assert (((1575420000 + d) / 1575420000 * 1023000) * (1575420000 / 1023000)
            == 1575420000 + d)%Q as <- by (field; lra).
    rewrite E. reflexivity. }
  unfold fone, float_of_Z. rewrite fdiv_Fnum by exact Nc.
  unfold GPS_L1_CA_CODE_LENGTH_CHIPS, float_of_Z, fmul.
  eexists. split; [reflexivity|].
  rewrite !Qred_correct, Ec.
  change (inject_Z 1) with 1%Q. change (inject_Z 1023) with 1023%Q.
  field. lra.
Qed.

Lemma T_prn_true_samples_value (fs_in : Z) :
  exists t, T_prn_true_samples fs_in = Fnum t
            /\ (t == inject_Z fs_in / 1000)%Q.
Proof.
  unfold T_prn_true_samples, GPS_L1_CA_CODE_LENGTH_CHIPS,
    GPS_L1_CA_CODE_RATE_HZ, float_of_Z. cbv zeta.
  rewrite fdiv_Fnum by (intros E; vm_compute in E; lia).
  unfold fmul. eexists. split; [reflexivity|].
  rewrite !Qred_correct.
  change (inject_Z 1023) with 1023%Q. change (inject_Z 1023000) with 1023000%Q.
  field.
Qed.

End StartValues.

(** ** Arming *)

Section Armed.
Context `{Collab : Collaborators}.

Lemma array_store_from_inv {A} (vs : list A) :
  forall (a a' : list A) (i : Z),
    0 <= i -> array_store_from a i vs = Some a' ->
    length a' = length a
    /\ (vs <> [] -> (Z.to_nat i + length vs <= length a)%nat)
    /\ (forall k, (k < length vs)%nat ->
          a' !! (Z.to_nat i + k)%nat = vs !! k)
    /\ (forall j, (j < Z.to_nat i)%nat \/ (Z.to_nat i + length vs <= j)%nat ->
          a' !! j = a !! j).
Proof.
  induction vs as [|v vs IH]; intros a a' i Hi H; simpl in H.
  - injection H as <-. split; [reflexivity|]. split; [congruence|].
    split; [intros k Hk; cbn in Hk; lia | auto].
  - apply bind_Some in H as (a1 & H1 & H).
    apply array_set_inv in H1 as [B ->].
    destruct (IH _ _ (i + 1) ltac:(lia) H) as (L & F & C1 & C2). clear IH H.
    rewrite length_insert in L, F.
    replace (Z.to_nat (i + 1)) with (S (Z.to_nat i)) in F, C1, C2 by lia.
    split; [exact L|]. split; [|split].
    + intros _. destruct vs as [|v' vs]; [cbn [length]; lia|].
      specialize (F ltac:(discriminate)). cbn [length] in *. lia.
    + intros [|k] Hk; cbn in Hk.
      * rewrite Nat.add_0_r, C2 by (left; lia).
        rewrite list_lookup_insert_eq by lia. reflexivity.
      * replace (Z.to_nat i + S k)%nat with (S (Z.to_nat i) + k)%nat by lia.
        cbn. apply C1. lia.
    + intros j Hj. cbn in Hj. rewrite C2 by lia.
      rewrite list_lookup_insert_ne by lia. reflexivity.
Qed.

Lemma array_store_from_Some {A} (vs : list A) :
  forall (a : list A) (i : Z),
    0 <= i -> (Z.to_nat i + length vs <= length a)%nat ->
    is_Some (array_store_from a i vs).
Proof.
  induction vs as [|v vs IH]; intros a i Hi L; simpl.
  - eauto.
  - cbn in L. rewrite array_set_Some by lia. cbn.
    apply IH; [lia|]. rewrite length_insert. lia.
Qed.

(** X11: the table of chips that [start_tracking] leaves.  With a code
    generator that gives the 1023 chips of the PRN, entries 1 to 1023 of
    [d_ca_code] hold the chips in order, entry 0 holds the last chip and
    entry 1024 holds the first: one chip of the neighbouring period on each
    side. *)
Theorem start_tracking_ca_code (s s' : State) :
  let chips :=
    code_gen_conplex (PRN (d_acquisition_gnss_synchro s)) 0 in
  length chips = Z.to_nat 1023 ->
  start_tracking s = Some s' ->
  (forall k, (k < 1023)%nat -> d_ca_code s' !! (1 + k)%nat = chips !! k)
  /\ d_ca_code s' !! 0%nat = chips !! 1022%nat
  /\ d_ca_code s' !! 1024%nat = chips !! 0%nat
  /\ length (d_ca_code s') = length (d_ca_code s).
Proof.
  cbv zeta. intros L H.
  apply start_tracking_effect in H
    as (_ & (ca & c1 & c2 & H0 & H1 & H2 & B & ->) & _).
  apply array_store_from_inv in H0 as (L0 & F & C1 & C2); [|lia].
  rewrite L in C1, C2, F.
  specialize (F ltac:(intros E; rewrite E in L; discriminate)).
  change (Z.to_nat 1) with 1%nat in *.
  change (Z.to_nat (code_length_chips + 1)) with 1024%nat.
  change (Z.to_nat 1023) with 1023%nat in *.
  unfold array_get, code_length_chips in H1, H2, B. cbn in H1, H2.
  rewrite list_lookup_insert_ne in H2 by lia.
  pose proof (C1 1022%nat ltac:(lia)) as E1.
  replace (1 + 1022)%nat with (Z.to_nat 1023) in E1 by lia.
  rewrite E1 in H1.
  pose proof (C1 0%nat ltac:(lia)) as E2.
  replace (1 + 0)%nat with (Z.to_nat 1) in E2 by lia.
  rewrite E2 in H2.
  split; [|split; [|split]].
  - intros k Hk. rewrite !list_lookup_insert_ne by lia. apply C1. exact Hk.
  - rewrite list_lookup_insert_ne by lia.
    rewrite list_lookup_insert_eq by lia. congruence.
  - rewrite list_lookup_insert_eq by (rewrite length_insert; lia). congruence.
  - rewrite !length_insert. exact L0.
Qed.

(** X12: [start_tracking] arms the block from any state.  With a table of
    1025 entries, a code generator that gives 1024 chips at most, a Doppler
    other than -L1 and a PRN period that fits an [int], it returns with
    tracking enabled and the pull-in pending, the fail counter and the
    carried phases at 0, the Doppler of the acquisition as carrier Doppler,
    and the counters, the control sink and the Prompt buffer as they
    were. *)
Theorem start_tracking_arms (s : State) (d : Q) :
  let acq := d_acquisition_gnss_synchro s in
  Acq_doppler_hz acq = Fnum d ->
  ~ (d == - 1575420000)%Q ->
  (Qabs (inject_Z (d_fs_in s) * 1575420 / (1575420000 + d))
   <= inject_Z INT_MAX)%Q ->
  length (d_ca_code s) = Z.to_nat 1025 ->
  (length (code_gen_conplex (PRN acq) 0) <= 1024)%nat ->
  exists s',
    start_tracking s = Some s'
    /\ d_enable_tracking s' = true /\ d_pull_in s' = true
    /\ d_carrier_lock_fail_counter s' = 0
    /\ d_rem_code_phase_samples s' = fzero
    /\ d_rem_carr_phase_rad s' = fzero
    /\ d_acc_carrier_phase_rad s' = fzero
    /\ d_carrier_doppler_hz s' = Fnum d
    /\ d_sample_counter s' = d_sample_counter s
    /\ d_sample_counter_seconds s' = d_sample_counter_seconds s
    /\ d_channel_internal_queue s' = d_channel_internal_queue s
    /\ d_cn0_estimation_counter s' = d_cn0_estimation_counter s.
Proof.
  cbv zeta. intros Hd Nd R L G.
  assert (is_Some (start_tracking s)) as [s' H].
  { unfold start_tracking.
    cbn [d_acquisition_gnss_synchro d_sample_counter d_fs_in
         d_acq_carrier_doppler_hz d_code_freq_hz d_acq_code_phase_samples
         d_carrier_doppler_hz d_carrier_loop_filter d_code_loop_filter
         d_ca_code d_acq_sample_stamp
         set_d_acq_code_phase_samples set_d_acq_carrier_doppler_hz
         set_d_acq_sample_stamp set_d_code_freq_hz
         set_d_next_prn_length_samples set_d_carrier_doppler_hz
         set_d_carrier_loop_filter set_d_code_loop_filter set_d_ca_code].
    fold (T_prn_mod_samples s).
    destruct (T_prn_mod_samples_value s d Hd Nd) as (t & -> & Et).
    rewrite float_to_int_round.
    2:{ pose proof (Qround_away_error t) as [E1 E2].
        apply Qabs_Qle_condition in R as [R1 R2]. rewrite <- Et in R1, R2.
        unfold INT_MIN, INT_MAX in *.
        split.
        - apply inject_Z_lt_1.
          change (inject_Z (- 2 ^ 31)) with (- (2147483648))%Q.
          change (inject_Z (2 ^ 31 - 1)) with 2147483647%Q in R1. lra.
        - apply inject_Z_lt_1.
          change (inject_Z (2 ^ 31 - 1)) with 2147483647%Q in *. lra. }
    cbn [mbind option_bind].
    destruct (array_store_from_Some
                (code_gen_conplex (PRN (d_acquisition_gnss_synchro s)) 0)
                (d_ca_code s) 1 ltac:(lia)) as [ca Hca].
    { rewrite L. change (Z.to_nat 1) with 1%nat.
      change (Z.to_nat 1025) with 1025%nat. lia. }
    rewrite Hca. cbn [mbind option_bind].
    apply array_store_from_inv in Hca as (Lc & _); [|lia].
    rewrite L in Lc. change (Z.to_nat 1025) with 1025%nat in Lc.
    destruct (array_get_Some ca code_length_chips) as [c1 ->];
      [unfold code_length_chips; lia|].
    cbn [mbind option_bind].
    rewrite array_set_Some by lia. cbn [mbind option_bind].
    destruct (array_get_Some (<[Z.to_nat 0 := c1]> ca) 1) as [c2 ->];
      [rewrite length_insert; lia|].
    cbn [mbind option_bind].
    rewrite array_set_Some
      by (rewrite length_insert; unfold code_length_chips; lia).
    cbn [mbind option_bind]. eauto. }
  exists s'. split; [exact H|].
  apply start_tracking_effect in H as (V & _ & F).
  cbv zeta in V.
  destruct V as (V1 & V2 & V3 & V4 & V5 & _ & V7 & _ & _ & V10 & _).
  injection F as _ _ _ _ _ _ _ _ _ _ _ _ F1 F2 _ _ F3 _ _ _ _ _ _ _ F4.
  rewrite Hd in V10. auto 15.
Qed.

(** X13: a Doppler that is not a number, or a Doppler of -L1 (a code
    frequency of 0), leaves [start_tracking] with a PRN period that cannot
    be converted to [int]: the model has no result for it. *)
Theorem start_tracking_without_period (s : State) :
  Acq_doppler_hz (d_acquisition_gnss_synchro s) = Fnan
  \/ (exists d, Acq_doppler_hz (d_acquisition_gnss_synchro s) = Fnum d
                /\ (d == - 1575420000)%Q) ->
  start_tracking s = None.
Proof.
  intros D.
  assert (T_prn_mod_samples s = Fnan) as E.
  { unfold T_prn_mod_samples. cbv zeta.
    destruct D as [->|(d & -> & Ed)]; [reflexivity|].
    destruct (start_tracking_code_freq d) as (c & -> & Ec).
    unfold fone, float_of_Z. rewrite fdiv_zero; [reflexivity|].
    rewrite Ec, Ed. reflexivity. }
  destruct (start_tracking s) as [s'|] eqn:H; [|reflexivity].
  apply start_tracking_effect in H as (V & _).
  cbv zeta in V. destruct V as (_ & _ & _ & _ & _ & _ & _ & _ & _ & _ & _ & V & _).
  rewrite E in V. discriminate.
Qed.

End Armed.

(** ** The corrected code phase *)

Section Phase.
Context `{Collab : Collaborators}.

Lemma acq_phase_remainder_value (s : State) (a d : Q) :
  Acq_delay_samples (d_acquisition_gnss_synchro s) = Fnum a ->
  Acq_doppler_hz (d_acquisition_gnss_synchro s) = Fnum d ->
  ~ (d == - 1575420000)%Q ->
  0 < d_fs_in s ->
  exists r,
    acq_phase_remainder s = Fnum r
    /\ (- (inject_Z (d_fs_in s) / 1000) < r)%Q
    /\ (r < inject_Z (d_fs_in s) / 1000)%Q.
Proof.
  intros Ha Hd Nd Hfs. unfold acq_phase_remainder. cbv zeta.
  rewrite Ha, Hd.
  destruct (start_tracking_code_freq d) as (c & -> & Ec).
  assert (~ (c == 0)%Q) as Nc.
  { rewrite Ec. intros E. apply Nd.
    assert (1575420000 + d == 0)%Q as E'; [|lra].
    assert (((1575420000 + d) / 1575420000 * 1023000) * (1575420000 / 1023000)
            == 1575420000 + d)%Q as <- by (field; lra).
    rewrite E. reflexivity. }
  destruct (T_prn_true_samples_value (d_fs_in s)) as (t & -> & Et).
  assert (0 < inject_Z (d_fs_in s))%Q as Pfs.
  { change 0%Q with (inject_Z 0). rewrite <- Zlt_Qlt. exact Hfs. }
  unfold GPS_L1_CA_CODE_LENGTH_CHIPS, GPS_L1_CA_CODE_RATE_HZ, fone,
    float_of_Z.
  remember (inject_Z (d_fs_in s)) as f eqn:Ef. clear Ef.
  rewrite (fdiv_Fnum (inject_Z 1023) (inject_Z 1023000))
    by (intros E; vm_compute in E; lia).
  rewrite (fdiv_Fnum (inject_Z 1) c) by exact Nc.
  rewrite (fdiv_Fnum _ f) by (intros E; clear - Pfs E; lra).
  unfold fmul at 3. unfold fsub.
  rewrite (fdiv_Fnum _ (Qred (inject_Z 1023 / inject_Z 1023000)))
    by (rewrite Qred_correct; intros E; vm_compute in E; lia).
  unfold fmul, fadd.
  assert (0 < t)%Q as Pt
    by (rewrite Et; apply Qlt_shift_div_l; clear - Pfs; lra).
  rewrite fmod_Fnum by (intros E; clear - Pt E; lra).
  eexists. split; [reflexivity|].
  rewrite Qred_correct.
  match goal with |- (_ < Qfmod ?x _)%Q /\ _ =>
    pose proof (Qfmod_abs_lt x t Pt) as [B1 B2]
  end.
  rewrite Et in B1 at 1. rewrite Et in B2 at 2. split; assumption.
Qed.

(** X14: where [start_tracking] leaves the code phase.  With a delay and a
    Doppler that are numbers, a Doppler other than -L1 and a positive
    sampling frequency, the corrected code phase is either in [0, T), with
    T = fs/1000 the nominal PRN period in samples, or, when the remainder
    of the [fmod] was negative, strictly between Tmod - T and Tmod, with
    Tmod = fs L1 / (1000 (L1 + Doppler)) the period at the Doppler of the
    acquisition.  With no Doppler the two periods are equal and the phase
    is in [0, T).  [d_code_phase_samples] starts from the same value. *)
Theorem start_tracking_code_phase (s s' : State) (a d : Q) :
  Acq_delay_samples (d_acquisition_gnss_synchro s) = Fnum a ->
  Acq_doppler_hz (d_acquisition_gnss_synchro s) = Fnum d ->
  ~ (d == - 1575420000)%Q ->
  0 < d_fs_in s ->
  start_tracking s = Some s' ->
  let T := (inject_Z (d_fs_in s) / 1000)%Q in
  let Tmod := (inject_Z (d_fs_in s) * 1575420 / (1575420000 + d))%Q in
  exists q,
    d_acq_code_phase_samples s' = Fnum q
    /\ d_code_phase_samples s' = Fnum q
    /\ ((0 <= q /\ q < T) \/ (Tmod - T < q /\ q < Tmod))%Q
    /\ ((d == 0)%Q -> (0 <= q /\ q < T)%Q).
Proof.
  intros Ha Hd Nd Hfs H. cbv zeta.
  apply start_tracking_effect in H as (V & _). cbv zeta in V.
  destruct V as (_ & _ & _ & _ & _ & _ & _ & _ & _ & _ & _ & _ & V1 & V2 & _).
  rewrite V2, V1. clear V1 V2.
  destruct (acq_phase_remainder_value s a d Ha Hd Nd Hfs)
    as (r & -> & R1 & R2).
  destruct (T_prn_mod_samples_value s d Hd Nd) as (t & -> & Et).
  unfold fltb, fzero, float_of_Z. change (inject_Z 0) with 0%Q.
  assert (0 < inject_Z (d_fs_in s))%Q as Pfs.
  { change 0%Q with (inject_Z 0). rewrite <- Zlt_Qlt. exact Hfs. }
  remember (inject_Z (d_fs_in s)) as f eqn:Ef. clear Ef.
  remember (f * 1575420 / (1575420000 + d))%Q as Tmod eqn:ETmod.
  remember (f / 1000)%Q as T eqn:ET.
  destruct (Qlt_bool r 0) eqn:E.
  - apply Qlt_bool_true in E. unfold fadd.
    eexists. split; [reflexivity|]. split; [reflexivity|].
    rewrite Qred_correct, Et. split.
    + right. split; lra.
    + intros D0.
      assert (Tmod == T)%Q as ->.
      { subst Tmod T. rewrite D0. field. }
      split; lra.
  - apply Qlt_bool_false in E.
    eexists. split; [reflexivity|]. split; [reflexivity|].
    split; [left; split; assumption|]. intros _. split; assumption.
Qed.

End Phase.

(** ** The pull-in *)

Section PullIn.
Context `{Collab : Collaborators}.

Lemma Qfloor_inject_Z_div a b :
  0 < b -> Qfloor (inject_Z a / inject_Z b) = a / b.
Proof.
  intros Hb. destruct b as [|p|p]; try lia.
  unfold Qdiv, Qinv, inject_Z, Qmult, Qfloor. cbn.
  rewrite Z.mul_1_r. reflexivity.
Qed.

Lemma inject_Z_minus a b : (inject_Z (a - b) == inject_Z a - inject_Z b)%Q.
Proof.
  unfold Z.sub, Qminus. rewrite inject_Z_plus, inject_Z_opp. reflexivity.
Qed.

Lemma Qfmod_inject_Z a b :
  0 <= a -> 0 < b ->
  (Qfmod (inject_Z a) (inject_Z b) == inject_Z (a mod b))%Q.
Proof.
  intros Ha Hb. unfold Qfmod, Qtrunc.
  assert (0 <= inject_Z a / inject_Z b)%Q as P.
  { apply Qle_shift_div_l.
    - change 0%Q with (inject_Z 0). rewrite <- Zlt_Qlt. exact Hb.
    - rewrite Qmult_0_l. change 0%Q with (inject_Z 0).
      rewrite <- Zle_Qle. exact Ha. }
  apply Qle_bool_true in P. rewrite P.
  rewrite Qfloor_inject_Z_div by exact Hb.
  unfold Qminus. rewrite <- inject_Z_mult, <- inject_Z_opp, <- inject_Z_plus.
  rewrite inject_Z_injective.
  pose proof (Z.div_mod a b ltac:(lia)). lia.
Qed.

Lemma Qfloor_unique y z :
  (inject_Z z <= y)%Q -> (y < inject_Z z + 1)%Q -> Qfloor y = z.
Proof.
  intros L U.
  pose proof (Qfloor_le y) as F1. pose proof (Qlt_floor' y) as F2.
  assert (Qfloor y <= z) by (apply inject_Z_lt_1; lra).
  assert (z <= Qfloor y) by (apply inject_Z_lt_1; lra).
  lia.
Qed.

Lemma Qround_away_plus_Z p k :
  (0 <= p)%Q -> 0 <= k ->
  Qround_away (p + inject_Z k) = Qround_away p + k.
Proof.
  intros Hp Hk.
  assert (0 <= inject_Z k)%Q as Pk
    by (change 0%Q with (inject_Z 0); rewrite <- Zle_Qle; exact Hk).
  unfold Qround_away.
  assert (Qle_bool 0 p = true) as -> by (apply Qle_bool_true; exact Hp).
  assert (Qle_bool 0 (p + inject_Z k) = true) as ->
    by (apply Qle_bool_true; lra).
  pose proof (Qfloor_le (p + (1 # 2))) as F1.
  pose proof (Qlt_floor' (p + (1 # 2))) as F2.
  apply Qfloor_unique; rewrite inject_Z_plus; lra.
Qed.

(** X15: the pull-in aligns the stream with the code.  On the first call
    after [start_tracking], with a code phase that is a whole number k of
    samples, not negative, a positive block length N and a delay since the
    acquisition, all small enough for [float] to hold them exactly (delay
    below 2^24, k + N at most 2^24), the call consumes the code phase plus
    what is left of the block the delay falls in: between 1 and N samples
    more than the code phase, and such that the distance from the sample
    of the acquisition to the next sample read is the code phase modulo
    N. *)
Theorem pull_in_alignment (s : State) (w : Work_input) (s' : State)
    (o : Work_output) (k : Z) :
  let N := d_next_prn_length_samples s in
  let delay := d_sample_counter s - d_acq_sample_stamp s in
  d_enable_tracking s = true -> d_pull_in s = true ->
  0 < N -> 0 <= delay < 2 ^ 24 ->
  d_acq_code_phase_samples s = float_of_Z k -> 0 <= k -> k + N <= 2 ^ 24 ->
  general_work s w = Some (s', o) ->
  consumed o = k + (N - delay mod N)
  /\ k < consumed o <= k + N
  /\ (delay + consumed o) mod N = k mod N.
Proof.
  cbv zeta. intros H1 H2 HN Hd Hp Pk Hk H.
  apply (general_work_pull_in_effect s w s' o H1 H2) in H as (H & _).
  pose proof (Z.mod_pos_bound
                (d_sample_counter s - d_acq_sample_stamp s)
                (d_next_prn_length_samples s) HN) as M.
  assert (to_int (ulong_sub (d_sample_counter s) (d_acq_sample_stamp s))
          = d_sample_counter s - d_acq_sample_stamp s) as Ed.
  { unfold ulong_sub, to_ulong, ULONG_MODULUS, to_int.
    rewrite (Z.mod_small (_ - _)) by lia. rewrite Z.mod_small; lia. }
  rewrite Ed, Hp in H. unfold float_of_Z in H.
  rewrite fmod_Fnum in H.
  2:{ intros E. change 0%Q with (inject_Z 0) in E.
      rewrite inject_Z_injective in E. lia. }
  unfold fsub, fadd, round in H.
  assert (consumed o
          = k + (d_next_prn_length_samples s
                 - (d_sample_counter s - d_acq_sample_stamp s)
                   mod d_next_prn_length_samples s)) as E.
  { rewrite <- (Qround_away_inject_Z (k + _)).
    unfold float_of_Z, float_to_int in H.
    rewrite Qtrunc_inject_Z in H.
    destruct (_ && _); [|discriminate]. injection H as <-.
    apply Qround_away_comp. rewrite !Qred_correct.
    rewrite Qfmod_inject_Z by lia.
    rewrite inject_Z_plus, (inject_Z_minus (d_next_prn_length_samples s)).
    reflexivity. }
  split; [exact E|]. split; [lia|].
  rewrite E.
  replace (d_sample_counter s - d_acq_sample_stamp s
           + (k
              + (d_next_prn_length_samples s
                 - (d_sample_counter s - d_acq_sample_stamp s)
                   mod d_next_prn_length_samples s)))
    with (k
          + ((d_sample_counter s - d_acq_sample_stamp s)
             / d_next_prn_length_samples s + 1)
            * d_next_prn_length_samples s).
  - apply Z.mod_add. lia.
  - pose proof (Z.div_mod (d_sample_counter s - d_acq_sample_stamp s)
                  (d_next_prn_length_samples s) ltac:(lia)). lia.
Qed.

End PullIn.

(** ** The code phase of the output *)

Section CodePhase.
Context `{Collab : Collaborators}.

(** The code phase that [general_work_loops] leaves, in terms of the code
    frequency it leaves. *)
Lemma general_work_loops_code_phase c l :
  general_work_loops c = Some l ->
  let T := T_prn_true_samples (d_fs_in c) in
  let T_prn_samples :=
    (fone / d_code_freq_hz l * GPS_L1_CA_CODE_LENGTH_CHIPS
     * float_of_Z (d_fs_in c))%F in
  let phase := (d_code_phase_samples c + T_prn_samples - T)%F in
  d_code_phase_samples l
  = fmod (if (phase <? fzero)%F then (T + phase)%F else phase) T
  /\ d_fs_in l = d_fs_in c
  /\ d_code_phase_step_chips l
     = (d_code_freq_hz l / float_of_Z (d_fs_in c))%F.
Proof.
  unfold general_work_loops. intros H.
  destruct (get_carrier_nco _ _) as [carr_nco pll].
  destruct (get_code_nco _ _) as [code_nco dll].
  remember (GPS_L1_CA_CODE_RATE_HZ - code_nco)%F as cf eqn:Ecf.
  match type of H with
  | context [float_to_int (round ?X)] => remember X as K eqn:EK
  end.
  apply bind_Some in H as (n & _ & H). clear EK Ecf.
  assert (d_code_freq_hz l = cf) as E1.
  { apply (inj Some) in H. rewrite <- H.
    match goal with
    | |- context [if ?b then _ else _] => destruct b
    end; reflexivity. }
  assert (d_fs_in l = d_fs_in c) as E2.
  { apply (inj Some) in H. rewrite <- H.
    match goal with
    | |- context [if ?b then _ else _] => destruct b
    end; reflexivity. }
  assert (d_code_phase_step_chips l = (cf / float_of_Z (d_fs_in c))%F) as E3.
  { apply (inj Some) in H. rewrite <- H.
    match goal with
    | |- context [if ?b then _ else _] => destruct b
    end; reflexivity. }
  cbv zeta. rewrite E1. split; [|split; assumption].
  apply (inj Some) in H. rewrite <- H. clear H E1 E2 E3.
  members.
  match goal with
  | |- context [if ?b then _ else _] => destruct b
  end; members; reflexivity.
Qed.

(** X16: the code phase stays within one PRN period.  When the loops leave a
    code frequency f that is positive, and the code phase before the call
    is not below minus one period at that frequency (it is not when it is
    not negative), the code phase after the call is in [0, T), with T =
    fs/1000 the nominal PRN period in samples; the output record then
    carries a code phase in [0, 1 ms). *)
Theorem general_work_loops_code_phase_range (c l : State) (x f : Q)
    (acq : Gnss_Synchro) :
  0 < d_fs_in c ->
  d_code_phase_samples c = Fnum x ->
  d_code_freq_hz l = Fnum f -> (0 < f)%Q ->
  (- (1023 * inject_Z (d_fs_in c) / f) <= x)%Q ->
  general_work_loops c = Some l ->
  (exists y, d_code_phase_samples l = Fnum y
             /\ (0 <= y)%Q /\ (y < inject_Z (d_fs_in c) / 1000)%Q)
  /\ (exists z, Code_phase_secs (tracking_output l acq) = Fnum z
                /\ (0 <= z)%Q /\ (z < 1 / 1000)%Q).
Proof.
  intros Hfs Hx Hf Pf Lx H.
  apply general_work_loops_code_phase in H as (H & Efs & _). cbv zeta in H.
  assert (exists y, d_code_phase_samples l = Fnum y
                    /\ (0 <= y)%Q /\ (y < inject_Z (d_fs_in c) / 1000)%Q)
    as (y & Hy & Y1 & Y2).
  { rewrite H, Hx, Hf. clear H.
    destruct (T_prn_true_samples_value (d_fs_in c)) as (t & -> & Et).
    assert (0 < inject_Z (d_fs_in c))%Q as Pfs.
    { change 0%Q with (inject_Z 0). rewrite <- Zlt_Qlt. exact Hfs. }
    unfold fone, GPS_L1_CA_CODE_LENGTH_CHIPS, float_of_Z.
    remember (inject_Z (d_fs_in c)) as fs eqn:Efs'. clear Efs'.
    rewrite fdiv_Fnum by (intros E; clear - Pf E; lra).
    unfold fmul, fadd, fsub.
    assert (0 < t)%Q as Pt
      by (rewrite Et; apply Qlt_shift_div_l; clear - Pfs; lra).
    assert (0 <= 1023 * fs / f)%Q as Ptp.
    { apply Qle_shift_div_l; [exact Pf|]. clear - Pfs. lra. }
    set (tp := (Qred (Qred (inject_Z 1 / f) * inject_Z 1023) * fs)%Q).
    assert (tp == 1023 * fs / f)%Q as Etp.
    { unfold tp. rewrite !Qred_correct.
      change (inject_Z 1) with 1%Q. change (inject_Z 1023) with 1023%Q.
      field. clear - Pf. intros E. lra. }
    set (ph := Qred (Qred (x + Qred tp) - t)).
    assert (ph == x + 1023 * fs / f - t)%Q as Eph.
    { unfold ph. rewrite !Qred_correct, Etp. reflexivity. }
    remember (1023 * fs / f)%Q as P eqn:EP. clear EP.
    unfold fltb, fzero, float_of_Z. change (inject_Z 0) with 0%Q.
    destruct (Qlt_bool ph 0) eqn:E.
    - apply Qlt_bool_true in E.
      rewrite fmod_Fnum by (intros E'; clear - Pt E'; lra).
      eexists. split; [reflexivity|]. rewrite Qred_correct.
      rewrite <- Et.
      apply Qfmod_nonneg; [|exact Pt]. rewrite Qred_correct. lra.
    - apply Qlt_bool_false in E.
      rewrite fmod_Fnum by (intros E'; clear - Pt E'; lra).
      eexists. split; [reflexivity|]. rewrite Qred_correct.
      rewrite <- Et.
      apply Qfmod_nonneg; [exact E | exact Pt]. }
  split; [eauto|].
  unfold tracking_output. cbn [Code_phase_secs]. rewrite Hy, Efs.
  assert (0 < inject_Z (d_fs_in c))%Q as Pfs.
  { change 0%Q with (inject_Z 0). rewrite <- Zlt_Qlt. exact Hfs. }
  unfold fone, float_of_Z.
  remember (inject_Z (d_fs_in c)) as fs eqn:Efs'. clear Efs'.
  rewrite fdiv_Fnum by (intros E; clear - Pfs E; lra).
  unfold fmul. eexists. split; [reflexivity|].
  rewrite !Qred_correct. change (inject_Z 1) with 1%Q.
  assert (y * (1 / fs) == y / fs)%Q as -> by (field; clear - Pfs; intros E; lra).
  split.
  - apply Qle_shift_div_l; [exact Pfs|]. lra.
  - apply Qlt_shift_div_r; [exact Pfs|].
    assert (1 / 1000 * fs == fs / 1000)%Q as -> by field. exact Y2.
Qed.

End CodePhase.

(** ** What a call leaves alone *)

Section Frame.
Context `{Collab : Collaborators}.

Lemma general_work_correlate_allocation s w c :
  general_work_correlate s w = Some c -> allocation c = allocation s.
Proof.
  intros H. pose proof (general_work_correlate_frame s w c H) as Fc.
  unfold general_work_correlate, update_local_code, update_local_carrier in H.
  apply bind_Some in H as (s1 & H1 & H).
  apply bind_Some in H as (s2 & H2 & H).
  apply bind_Some in H2 as ([ph s2'] & H2 & H3).
  apply update_local_code_loop_frame in H1 as (E1 & L1 & L2 & L3).
  apply update_local_carrier_loop_frame in H2 as (E2 & L4).
  destruct (Carrier_wipeoff_and_EPL_volk _ _ _ _ _ _) as [[E P] L].
  injection H as <-. injection H3 as <-.
  unfold allocation. cbn.
  rewrite L4. rewrite E2. cbn. rewrite L1, L2, L3. rewrite E1. reflexivity.
Qed.

Lemma general_work_correlate_configuration s w c :
  general_work_correlate s w = Some c -> configuration c = configuration s.
Proof.
  intros H. apply general_work_correlate_frame in H. rewrite H. reflexivity.
Qed.

Lemma general_work_loops_members c l :
  general_work_loops c = Some l ->
  configuration l = configuration c /\ allocation l = allocation c.
Proof.
  intros H. apply general_work_loops_frame in H. rewrite H.
  split; reflexivity.
Qed.

Lemma CN0_estimation_and_lock_detectors_members l d :
  CN0_estimation_and_lock_detectors l = Some d ->
  configuration d = configuration l /\ allocation d = allocation l.
Proof.
  unfold CN0_estimation_and_lock_detectors. intros H.
  destruct (_ <? _).
  - apply bind_Some in H as (b & Hb & H). injection H as <-.
    apply array_set_length in Hb. unfold allocation. cbn. rewrite Hb.
    split; reflexivity.
  - cbn in H. destruct (_ >? _); injection H as <-; split; reflexivity.
Qed.

(** X17: what a call of [general_work] never touches.  The members that the
    constructor, the setters and [start_tracking] assign (sampling
    frequency, vector length, spacing, lock threshold, channel, acquisition
    record and what [start_tracking] took from it, table of chips) are the
    same after the call, and so is the length of every array of the
    block. *)
Theorem general_work_configuration (s : State) (w : Work_input)
    (s' : State) (o : Work_output) :
  general_work s w = Some (s', o) ->
  configuration s' = configuration s /\ allocation s' = allocation s.
Proof.
  intros H. apply general_work_cases in H
    as [(_ & C)|[(_ & _ & C)|[(_ & _ & c & Fc & _ & C)
       |(_ & _ & c & l & d & e & Fc & _ & Fl & Fd & Fe & C)]]].
  - unfold general_work_end in C. injection C as <- _. split; reflexivity.
  - unfold general_work_pull_in in C.
    apply bind_Some in C as (n & _ & C). injection C as <- _.
    split; reflexivity.
  - unfold general_work_nan in C. injection C as <- _.
    rewrite <- (general_work_correlate_configuration s w c Fc),
            <- (general_work_correlate_allocation s w c Fc).
    split; reflexivity.
  - unfold general_work_end in C. injection C as <- _.
    apply update_last_seg_frame in Fe.
    apply general_work_loops_members in Fl as [Fl1 Fl2].
    apply CN0_estimation_and_lock_detectors_members in Fd as [Fd1 Fd2].
    rewrite <- (general_work_correlate_configuration s w c Fc),
            <- (general_work_correlate_allocation s w c Fc),
            <- Fl1, <- Fl2, <- Fd1, <- Fd2, Fe.
    split; reflexivity.
Qed.

(** X18: the record of a step that tracks.  It is the acquisition record
    with six fields replaced: the Prompt output of the correlator, the
    accumulated carrier phase, the code phase in seconds, the C/N0 estimate,
    and as time stamp the value of [d_sample_counter_seconds] before the
    call, the time of the first sample of the block.  The satellite, the
    acquisition fields and the flag [Flag_valid_tracking] are the ones of
    the acquisition record: the block does not set the flag. *)
Theorem tracking_step_output (s : State) (w : Work_input) (c s' : State)
    (o : Work_output) :
  d_enable_tracking s = true -> d_pull_in s = false ->
  general_work_correlate s w = Some c ->
  isnan (real (d_Prompt c)) || isnan (imag (d_Prompt c)) = false ->
  general_work s w = Some (s', o) ->
  let acq := d_acquisition_gnss_synchro s in
  (System (out0 o), PRN (out0 o), Acq_delay_samples (out0 o),
   Acq_doppler_hz (out0 o), Acq_samplestamp_samples (out0 o),
   Flag_valid_tracking (out0 o))
  = (System acq, PRN acq, Acq_delay_samples acq, Acq_doppler_hz acq,
     Acq_samplestamp_samples acq, Flag_valid_tracking acq)
  /\ Prompt_I (out0 o) = real (d_Prompt c)
  /\ Prompt_Q (out0 o) = imag (d_Prompt c)
  /\ Tracking_timestamp_secs (out0 o) = d_sample_counter_seconds s
  /\ Carrier_phase_rads (out0 o) = d_acc_carrier_phase_rad s'
  /\ Code_phase_secs (out0 o)
     = (d_code_phase_samples s' * (fone / float_of_Z (d_fs_in s)))%F
  /\ CN0_dB_hz (out0 o) = d_CN0_SNV_dB_Hz s'
  /\ consumed o = d_next_prn_length_samples s.
Proof.
  intros H1 H2 Hc Hn H. cbv zeta.
  rewrite (general_work_tracking_path s w c H1 H2 Hc Hn) in H.
  apply bind_Some in H as (l & Hl & H).
  apply bind_Some in H as (d & Hd & H).
  apply bind_Some in H as (e & He & H).
  apply general_work_correlate_frame in Hc.
  apply general_work_loops_frame in Hl.
  apply CN0_estimation_and_lock_detectors_frame in Hd.
  apply update_last_seg_frame in He.
  unfold general_work_end in H. injection H as <- <-.
  cbn [out0 consumed tracking_output System PRN Acq_delay_samples
       Acq_doppler_hz Acq_samplestamp_samples Flag_valid_tracking Prompt_I
       Prompt_Q Tracking_timestamp_secs Carrier_phase_rads Code_phase_secs
       CN0_dB_hz].
  members.
  split; [reflexivity|].
  rewrite He. members.
  rewrite Hd. unfold with_detectors. members.
  rewrite Hl. unfold with_loops. members.
  rewrite Hc. unfold with_correlation, with_replicas. members.
  repeat split; reflexivity.
Qed.

End Frame.

(** ** The members the initialisation assigns *)

Section Init.
Context `{Collab : Collaborators}.

Lemma constructor_without_leftovers (u1 u2 : State)
    (if_freq fs_in vector_length : Z) (dump : bool)
    (pll_bw_hz dll_bw_hz early_late_space_chips : float)
    (channel : Z) (queue : list Z) (acq : Gnss_Synchro) :
  let prepare u :=
    set_gnss_synchro acq
      (set_channel_queue queue
         (set_channel channel
            (Gps_L1_Ca_Dll_Pll_Tracking_cc u if_freq fs_in vector_length
               dump pll_bw_hz dll_bw_hz early_late_space_chips))) in
  with_memory_cleared fzero (without_leftovers (prepare u1))
  = with_memory_cleared fzero (without_leftovers (prepare u2)).
Proof.
  cbv zeta.
  unfold with_memory_cleared, without_leftovers, set_gnss_synchro,
    set_channel_queue, set_channel, Gps_L1_Ca_Dll_Pll_Tracking_cc.
  members_cbv. unfold posix_memalign. rewrite !length_resize. reflexivity.
Qed.

Lemma start_tracking_without_leftovers (s : State) (x : float) :
  with_memory_cleared x <$> start_tracking s
  = with_memory_cleared x
      <$> start_tracking (with_memory_cleared fzero (without_leftovers s)).
Proof.
  unfold start_tracking, with_memory_cleared, without_leftovers. members_cbv.
  match goal with
  | |- context [float_to_int ?X] => destruct (float_to_int X) as [n|]
  end; [|reflexivity].
  cbn [mbind option_bind].
  match goal with
  | |- context [array_store_from ?a ?i ?v] =>
      destruct (array_store_from a i v) as [ca|]
  end; [|reflexivity].
  cbn [mbind option_bind].
  destruct (array_get ca code_length_chips) as [c1|]; [|reflexivity].
  cbn [mbind option_bind].
  destruct (array_set ca 0 c1) as [ca2|]; [|reflexivity].
  cbn [mbind option_bind].
  destruct (array_get ca2 1) as [c2|]; [|reflexivity].
  cbn [mbind option_bind].
  destruct (array_set ca2 (code_length_chips + 1) c2) as [ca3|];
    [|reflexivity].
  cbn [mbind option_bind fmap option_fmap option_map].
  members_cbv. rewrite !length_replicate. reflexivity.
Qed.

(** X19: what the initialisation leaves to chance.  Build the block over
    any memory, bind it to a channel, a control sink and an acquisition
    record, and call [start_tracking]: the outcome is the same whatever the
    memory held before the constructor ran, the lengths of the buffers
    included, except for what the initialisation never writes: the content
    of the four buffers of [posix_memalign], the three correlator outputs,
    and the member [d_code_phase_step_chips], which keep what the memory
    held. *)
Theorem initialisation_leaves_memory (u1 u2 : State)
    (if_freq fs_in vector_length : Z) (dump : bool)
    (pll_bw_hz dll_bw_hz early_late_space_chips : float)
    (channel : Z) (queue : list Z) (acq : Gnss_Synchro) (x : float) :
  let init u :=
    start_tracking
      (set_gnss_synchro acq
         (set_channel_queue queue
            (set_channel channel
               (Gps_L1_Ca_Dll_Pll_Tracking_cc u if_freq fs_in vector_length
                  dump pll_bw_hz dll_bw_hz early_late_space_chips)))) in
  with_memory_cleared x <$> init u1 = with_memory_cleared x <$> init u2.
Proof.
  cbv beta zeta.
  rewrite (start_tracking_without_leftovers _ x).
  rewrite (constructor_without_leftovers u1 u2).
  symmetry. apply start_tracking_without_leftovers.
Qed.

End Init.

(** ** The steps of a call from a ready state *)

Section Safety.
Context `{Collab : Collaborators}.

Lemma CN0_estimation_and_lock_detectors_Some (s : State) :
  0 <= d_cn0_estimation_counter s <= CN0_ESTIMATION_SAMPLES ->
  length (d_Prompt_buffer s) = Z.to_nat CN0_ESTIMATION_SAMPLES ->
  exists d,
    CN0_estimation_and_lock_detectors s = Some d
    /\ d_cn0_estimation_counter d
       = (d_cn0_estimation_counter s + 1) mod (CN0_ESTIMATION_SAMPLES + 1)
    /\ d_Prompt_buffer d
       = (if d_cn0_estimation_counter s <? CN0_ESTIMATION_SAMPLES
          then <[Z.to_nat (d_cn0_estimation_counter s) := d_Prompt s]>
                 (d_Prompt_buffer s)
          else d_Prompt_buffer s)
    /\ length (d_Prompt_buffer d) = Z.to_nat CN0_ESTIMATION_SAMPLES.
Proof.
  intros R L. unfold CN0_estimation_and_lock_detectors.
  unfold CN0_ESTIMATION_SAMPLES in *.
  destruct (d_cn0_estimation_counter s <? 10) eqn:E.
  - apply Z.ltb_lt in E.
    rewrite array_set_Some by (rewrite L; lia). cbn.
    eexists. split; [reflexivity|]. cbn.
    rewrite length_insert, Z.mod_small by lia. auto.
  - apply Z.ltb_ge in E. assert (d_cn0_estimation_counter s = 10) as -> by lia.
    cbn. destruct (_ >? _); eexists; (split; [reflexivity|]); cbn; auto.
Qed.

(** The members of the code loop that [general_work_loops] leaves. *)
Lemma general_work_loops_code_loop c :
  let code_nco :=
    (get_code_nco (dll_nc_e_minus_l_normalized (d_Early c) (d_Late c))
       (d_code_loop_filter c)).1 in
  let code_freq_hz := (GPS_L1_CA_CODE_RATE_HZ - code_nco)%F in
  let K_blk_samples :=
    (fone / code_freq_hz * GPS_L1_CA_CODE_LENGTH_CHIPS
     * float_of_Z (d_fs_in c) + d_next_rem_code_phase_samples c)%F in
  forall n, float_to_int (round K_blk_samples) = Some n ->
  exists l,
    general_work_loops c = Some l
    /\ d_code_freq_hz l = code_freq_hz
    /\ d_code_phase_step_chips l
       = (code_freq_hz / float_of_Z (d_fs_in c))%F
    /\ d_rem_code_phase_samples l = d_next_rem_code_phase_samples c
    /\ d_next_prn_length_samples l = n
    /\ d_next_rem_code_phase_samples l = (K_blk_samples - float_of_Z n)%F.
Proof.
  cbv zeta. intros n Hn. unfold general_work_loops.
  destruct (get_carrier_nco _ _) as [carr_nco pll].
  destruct (get_code_nco _ _) as [code_nco dll].
  cbn [fst] in Hn.
  members. rewrite Hn. cbn [mbind option_bind].
  eexists. split; [reflexivity|].
  match goal with
  | |- context [if ?b then _ else _] => destruct b
  end; members; auto.
Qed.

Lemma ready_ext s s' :
  ready_members s' = ready_members s ->
  0 <= d_cn0_estimation_counter s' <= CN0_ESTIMATION_SAMPLES ->
  ready s -> ready s'.
Proof.
  unfold ready_members, allocation, ready.
  intros [= -> -> -> -> -> -> -> -> -> -> -> -> -> ->] C R.
  destruct R as (R1 & R2 & R3 & R4 & R5 & R6 & R7 & R8 & R9 & R10 & _).
  auto 15.
Qed.

Lemma update_last_seg_Some d :
  0 < d_fs_in d < 2 ^ 64 ->
  exists e, update_last_seg d = Some e /\ e = set_d_last_seg (d_last_seg e) d.
Proof.
  intros R. unfold update_last_seg, ulong_div, to_ulong, ULONG_MODULUS.
  rewrite Z.mod_small by lia.
  destruct (d_fs_in d =? 0) eqn:E; [apply Z.eqb_eq in E; lia|].
  cbn [mbind option_bind].
  destruct (_ =? d_last_seg d) eqn:E'; eexists; (split; [reflexivity|]).
  - apply Z.eqb_eq in E'. destruct d. cbn in *. subst. reflexivity.
  - destruct d. reflexivity.
Qed.

(** The block length the code loop asks for, for a code NCO command of 1
    kHz at most. *)
Lemma K_blk_samples_range (fs_in : Z) (n q : Q) :
  1024000 <= fs_in < 2 ^ 31 ->
  (Qabs n <= 1000)%Q -> (Qabs q <= 1 # 2)%Q ->
  exists k,
    (fone / (GPS_L1_CA_CODE_RATE_HZ - Fnum n) * GPS_L1_CA_CODE_LENGTH_CHIPS
     * float_of_Z fs_in + Fnum q)%F = Fnum k
    /\ (0 <= k)%Q
    /\ (k <= 1023 * inject_Z fs_in / 1022000 + (1 # 2))%Q
    /\ INT_MIN <= Qround_away k <= INT_MAX.
Proof.
  intros Rfs Rn Rq.
  apply Qabs_Qle_condition in Rn as [N1 N2].
  apply Qabs_Qle_condition in Rq as [Q1 Q2].
  assert (1024000 <= inject_Z fs_in)%Q as F1
    by (change 1024000%Q with (inject_Z 1024000); rewrite <- Zle_Qle; lia).
  assert (inject_Z fs_in <= 2147483648)%Q as F2
    by (change 2147483648%Q with (inject_Z 2147483648);
        rewrite <- Zle_Qle; lia).
  unfold fone, GPS_L1_CA_CODE_RATE_HZ, GPS_L1_CA_CODE_LENGTH_CHIPS,
    float_of_Z.
  change (inject_Z 1023000) with 1023000%Q.
  change (inject_Z 1023) with 1023%Q. change (inject_Z 1) with 1%Q.
  remember (inject_Z fs_in) as fs eqn:Efs. clear Efs.
  unfold fsub. rewrite fdiv_Fnum by (rewrite Qred_correct; intros E; lra).
  unfold fmul, fadd.
  eexists. split; [reflexivity|].
  set (cf := (1023000 - n)%Q).
  assert (1022000 <= cf)%Q as C1 by (unfold cf; lra).
  assert (cf <= 1024000)%Q as C2 by (unfold cf; lra).
  match goal with
  | |- (0 <= ?k)%Q /\ _ =>
      assert (k == 1023 * fs / cf + q)%Q as Ek
        by (rewrite !Qred_correct; field; intros E; lra);
      remember k as k' eqn:Ek'; clear Ek'
  end.
  assert (0 <= 1023 * fs / cf)%Q as P1
    by (apply Qle_shift_div_l; lra).
  assert (1023 * fs / cf <= 1023 * fs / 1022000)%Q as P2.
  { apply Qle_shift_div_r; [lra|].
    assert (1023 * fs / 1022000 * cf == 1023 * fs * (cf / 1022000))%Q as ->
      by field.
    assert (1 <= cf / 1022000)%Q by (apply Qle_shift_div_l; lra).
    nra. }
  assert (1023 <= 1023 * fs / cf)%Q as P3.
  { apply Qle_shift_div_l; [lra|]. nra. }
  assert (1023 * fs / 1022000 <= 2149632)%Q as P4.
  { apply Qle_shift_div_r; lra. }
  rewrite (Qround_away_comp _ _ Ek), Ek.
  remember (1023 * fs / cf)%Q as T eqn:ET. clear ET.
  remember (1023 * fs / 1022000)%Q as B eqn:EB. clear EB.
  split; [lra|]. split; [lra|].
  pose proof (Qround_away_error (T + q)) as [E1 E2].
  unfold INT_MIN, INT_MAX. split; apply inject_Z_lt_1.
  - change (inject_Z (- 2 ^ 31)) with (- (2147483648))%Q. lra.
  - change (inject_Z (2 ^ 31 - 1)) with 2147483647%Q. lra.
Qed.

End Safety.

(** ** Runs from a ready state *)

Section Run.
Context `{Collab : Collaborators}.

Lemma general_work_correlate_keeps_ready s w :
  ready s -> exists t, general_work_correlate s w = Some t /\ ready t.
Proof.
  intros R. pose proof R as R'.
  destruct R' as (Hp & (r & Hr & Rr) & _ & (c & Hc & C1 & C2)
                  & (e & He & E1 & E2) & (d & Hd & D1) & _ & Hlen & Hca & _).
  rewrite !Forall_cons in Hlen.
  destruct Hlen as ((L1 & _) & (L2 & _) & (L3 & _) & (L4 & _) & _).
  destruct (general_work_correlate_ready s w r c e d Hr Hc He Hd Rr E1 E2
              C1 C2 D1 Hca L2 L4 L3 L1) as [t Ht].
  exists t. split; [exact Ht|].
  pose proof (general_work_correlate_allocation s w t Ht) as A.
  apply general_work_correlate_frame in Ht.
  apply (ready_ext s t); [| |exact R].
  - unfold ready_members. rewrite A, Ht.
    unfold with_correlation, with_replicas. members. reflexivity.
  - rewrite Ht. unfold with_correlation, with_replicas. members.
    apply R.
Qed.

Lemma CN0_estimation_and_lock_detectors_keeps_ready l :
  ready l ->
  exists d, CN0_estimation_and_lock_detectors l = Some d /\ ready d.
Proof.
  intros R. pose proof R as R'.
  destruct R' as (Hp & Hr & Hq & Hc & He & Hd & Hfs & Hlen & Hca & Hpb & Hcnt).
  destruct (CN0_estimation_and_lock_detectors_Some l Hcnt Hpb)
    as (d & H & D1 & _ & D3).
  exists d. split; [exact H|].
  pose proof (CN0_estimation_and_lock_detectors_members l d H) as [_ A].
  apply CN0_estimation_and_lock_detectors_frame in H.
  apply (ready_ext l d); [| |exact R].
  - unfold ready_members. rewrite A, H.
    unfold with_detectors. members. reflexivity.
  - rewrite D1. unfold CN0_ESTIMATION_SAMPLES in *.
    pose proof (Z.mod_pos_bound (d_cn0_estimation_counter l + 1) (10 + 1)
                  ltac:(lia)). lia.
Qed.

Lemma update_last_seg_keeps_ready d :
  ready d -> exists e, update_last_seg d = Some e /\ ready e.
Proof.
  intros R.
  destruct (update_last_seg_Some d) as (e & H & F).
  { destruct R as (_ & _ & _ & _ & _ & _ & Hfs & _). lia. }
  exists e. split; [exact H|].
  apply (ready_ext d e); [| |exact R].
  - rewrite F. reflexivity.
  - rewrite F. members. apply R.
Qed.

Lemma general_work_end_keeps_ready e out :
  ready e -> exists s' o, general_work_end e out = Some (s', o) /\ ready s'.
Proof.
  intros R. unfold general_work_end. eexists _, _. split; [reflexivity|].
  apply (ready_ext e); [reflexivity | members; apply R | exact R].
Qed.

(** The code NCO command is a number of 1 kHz at most, whatever the code
    loop filter is asked. *)
Hypothesis code_nco_bounded :
  forall (code_error : float) (f : Tracking_2nd_DLL_filter),
  exists n, (get_code_nco code_error f).1 = Fnum n /\ (Qabs n <= 1000)%Q.

Lemma general_work_loops_keeps_ready t :
  ready t -> exists l, general_work_loops t = Some l /\ ready l.
Proof.
  intros R. pose proof R as R'.
  destruct R' as (Hp & _ & (q & Hq & Rq) & _ & He & _ & Hfs & Hlen & Hca
                  & Hpb & Hcnt).
  destruct (code_nco_bounded
              (dll_nc_e_minus_l_normalized (d_Early t) (d_Late t))
              (d_code_loop_filter t)) as (n & Hn & Rn).
  destruct (K_blk_samples_range (d_fs_in t) n q Hfs Rn Rq)
    as (k & Hk & K0 & K1 & K2).
  destruct (general_work_loops_code_loop t (Qround_away k))
    as (l & H & L1 & L2 & L3 & L4 & L5).
  { cbv zeta. rewrite Hn, Hq, Hk. apply float_to_int_round. exact K2. }
  rewrite Hn in L1, L2. rewrite Hn, Hq, Hk in L5.
  exists l. split; [exact H|].
  pose proof (general_work_loops_members t l H) as [_ A].
  apply general_work_loops_frame in H.
  assert (d_fs_in l = d_fs_in t) as Efs
    by (rewrite H; unfold with_loops; members; reflexivity).
  apply Qabs_Qle_condition in Rn as [N1 N2].
  assert (1024000 <= inject_Z (d_fs_in t))%Q as F1
    by (change 1024000%Q with (inject_Z 1024000); rewrite <- Zle_Qle; lia).
  unfold allocation in A. injection A as A1 A2 A3 A4 A5 A6.
  assert (d_pull_in l = d_pull_in t) as P1
    by (rewrite H; unfold with_loops; members; reflexivity).
  assert (d_early_late_spc_chips l = d_early_late_spc_chips t) as P2
    by (rewrite H; unfold with_loops; members; reflexivity).
  assert (d_cn0_estimation_counter l = d_cn0_estimation_counter t) as P3
    by (rewrite H; unfold with_loops; members; reflexivity).
  unfold ready.
  rewrite A1, A2, A3, A4, A5, A6, L3, L4, L5, L1, L2, Efs, P1, P2, P3.
  unfold GPS_L1_CA_CODE_RATE_HZ, float_of_Z.
  change (inject_Z 1023000) with 1023000%Q.
  remember (inject_Z (d_fs_in t)) as fs eqn:Efs'.
  split; [exact Hp|].
  split; [eauto|].
  split.
  { unfold fsub. eexists. split; [reflexivity|]. rewrite Qred_correct.
    pose proof (Qround_away_error k) as [E1 E2].
    apply Qabs_Qle_condition. split; lra. }
  split.
  { unfold fsub. eexists. split; [reflexivity|]. rewrite Qred_correct.
    split; lra. }
  split; [exact He|].
  split.
  { unfold fsub. rewrite fdiv_Fnum by (intros E; lra).
    eexists. split; [reflexivity|]. rewrite !Qred_correct.
    apply Qle_shift_div_l; lra. }
  split; [exact Hfs|].
  split.
  { apply (Forall_impl _ _ _ Hlen). intros len [_ B]. split; [|exact B].
    rewrite Zle_Qle.
    pose proof (Qround_away_error k) as [E1 E2]. subst fs. lra. }
  auto.
Qed.

Lemma general_work_keeps_ready s w :
  ready s -> exists s' o, general_work s w = Some (s', o) /\ ready s'.
Proof.
  intros R. pose proof R as (Hp & _).
  destruct (d_enable_tracking s) eqn:H1.
  - destruct (general_work_correlate_keeps_ready s w R) as (t & Ht & Rt).
    destruct (isnan (real (d_Prompt t)) || isnan (imag (d_Prompt t)))
      eqn:Hn.
    + rewrite (general_work_nan_path s w t H1 Hp Ht Hn).
      unfold general_work_nan. eexists _, _. split; [reflexivity|].
      apply (ready_ext t); [reflexivity | members; apply Rt | exact Rt].
    + rewrite (general_work_tracking_path s w t H1 Hp Ht Hn).
      destruct (general_work_loops_keeps_ready t Rt) as (l & -> & Rl).
      cbn [mbind option_bind].
      destruct (CN0_estimation_and_lock_detectors_keeps_ready l Rl)
        as (d & -> & Rd).
      cbn [mbind option_bind].
      destruct (update_last_seg_keeps_ready d Rd) as (e & -> & Re).
      cbn [mbind option_bind].
      apply general_work_end_keeps_ready. exact Re.
  - rewrite (general_work_disabled s w H1).
    apply general_work_end_keeps_ready.
    apply (ready_ext s); [reflexivity | members; apply R | exact R].
Qed.

End Run.

Section Steady.
Context `{Collab : Collaborators}.

(** The code NCO command is a number of 1 kHz at most, whatever the code
    loop filter is asked. *)
Hypothesis code_nco_bounded :
  forall (code_error : float) (f : Tracking_2nd_DLL_filter),
  exists n, (get_code_nco code_error f).1 = Fnum n /\ (Qabs n <= 1000)%Q.

(** A call from a ready state leaves a code phase step of one chip per
    sample at most, if it found one. *)
Lemma general_work_keeps_step s w s' o :
  steady s -> general_work s w = Some (s', o) -> ready s' ->
  exists d, d_code_phase_step_chips s' = Fnum d /\ (d <= 1)%Q.
Proof.
  intros [R (d0 & Hd0 & B0)] H R'.
  pose proof R as (Hp & _).
  destruct (general_work_cases s w s' o H)
    as [(E & He)|[(E1 & E2 & _)|[(E1 & E2 & c & Hc & Hn & Hnan)
        |(E1 & E2 & c & l & d & e & Hc & Hn & Hl & Hd & He & Hend)]]].
  - unfold general_work_end in He. injection He as <- <-. members.
    exists d0. auto.
  - congruence.
  - apply general_work_correlate_frame in Hc.
    unfold general_work_nan in Hnan. injection Hnan as <- <-. members.
    rewrite Hc. unfold with_correlation, with_replicas. members.
    exists d0. auto.
  - destruct R' as (_ & _ & _ & (c' & Hc' & C0 & C1) & _ & _ & Hfs & _).
    destruct (general_work_loops_code_phase c l Hl) as (_ & Fl & Sl).
    cbv zeta in Sl.
    pose proof (general_work_correlate_frame _ _ _ Hc) as Fc.
    apply CN0_estimation_and_lock_detectors_frame in Hd.
    apply update_last_seg_frame in He.
    unfold general_work_end in Hend. injection Hend as <- <-.
    revert Hc' C1 Hfs. members.
    rewrite He. members.
    rewrite Hd. unfold with_detectors. members.
    rewrite Sl, Fl.
    assert (d_fs_in c = d_fs_in s) as ->.
    { rewrite Fc. unfold with_correlation, with_replicas. members.
      reflexivity. }
    intros -> C1 Hfs. unfold float_of_Z.
    assert (0 < inject_Z (d_fs_in s))%Q as Pfs.
    { change 0%Q with (inject_Z 0). rewrite <- Zlt_Qlt. lia. }
    rewrite fdiv_Fnum by lra.
    eexists. split; [reflexivity|]. rewrite Qred_correct.
    apply Qle_shift_div_r; [exact Pfs|]. lra.
Qed.

Lemma general_work_keeps_steady s w :
  steady s -> exists s' o, general_work s w = Some (s', o) /\ steady s'.
Proof.
  intros S. pose proof S as [R _].
  destruct (general_work_keeps_ready code_nco_bounded s w R)
    as (s' & o & H & R').
  exists s', o. split; [exact H|]. split; [exact R'|].
  exact (general_work_keeps_step s w s' o S H R').
Qed.

(** X20: a steady block never leaves its arrays.  If the code loop filter
    commands 1 kHz at most, every run of calls of [general_work] from a
    block that is [steady] returns: no call reads or writes outside an
    array, divides by zero or converts to [int] a value that does not
    fit; and the block is [steady] again after the run. *)
Theorem general_work_run_defined (ws : list Work_input) :
  forall s : State,
    steady s ->
    exists s' os, general_work_run s ws = Some (s', os) /\ steady s'.
Proof.
  induction ws as [|w ws IH]; intros s S; simpl.
  - exists s, []. auto.
  - destruct (general_work_keeps_steady s w S) as (s1 & o & -> & S1).
    cbn [mbind option_bind].
    destruct (IH s1 S1) as (s' & os & -> & S').
    cbn [mbind option_bind]. eauto.
Qed.

End Steady.

(** ** From arming to a ready state *)

Section Arming.
Context `{Collab : Collaborators}.

Lemma start_tracking_ca_code_length (s s' : State) :
  start_tracking s = Some s' -> length (d_ca_code s') = length (d_ca_code s).
Proof.
  intros H. apply start_tracking_effect in H as (_ & C & _).
  destruct C as (ca & c1 & c2 & H0 & _ & _ & _ & ->).
  apply array_store_from_inv in H0 as (L & _); [|lia].
  rewrite !length_insert. exact L.
Qed.

(** X21: arming leads to a state from which the block can run.  For a block
    with a sampling frequency of 1.024 MHz at least, a spacing of half a
    chip at most, a code phase step that is a number and not negative, a
    table of 1025 chips, a Prompt buffer of ten entries and buffers long
    enough for a PRN period at the code frequency of the acquisition
    Doppler: after [start_tracking] and the call of [general_work] that
    does the pull-in, the state is [ready]. *)
Theorem start_tracking_makes_ready (s s1 s2 : State) (w : Work_input)
    (o : Work_output) (step e d : Q) :
  d_code_phase_step_chips s = Fnum step -> (0 <= step)%Q ->
  d_early_late_spc_chips s = Fnum e -> (0 < e)%Q -> (e <= 1 # 2)%Q ->
  1024000 <= d_fs_in s < 2 ^ 31 ->
  Acq_doppler_hz (d_acquisition_gnss_synchro s) = Fnum d ->
  (- 1575420000 < d)%Q ->
  ((1575420000 + d) / 1575420000 * 1023000 <= inject_Z (d_fs_in s))%Q ->
  Forall (fun n : nat =>
            (inject_Z (d_fs_in s) * 1575420 / (1575420000 + d)
             <= inject_Z (Z.of_nat n))%Q
            /\ (1023 * inject_Z (d_fs_in s) / 1022000 + 1
                <= inject_Z (Z.of_nat n))%Q)
         [length (d_carr_sign s); length (d_early_code s);
          length (d_late_code s); length (d_prompt_code s)] ->
  length (d_ca_code s) = Z.to_nat 1025 ->
  length (d_Prompt_buffer s) = Z.to_nat CN0_ESTIMATION_SAMPLES ->
  0 <= d_cn0_estimation_counter s <= CN0_ESTIMATION_SAMPLES ->
  start_tracking s = Some s1 ->
  general_work s1 w = Some (s2, o) ->
  ready s2.
Proof.
  intros Hstep Pstep He Pe Le Hfs Hd Pd Hc Hlen Hca Hpb Hcn H1 H2.
  pose proof (start_tracking_ca_code_length s s1 H1) as Lca.
  apply start_tracking_effect in H1 as (V & _ & F). cbv zeta in V.
  destruct V as (V1 & V2 & _ & V4 & _ & V6 & _ & _ & _ & _ & V11 & V12 & _).
  injection F as _ _ F1 _ F2 F3 F4 F5 F6 _ _ _ _ _ _ _ F7 F8 _ _ _ _ _ F9 _.
  rewrite (general_work_pull_in_path s1 w V1 V2) in H2.
  unfold general_work_pull_in in H2.
  apply bind_Some in H2 as (n & _ & H2). injection H2 as <- <-.
  assert (~ (d == - 1575420000)%Q) as Nd by (intros E; rewrite E in Pd; lra).
  destruct (T_prn_mod_samples_value s d Hd Nd) as (t & Et & Qt).
  rewrite Et in V12.
  pose proof (float_to_int_round_inv _ _ V12) as Rn.
  unfold round, float_of_Z in Rn. injection Rn as Rn.
  assert (d_next_prn_length_samples s1 = Qround_away t) as Hn.
  { symmetry. rewrite <- inject_Z_injective. 
    rewrite Rn. reflexivity. }
  unfold ready. members.
  split; [reflexivity|].
  split; [exists 0%Q; split; [exact V4 | discriminate]|].
  split; [exists 0%Q; split; [exact V6 | discriminate]|].
  split.
  { rewrite V11, Hd. destruct (start_tracking_code_freq d) as (c & -> & Ec).
    exists c. split; [reflexivity|]. rewrite F1, Ec. split; [|exact Hc].
    apply Qmult_lt_0_compat; [|reflexivity].
    apply Qlt_shift_div_l; [reflexivity|]. lra. }
  split; [exists e; rewrite F2; auto|].
  split; [exists step; rewrite F9; auto|].
  split; [rewrite F1; exact Hfs|].
  split.
  { rewrite F3, F4, F5, F6, F1, Hn.
    apply (Forall_impl _ _ _ Hlen). intros k [K1 K2]. split; [|exact K2].
    apply Qround_away_upper. rewrite Qt. 
    remember (inject_Z (d_fs_in s) * 1575420 / (1575420000 + d))%Q as T.
    clear - K1. lra. }
  split; [rewrite Lca; exact Hca|].
  split; [rewrite F8; exact Hpb|].
  rewrite F7. exact Hcn.
Qed.

End Arming.

(** ** The table of chips as a periodic code *)

Section Periodic.
Context `{Collab : Collaborators}.

(** The table that [start_tracking] leaves, read at [1 + r]: the chip
    [r mod 1023] of the code, for [r] from -1 to 1023. *)
Lemma start_tracking_ca_code_lookup (s s' : State) (r : Z) :
  length (code_gen_conplex (PRN (d_acquisition_gnss_synchro s)) 0)
  = Z.to_nat 1023 ->
  start_tracking s = Some s' ->
  -1 <= r <= 1023 ->
  array_get (d_ca_code s') (1 + r)
  = code_gen_conplex (PRN (d_acquisition_gnss_synchro s)) 0
      !! Z.to_nat (r mod 1023).
Proof.
  intros L H R.
  apply start_tracking_effect in H
    as (_ & (ca & c1 & c2 & H0 & H1 & H2 & B & ->) & _).
  apply array_store_from_inv in H0 as (L0 & F & C1 & C2); [|lia].
  rewrite L in C1, C2, F.
  specialize (F ltac:(intros E; rewrite E in L; discriminate)).
  change (Z.to_nat 1) with 1%nat in *.
  change (Z.to_nat (code_length_chips + 1)) with 1024%nat.
  change (Z.to_nat 1023) with 1023%nat in *.
  unfold array_get, code_length_chips in H1, H2, B. cbn in H1, H2.
  rewrite list_lookup_insert_ne in H2 by lia.
  pose proof (C1 1022%nat ltac:(lia)) as E1.
  replace (1 + 1022)%nat with (Z.to_nat 1023) in E1 by lia.
  rewrite E1 in H1.
  pose proof (C1 0%nat ltac:(lia)) as E2.
  replace (1 + 0)%nat with (Z.to_nat 1) in E2 by lia.
  rewrite E2 in H2.
  unfold array_get.
  destruct (1 + r <? 0) eqn:E; [apply Z.ltb_lt in E; lia|]. clear E.
  destruct (Z.eq_dec r (-1)) as [->|N1]; [|destruct (Z.eq_dec r 1023) as [->|N2]].
  - change (Z.to_nat (1 + -1)) with 0%nat.
    change (Z.to_nat (-1 mod 1023)) with 1022%nat.
    rewrite list_lookup_insert_ne by lia.
    rewrite list_lookup_insert_eq by lia. congruence.
  - change (Z.to_nat (1 + 1023)) with 1024%nat.
    change (Z.to_nat (1023 mod 1023)) with 0%nat.
    rewrite list_lookup_insert_eq by (rewrite length_insert; lia). congruence.
  - rewrite Z.mod_small by lia.
    replace (Z.to_nat (1 + r)) with (1 + Z.to_nat r)%nat by lia.
    rewrite !list_lookup_insert_ne by lia. apply C1. lia.
Qed.

(** X22: the table with its two extra entries gives the periodic code.
    After [start_tracking], with a code generator that gives the 1023
    chips of the PRN, the chip that [update_local_code] reads for a code
    phase [x] above -1.5 chips is the chip [round(x) mod 1023] of the
    code: entry 0 serves the phases from -1.5 to -0.5, entry 1024 the
    phases that round up to a whole period. *)
Theorem start_tracking_periodic_code (s s' : State) (x : Q) :
  let chips := code_gen_conplex (PRN (d_acquisition_gnss_synchro s)) 0 in
  length chips = Z.to_nat 1023 ->
  start_tracking s = Some s' ->
  (- (3 # 2) < x)%Q ->
  chip_at s' (Fnum x) = chips !! Z.to_nat (Qround_away x mod 1023).
Proof.
  cbv zeta. intros L H Hx.
  unfold chip_at. rewrite associated_chip_index_Fnum.
  cbn [mbind option_bind].
  destruct (Qlt_le_dec x 0) as [Neg|Pos].
  - assert (Qfmod x 1023 == x)%Q as E by (apply Qfmod_small; lra).
    rewrite (Qround_away_comp _ _ E).
    assert (-1 <= Qround_away x <= 0) as R.
    { split.
      - apply Qround_away_lower. change (inject_Z (-1)) with (-1)%Q. lra.
      - apply Qround_away_upper. change (inject_Z 0) with 0%Q. lra. }
    apply start_tracking_ca_code_lookup; [exact L | exact H | lia].
  - destruct (Qfmod_nonneg x 1023 Pos ltac:(reflexivity)) as [F0 F1].
    set (m := Qtrunc (x / 1023)).
    assert (0 <= m) as Hm.
    { assert (0 <= x / 1023)%Q as A
        by (apply Qle_shift_div_l; [reflexivity | lra]).
      unfold m, Qtrunc. rewrite (proj2 (Qle_bool_iff 0 (x / 1023)) A).
      exact (Qfloor_resp_le 0 _ A). }
    assert (x == Qfmod x 1023 + inject_Z (1023 * m))%Q as Ex.
    { unfold Qfmod. fold m. rewrite inject_Z_mult.
      change (inject_Z 1023) with 1023%Q. ring. }
    rewrite (Qround_away_comp _ _ Ex).
    rewrite Qround_away_plus_Z by (try exact F0; lia).
    rewrite Z.mul_comm, Z.mod_add by lia.
    assert (0 <= Qround_away (Qfmod x 1023) <= 1023) as R.
    { split.
      - apply Qround_away_lower. change (inject_Z 0) with 0%Q. lra.
      - apply Qround_away_upper. change (inject_Z 1023) with 1023%Q. lra. }
    apply start_tracking_ca_code_lookup; [exact L | exact H | lia].
Qed.

End Periodic.

(** ** The time stamps of the records *)

Section Stamps.
Context `{Collab : Collaborators}.

(** The time stamp of the record of an armed block past the pull-in, on
    both paths: the value of [d_sample_counter_seconds] before the call. *)
Lemma armed_step_timestamp s w s' o :
  d_enable_tracking s = true -> d_pull_in s = false ->
  general_work s w = Some (s', o) ->
  Tracking_timestamp_secs (out0 o) = d_sample_counter_seconds s.
Proof.
  intros H1 H2 H.
  destruct (general_work_cases s w s' o H)
    as [(E & _)|[(_ & E & _)|[(_ & _ & c & Hc & _ & Hn)
        |(_ & _ & c & l & d & e & Hc & _ & Hl & Hd & He & Hn)]]];
    [congruence | congruence | |].
  - apply general_work_correlate_frame in Hc.
    unfold general_work_nan in Hn. injection Hn as <- <-.
    cbn [out0 Tracking_timestamp_secs]. members.
    rewrite Hc. unfold with_correlation, with_replicas. members. reflexivity.
  - apply general_work_correlate_frame in Hc.
    apply general_work_loops_frame in Hl.
    apply CN0_estimation_and_lock_detectors_frame in Hd.
    unfold general_work_end in Hn. injection Hn as <- <-.
    cbn [out0 tracking_output Tracking_timestamp_secs].
    rewrite Hd. unfold with_detectors. members.
    rewrite Hl. unfold with_loops. members.
    rewrite Hc. unfold with_correlation, with_replicas. members. reflexivity.
Qed.

(** What a step that tracks leaves in [d_sample_counter_seconds] and in
    [d_pull_in]. *)
Lemma tracking_step_seconds s w c s' o :
  d_enable_tracking s = true -> d_pull_in s = false ->
  general_work_correlate s w = Some c ->
  isnan (real (d_Prompt c)) || isnan (imag (d_Prompt c)) = false ->
  general_work s w = Some (s', o) ->
  d_sample_counter_seconds s'
  = (d_sample_counter_seconds s
     + float_of_Z (consumed o) / float_of_Z (d_fs_in s))%F
  /\ d_pull_in s' = false.
Proof.
  intros H1 H2 Hc Hn H.
  rewrite (general_work_tracking_path s w c H1 H2 Hc Hn) in H.
  apply bind_Some in H as (l & Hl & H).
  apply bind_Some in H as (d & Hd & H).
  apply bind_Some in H as (e & He & H).
  apply general_work_correlate_frame in Hc.
  apply general_work_loops_frame in Hl.
  apply CN0_estimation_and_lock_detectors_frame in Hd.
  apply update_last_seg_frame in He.
  unfold general_work_end in H. injection H as <- <-.
  cbn [consumed]. members.
  rewrite He. members.
  rewrite Hd. unfold with_detectors. members.
  rewrite Hl. unfold with_loops. members.
  rewrite Hc. unfold with_correlation, with_replicas. members.
  split; [reflexivity | exact H2].
Qed.

(** X23: the records are stamped one block apart.  After a step that
    tracks, the record of the next call of the block, if it is still armed,
    carries the time stamp of the record of the step plus the duration of
    the samples the step consumed. *)
Theorem tracking_timestamps (s : State) (w : Work_input) (c s' : State)
    (o : Work_output) (w' : Work_input) (s'' : State) (o' : Work_output) :
  d_enable_tracking s = true -> d_pull_in s = false ->
  general_work_correlate s w = Some c ->
  isnan (real (d_Prompt c)) || isnan (imag (d_Prompt c)) = false ->
  general_work s w = Some (s', o) ->
  d_enable_tracking s' = true ->
  general_work s' w' = Some (s'', o') ->
  Tracking_timestamp_secs (out0 o')
  = (Tracking_timestamp_secs (out0 o)
     + float_of_Z (consumed o) / float_of_Z (d_fs_in s))%F.
Proof.
  intros H1 H2 Hc Hn H H1' H'.
  destruct (tracking_step_seconds s w c s' o H1 H2 Hc Hn H) as [E P].
  rewrite (armed_step_timestamp s' w' s'' o' H1' P H').
  rewrite (armed_step_timestamp s w s' o H1 H2 H).
  exact E.
Qed.

End Stamps.

(** ** The remainder of the block length *)

Section Carry.
Context `{Collab : Collaborators}.



End Carry.

(** ** The further properties on the bench *)

(** X1, witness: two calls of the block of the bench before it is armed. *)
Lemma general_work_run_accounting_witness :
  exists s' os,
    general_work_run (Bench.fresh Bench.locked fzero)
      [Bench.samples; Bench.samples] = Some (s', os)
    /\ length os = 2%nat
    /\ Forall (fun o => returned o = 1) os
    /\ to_ulong (d_sample_counter s') = to_ulong (0 + total_consumed os).
Proof.
  assert ((fun _ => tt)
            <$> general_work_run (Bench.fresh Bench.locked fzero)
                  [Bench.samples; Bench.samples] = Some tt) as H
    by (vm_compute; reflexivity).
  apply fmap_Some in H as ([s' os] & H & _).
  exists s', os. split; [exact H|].
  exact (general_work_run_accounting [Bench.samples; Bench.samples]
           (Bench.fresh Bench.locked fzero) s' os H).
Defined.


(** X3, witness: the pull-in of the bench, which leaves the switch and the
    control sink alone. *)
Lemma general_work_switch_off_witness :
  let s := Bench.armed Bench.locked fzero in
  let s' := Bench.aligned Bench.locked fzero in
  (d_enable_tracking s' = d_enable_tracking s
   /\ d_channel_internal_queue s' = d_channel_internal_queue s)
  \/ (d_enable_tracking s = true /\ d_enable_tracking s' = false
      /\ d_channel_internal_queue s' = d_channel_internal_queue s ++ [3]
      /\ d_carrier_lock_fail_counter s' = 0).
Proof.
  exact (general_work_switch_off _ _ _ _ (bench_aligned Bench.locked fzero)).
Defined.

(** X4, witness: the block of the bench after the pull-in. *)
Lemma armed_run_lock_fail_counter_witness :
  0 <= d_carrier_lock_fail_counter (Bench.aligned Bench.locked fzero)
    <= MAXIMUM_LOCK_FAIL_COUNTER.
Proof.
  exact (armed_run_lock_fail_counter _ (bench_armed_run Bench.locked fzero)).
Defined.

(** X5, witness: the block of the bench after the pull-in, with the counter
    at 0. *)
Lemma CN0_estimation_and_lock_detectors_cycle_witness :
  let s := Bench.aligned Bench.locked fzero in
  exists d,
    CN0_estimation_and_lock_detectors s = Some d
    /\ (d_cn0_estimation_counter s < CN0_ESTIMATION_SAMPLES ->
        d = set_d_cn0_estimation_counter (d_cn0_estimation_counter s + 1)
              (set_d_Prompt_buffer
                 (<[Z.to_nat (d_cn0_estimation_counter s) := d_Prompt s]>
                    (d_Prompt_buffer s)) s))
    /\ (d_cn0_estimation_counter s = CN0_ESTIMATION_SAMPLES ->
        d_cn0_estimation_counter d = 0
        /\ d_Prompt_buffer d = d_Prompt_buffer s
        /\ d_CN0_SNV_dB_Hz d = float_of_Z 40
        /\ d_carrier_lock_test d = fone).
Proof.
  apply (CN0_estimation_and_lock_detectors_cycle
           (Bench.aligned Bench.locked fzero)).
  - split; discriminate.
  - reflexivity.
Defined.

(** X6, witness: a lock detector that gives a NaN, with a full Prompt buffer
    and 7 failures counted: the fail counter goes down to 6. *)
Lemma nan_lock_test_counts_as_lock_witness :
  let s := set_d_cn0_estimation_counter 10
             (set_d_carrier_lock_fail_counter 7
                (Bench.aligned no_lock_test fzero)) in
  exists d,
    CN0_estimation_and_lock_detectors s = Some d
    /\ d_carrier_lock_fail_counter d = 6
    /\ d_enable_tracking d = true
    /\ d_channel_internal_queue d = [].
Proof.
  apply (nan_lock_test_counts_as_lock
           (set_d_cn0_estimation_counter 10
              (set_d_carrier_lock_fail_counter 7
                 (Bench.aligned no_lock_test fzero)))).
  - discriminate.
  - reflexivity.
  - discriminate.
Defined.


(** X7, witness: the block of the bench when [general_work] calls
    [update_local_code] for the first time. *)
Lemma update_local_code_replicas_witness :
  let s := set_d_current_prn_length_samples 4000
             (Bench.aligned Bench.locked fzero) in
  exists s',
    update_local_code s = Some s'
    /\ (forall k, (k < 4000)%nat ->
          let x := tcode_chips_at (- (fzero * (float_of_Z 1023000
                                               / float_of_Z 4000000)))%F
                     fzero k in
          is_Some (chip_at s (x - Fnum (1 # 2))%F)
          /\ is_Some (chip_at s x)
          /\ is_Some (chip_at s (x + Fnum (1 # 2))%F)
          /\ d_early_code s' !! k = chip_at s (x - Fnum (1 # 2))%F
          /\ d_prompt_code s' !! k = chip_at s x
          /\ d_late_code s' !! k = chip_at s (x + Fnum (1 # 2))%F)
    /\ (forall j, (4000 <= j)%nat ->
          d_early_code s' !! j = d_early_code s !! j
          /\ d_prompt_code s' !! j = d_prompt_code s !! j
          /\ d_late_code s' !! j = d_late_code s !! j)
    /\ s' = with_replicas (d_early_code s') (d_prompt_code s')
              (d_late_code s') s.
Proof.
  cbv zeta.
  assert (first_early
            <$> update_local_code
                  (set_d_current_prn_length_samples 4000
                     (Bench.aligned Bench.locked fzero))
          = Some (Some (Complex (- fone)%F fzero))) as H
    by (vm_compute; reflexivity).
  apply fmap_Some in H as (s' & H & _).
  exists s'. split; [exact H|].
  exact (update_local_code_replicas _ s' H).
Defined.

(** X8, witness: a block built with a vector length of 1000 samples at
    4 MHz.  [start_tracking] asks for blocks of 4000 samples, the buffers
    hold 2000, and the first call that tracks has no result. *)
Lemma block_longer_than_a_buffer_witness :
  start_tracking Cramped.fresh = Some Cramped.armed
  /\ general_work Cramped.armed Bench.samples
     = Some (Cramped.aligned,
             {| consumed := 4012; returned := 1; out0 := Bench.stale |})
  /\ length (d_early_code Cramped.aligned) = 2000%nat
  /\ d_next_prn_length_samples Cramped.aligned = 4000
  /\ general_work Cramped.aligned Bench.samples = None.
Proof.
  split; [reflexivity|]. split; [reflexivity|]. split; [reflexivity|].
  split; [reflexivity|].
  apply (block_longer_than_a_buffer Cramped.aligned Bench.samples).
  - reflexivity.
  - reflexivity.
  - left. reflexivity.
Defined.

(** X9, witness: the block of the bench when [general_work] calls
    [update_local_carrier] for the first time. *)
Lemma update_local_carrier_replica_witness :
  let s := set_d_current_prn_length_samples 4000
             (Bench.aligned Bench.locked fzero) in
  exists s',
    update_local_carrier s = Some s'
    /\ (forall k, (k < 4000)%nat ->
          d_carr_sign s' !! k = Some (Complex fone fzero))
    /\ (forall j, (4000 <= j)%nat -> d_carr_sign s' !! j = d_carr_sign s !! j)
    /\ d_rem_carr_phase_rad s'
       = fmod (phase_rad_at fzero
                 (Fnum (62831853071796 # 10000000000000) * fzero
                  / float_of_Z 4000000)%F 4000)
              (Fnum (62831853071796 # 10000000000000))
    /\ d_acc_carrier_phase_rad s' = (fzero + d_rem_carr_phase_rad s')%F.
Proof.
  cbv zeta.
  assert (d_rem_carr_phase_rad
            <$> update_local_carrier
                  (set_d_current_prn_length_samples 4000
                     (Bench.aligned Bench.locked fzero))
          = Some fzero) as H
    by (vm_compute; reflexivity).
  apply fmap_Some in H as (s' & H & _).
  exists s'. split; [exact H|].
  exact (update_local_carrier_replica _ s' H).
Defined.

(** X10, witness: the block of the bench entered with a carrier phase of
    7 rad: the remainder is 7 - 2 pi. *)
Lemma update_local_carrier_remainder_witness :
  let s := set_d_current_prn_length_samples 4000
             (set_d_rem_carr_phase_rad (float_of_Z 7)
                (Bench.aligned Bench.locked fzero)) in
  exists s',
    update_local_carrier s = Some s'
    /\ d_rem_carr_phase_rad s' = Fnum (1792036732051 # 2500000000000)
    /\ (- (62831853071796 # 10000000000000)
        < 1792036732051 # 2500000000000)%Q
    /\ (1792036732051 # 2500000000000
        < 62831853071796 # 10000000000000)%Q.
Proof.
  cbv zeta.
  assert (d_rem_carr_phase_rad
            <$> update_local_carrier
                  (set_d_current_prn_length_samples 4000
                     (set_d_rem_carr_phase_rad (float_of_Z 7)
                        (Bench.aligned Bench.locked fzero)))
          = Some (Fnum (1792036732051 # 2500000000000))) as H
    by (vm_compute; reflexivity).
  apply fmap_Some in H as (s' & H & E).
  exists s'. split; [exact H|]. split; [symmetry; exact E|].
  exact (update_local_carrier_remainder _ s' _ _ eq_refl eq_refl H
           (eq_sym E)).
Defined.

(** X11, witness: the table of PRN 1 on the bench. *)
Lemma start_tracking_ca_code_witness :
  let s := Bench.fresh Bench.locked fzero in
  let s' := Bench.armed Bench.locked fzero in
  let chips := Bench.code_gen 1 0 in
  (forall k, (k < 1023)%nat -> d_ca_code s' !! (1 + k)%nat = chips !! k)
  /\ d_ca_code s' !! 0%nat = chips !! 1022%nat
  /\ d_ca_code s' !! 1024%nat = chips !! 0%nat
  /\ length (d_ca_code s') = length (d_ca_code s).
Proof.
  cbv zeta.
  apply (start_tracking_ca_code (Bench.fresh Bench.locked fzero)
           (Bench.armed Bench.locked fzero)).
  - vm_compute. reflexivity.
  - apply bench_armed.
Defined.

(** X12, witness: the block of the bench. *)
Lemma start_tracking_arms_witness :
  let s := Bench.fresh Bench.locked fzero in
  exists s',
    start_tracking s = Some s'
    /\ d_enable_tracking s' = true /\ d_pull_in s' = true
    /\ d_carrier_lock_fail_counter s' = 0
    /\ d_rem_code_phase_samples s' = fzero
    /\ d_rem_carr_phase_rad s' = fzero
    /\ d_acc_carrier_phase_rad s' = fzero
    /\ d_carrier_doppler_hz s' = Fnum 0
    /\ d_sample_counter s' = d_sample_counter s
    /\ d_sample_counter_seconds s' = d_sample_counter_seconds s
    /\ d_channel_internal_queue s' = d_channel_internal_queue s
    /\ d_cn0_estimation_counter s' = d_cn0_estimation_counter s.
Proof.
  cbv zeta.
  apply (start_tracking_arms (Bench.fresh Bench.locked fzero) 0).
  - reflexivity.
  - discriminate.
  - vm_compute. discriminate.
  - vm_compute. reflexivity.
  - apply Nat.leb_le. vm_compute. reflexivity.
Defined.

(** X13, witness: the block of the bench bound to an acquisition whose
    Doppler is a NaN, and to one whose Doppler is -L1. *)
Lemma start_tracking_without_period_witness :
  start_tracking
    (set_gnss_synchro (Bench.acquisition (float_of_Z 12) Fnan 0)
       (Bench.fresh Bench.locked fzero)) = None
  /\ start_tracking
       (set_gnss_synchro
          (Bench.acquisition (float_of_Z 12) (float_of_Z (-1575420000)) 0)
          (Bench.fresh Bench.locked fzero)) = None.
Proof.
  split.
  - apply start_tracking_without_period. left. reflexivity.
  - apply start_tracking_without_period. right.
    exists (inject_Z (-1575420000)). split; reflexivity.
Defined.

(** X14, witness: the block of the bench armed 2000 samples after an
    acquisition at code phase 0 with a Doppler of -5000 Hz. *)
Lemma start_tracking_code_phase_witness :
  let s := Bench.late Bench.locked fzero in
  let T := (inject_Z 4000000 / 1000)%Q in
  let Tmod := (inject_Z 4000000 * 1575420 / (1575420000 + -5000))%Q in
  exists s' q,
    start_tracking s = Some s'
    /\ d_acq_code_phase_samples s' = Fnum q
    /\ d_code_phase_samples s' = Fnum q
    /\ ((0 <= q /\ q < T) \/ (Tmod - T < q /\ q < Tmod))%Q
    /\ ((-5000 == 0)%Q -> (0 <= q /\ q < T)%Q).
Proof.
  cbv zeta.
  assert (handover <$> start_tracking (Bench.late Bench.locked fzero)
          = Some (float_of_Z (-5000), Fnum (78770750 # 77),
                  Fnum (1260334000 # 315083))) as H
    by (vm_compute; reflexivity).
  apply fmap_Some in H as (s' & H & _).
  destruct (start_tracking_code_phase (Bench.late Bench.locked fzero) s'
              0 (-5000) eq_refl eq_refl ltac:(discriminate) eq_refl H)
    as (q & E).
  exists s', q. split; [exact H | exact E].
Defined.

(** X15, witness: the pull-in of the bench, code phase 12 and no delay. *)
Lemma pull_in_alignment_witness :
  let o := {| consumed := 4012; returned := 1; out0 := Bench.stale |} in
  consumed o = 12 + (4000 - (0 - 0) mod 4000)
  /\ 12 < consumed o <= 12 + 4000
  /\ (0 - 0 + consumed o) mod 4000 = 12 mod 4000.
Proof.
  cbv zeta.
  apply (pull_in_alignment (Bench.armed Bench.locked fzero) Bench.samples
           (Bench.aligned Bench.locked fzero)
           {| consumed := 4012; returned := 1; out0 := Bench.stale |} 12).
  - reflexivity.
  - reflexivity.
  - reflexivity.
  - split; [discriminate | reflexivity].
  - reflexivity.
  - discriminate.
  - discriminate.
  - apply bench_aligned.
Defined.

(** X16, witness: the loops of the bench on the state the pull-in leaves. *)
Lemma general_work_loops_code_phase_range_witness :
  let c := Bench.aligned Bench.locked fzero in
  exists l,
    general_work_loops c = Some l
    /\ (exists y, d_code_phase_samples l = Fnum y
                  /\ (0 <= y)%Q /\ (y < inject_Z 4000000 / 1000)%Q)
    /\ (exists z,
          Code_phase_secs (tracking_output l (d_acquisition_gnss_synchro c))
          = Fnum z
          /\ (0 <= z)%Q /\ (z < 1 / 1000)%Q).
Proof.
  cbv zeta.
  assert (d_code_freq_hz
            <$> general_work_loops (Bench.aligned Bench.locked fzero)
          = Some (float_of_Z 1023000)) as H
    by (vm_compute; reflexivity).
  apply fmap_Some in H as (l & H & E).
  exists l. split; [exact H|].
  apply (general_work_loops_code_phase_range
           (Bench.aligned Bench.locked fzero) l 12 1023000).
  - reflexivity.
  - reflexivity.
  - symmetry. exact E.
  - reflexivity.
  - discriminate.
  - exact H.
Defined.

(** X17, witness: the pull-in of the bench. *)
Lemma general_work_configuration_witness :
  configuration (Bench.aligned Bench.locked fzero)
  = configuration (Bench.armed Bench.locked fzero)
  /\ allocation (Bench.aligned Bench.locked fzero)
     = allocation (Bench.armed Bench.locked fzero).
Proof.
  exact (general_work_configuration _ _ _ _
           (bench_aligned Bench.locked fzero)).
Defined.

(** X18, witness: the first call of the bench that tracks. *)
Lemma tracking_step_output_witness :
  let s := Bench.aligned Bench.locked fzero in
  let acq := d_acquisition_gnss_synchro s in
  exists c s' o,
    general_work_correlate s Bench.samples = Some c
    /\ general_work s Bench.samples = Some (s', o)
    /\ (System (out0 o), PRN (out0 o), Acq_delay_samples (out0 o),
        Acq_doppler_hz (out0 o), Acq_samplestamp_samples (out0 o),
        Flag_valid_tracking (out0 o))
       = (System acq, PRN acq, Acq_delay_samples acq, Acq_doppler_hz acq,
          Acq_samplestamp_samples acq, Flag_valid_tracking acq)
    /\ Prompt_I (out0 o) = real (d_Prompt c)
    /\ Prompt_Q (out0 o) = imag (d_Prompt c)
    /\ Tracking_timestamp_secs (out0 o) = d_sample_counter_seconds s
    /\ Carrier_phase_rads (out0 o) = d_acc_carrier_phase_rad s'
    /\ Code_phase_secs (out0 o)
       = (d_code_phase_samples s' * (fone / float_of_Z (d_fs_in s)))%F
    /\ CN0_dB_hz (out0 o) = d_CN0_SNV_dB_Hz s'
    /\ consumed o = d_next_prn_length_samples s.
Proof.
  cbv zeta.
  destruct (bench_correlate Bench.locked) as (c & Hc & Fc & Ho).
  assert (isnan (real (d_Prompt c)) || isnan (imag (d_Prompt c)) = false)
    as Hn by (injection Ho as _ -> _; reflexivity).
  assert ((fun _ => tt)
            <$> general_work (Bench.aligned Bench.locked fzero) Bench.samples
          = Some tt) as H.
  { rewrite (general_work_tracking_path (Bench.aligned Bench.locked fzero)
               Bench.samples c eq_refl eq_refl Hc Hn), Fc.
    vm_compute. reflexivity. }
  apply fmap_Some in H as ([s' o] & H & _).
  exists c, s', o. split; [exact Hc|]. split; [exact H|].
  exact (tracking_step_output (Bench.aligned Bench.locked fzero)
           Bench.samples c s' o eq_refl eq_refl Hc Hn H).
Defined.

(** The block of the bench after the pull-in is ready. *)
Lemma bench_ready : ready (Bench.aligned Bench.locked fzero).
Proof.
  unfold ready. split; [reflexivity|].
  split; [exists 0%Q; split; [reflexivity | discriminate]|].
  split; [exists 0%Q; split; [reflexivity | discriminate]|].
  split; [exists 1023000%Q; split; [reflexivity|];
          split; [reflexivity | discriminate]|].
  split; [exists (1 # 2)%Q; split; [reflexivity|];
          split; [reflexivity | discriminate]|].
  split; [exists 0%Q; split; [reflexivity | discriminate]|].
  split; [split; [discriminate | reflexivity]|].
  split.
  { repeat constructor; vm_compute; discriminate. }
  split; [vm_compute; reflexivity|].
  split; [vm_compute; reflexivity|].
  split; discriminate.
Qed.

(** X20, witness: three calls of the bench after the pull-in. *)
Lemma general_work_run_defined_witness :
  exists s' os,
    general_work_run (Bench.aligned Bench.locked fzero)
      [Bench.samples; Bench.samples; Bench.samples] = Some (s', os)
    /\ steady s'.
Proof.
  apply (general_work_run_defined (Collab := Bench.collaborators Bench.locked)).
  - intros code_error f. exists 0%Q. split; [reflexivity | discriminate].
  - split; [exact bench_ready|].
    exists 0%Q. split; [reflexivity | discriminate].
Defined.

(** X21, witness: the block of the bench, armed and pulled in. *)
Lemma start_tracking_makes_ready_witness :
  ready (Bench.aligned Bench.locked fzero).
Proof.
  apply (start_tracking_makes_ready (Bench.fresh Bench.locked fzero)
           (Bench.armed Bench.locked fzero)
           (Bench.aligned Bench.locked fzero) Bench.samples
           {| consumed := 4012; returned := 1; out0 := Bench.stale |}
           0 (1 # 2) 0).
  - reflexivity.
  - discriminate.
  - reflexivity.
  - reflexivity.
  - discriminate.
  - split; [discriminate | reflexivity].
  - reflexivity.
  - reflexivity.
  - vm_compute. discriminate.
  - repeat constructor; vm_compute; discriminate.
  - vm_compute. reflexivity.
  - vm_compute. reflexivity.
  - split; discriminate.
  - apply bench_armed.
  - apply bench_aligned.
Defined.

(** X22, witness: the table of PRN 1 on the bench, read at the code phase
    -1: the last chip of the code. *)
Lemma start_tracking_periodic_code_witness :
  chip_at (Bench.armed Bench.locked fzero) (Fnum (- 1))
  = Bench.code_gen 1 0 !! Z.to_nat (Qround_away (- 1) mod 1023).
Proof.
  apply (start_tracking_periodic_code (Bench.fresh Bench.locked fzero)
           (Bench.armed Bench.locked fzero) (- 1)).
  - vm_compute. reflexivity.
  - apply bench_armed.
  - reflexivity.
Defined.

(** X23, witness: the first two calls of the bench that track. *)
Lemma tracking_timestamps_witness :
  let s := Bench.aligned Bench.locked fzero in
  exists s' o s'' o',
    general_work s Bench.samples = Some (s', o)
    /\ general_work s' Bench.samples = Some (s'', o')
    /\ Tracking_timestamp_secs (out0 o')
       = (Tracking_timestamp_secs (out0 o)
          + float_of_Z (consumed o) / float_of_Z (d_fs_in s))%F.
Proof.
  cbv zeta.
  assert (forall (code_error : float)
            (f : @Tracking_2nd_DLL_filter (Bench.collaborators Bench.locked)),
            exists n, (get_code_nco code_error f).1 = Fnum n
                      /\ (Qabs n <= 1000)%Q) as B
    by (intros code_error f; exists 0%Q; split; [reflexivity | discriminate]).
  destruct (bench_correlate Bench.locked) as (c & Hc & Fc & Ho).
  assert (isnan (real (d_Prompt c)) || isnan (imag (d_Prompt c)) = false)
    as Hn by (injection Ho as _ -> _; reflexivity).
  assert ((fun r : State * Work_output => d_enable_tracking r.1)
            <$> general_work (Bench.aligned Bench.locked fzero) Bench.samples
          = Some true) as H.
  { rewrite (general_work_tracking_path (Bench.aligned Bench.locked fzero)
               Bench.samples c eq_refl eq_refl Hc Hn), Fc.
    vm_compute. reflexivity. }
  apply fmap_Some in H as ([s' o] & H & E). cbn in E.
  destruct (general_work_keeps_ready B (Bench.aligned Bench.locked fzero)
              Bench.samples bench_ready) as (s1 & o1 & G & R).
  pose proof (eq_trans (eq_sym H) G) as Q. injection Q as -> ->.
  destruct (general_work_keeps_ready B s1 Bench.samples R)
    as (s'' & o' & H' & _).
  exists s1, o1, s'', o'. split; [exact H|]. split; [exact H'|].
  exact (tracking_timestamps (Bench.aligned Bench.locked fzero)
           Bench.samples c s1 o1 Bench.samples s'' o' eq_refl eq_refl Hc Hn H
           (eq_sym E) H').
Defined.

